(** * Seat reservation and booking confirmation: a shallow embedding

    The two request handlers of the ticketing storefront,

    - [src/app/api/seats/reserve/route.ts]  (the Reservation Manager), and
    - the booking-creation route            (the Booking Finalizer),

    are embedded as programs of a small state-and-early-return monad over a
    model of the datastore.  The datastore, the clock, the authentication
    service and the e-mail service are collaborators of the handlers: their
    answers are inputs of the model, gathered in an environment [Env]. *)

From Stdlib Require Import String Ascii List ZArith Lia Bool DecimalString.
Import ListNotations.
Local Open Scope string_scope.
Local Open Scope Z_scope.

Set Implicit Arguments.

(* ===================================================================== *)
(** ** JavaScript helpers                                                 *)
(* ===================================================================== *)

(** [String.prototype.toLowerCase], on the ASCII letters.  The handlers only
    compare the result with the ASCII words "available" and "reserved", and
    no non-ASCII letter lowers to one of the letters of these words. *)
Definition lower_ascii (c : ascii) : ascii :=
  let n := nat_of_ascii c in
  if (Nat.leb 65 n && Nat.leb n 90)%bool then ascii_of_nat (n + 32) else c.

Fixpoint toLowerCase (s : string) : string :=
  match s with
  | EmptyString => EmptyString
  | String c r => String (lower_ascii c) (toLowerCase r)
  end.

(** Truthiness of a string value that may be [null] or [undefined]. *)
Definition truthy (o : option string) : bool :=
  match o with
  | None => false
  | Some s => negb (s =? "")%string
  end.

(** [o || d] on such a value. *)
Definition or_default (o : option string) (d : string) : string :=
  match o with
  | Some s => if (s =? "")%string then d else s
  | None => d
  end.

(** A number inside a template literal. *)
Definition string_of_Z (z : Z) : string := NilZero.string_of_int (Z.to_int z).

Definition len {A : Type} (l : list A) : Z := Z.of_nat (length l).

Definition mem (x : string) (l : list string) : bool :=
  existsb (String.eqb x) l.

(* ===================================================================== *)
(** ** Data model                                                         *)
(* ===================================================================== *)

(** A row of the [seats] table.  [status] is a nullable text column and
    [reserved_until] a nullable timestamp, read by the handler through
    [new Date(..).getTime()]: milliseconds since the epoch. *)
Record Seat := mkSeat {
  id : string;
  show_id : string;
  section : string;
  row : string;
  number : Z;
  price_nok : Z;
  status : option string;
  reserved_until : option Z
}.

Record Venue := mkVenue {
  venue_name : string;
  address : string;
  postal_code : string;
  city : string
}.

Record Show := mkShow {
  show_key : string;
  title : option string;
  ensemble_title : option string;
  show_datetime : string;
  available_seats : Z;
  venue : option Venue
}.

Record SeatSummary := mkSummary {
  sum_section : string;
  sum_row : string;
  sum_number : Z
}.

(** The ticket payload built by [createQRCodeData]. *)
Record QrData := mkQr {
  qr_booking_id : string;
  qr_booking_reference : string;
  qr_show_id : string;
  qr_show_title : string;
  qr_show_datetime : string;
  qr_customer_name : string;
  qr_seats : list SeatSummary
}.

Record Booking := mkBooking {
  booking_id : string;
  user_id : string;
  booking_show_id : string;
  seat_ids : list string;
  total_amount_nok : Z;
  booking_reference : string;
  qr_code_data : QrData;
  customer_name : string;
  customer_email : string;
  customer_phone : option string;
  special_requests : option string;
  booking_status : string;
  confirmed_at : Z;
  ticket_sent : bool;
  discount_code_used : option string
}.

Record DiscountCode := mkCode {
  code_id : string;
  code : string;
  current_uses : option Z
}.

Record Store := mkStore {
  seats : list Seat;
  shows : list Show;
  bookings : list Booking;
  discount_codes : list DiscountCode
}.

(* ===================================================================== *)
(** ** The datastore collaborator                                         *)
(* ===================================================================== *)

(** A query on [seats]: [.in("id", ids)], optionally [.eq("show_id", _)] and
    [.eq("status", _)].  A [null] status equals no text. *)
Record SeatFilter := mkFilter {
  f_ids : list string;
  f_show : option string;
  f_status : option string
}.

Definition matches (f : SeatFilter) (s : Seat) : bool :=
  (mem (id s) (f_ids f)
   && match f_show f with Some sh => (show_id s =? sh)%string | None => true end
   && match f_status f, status s with
      | Some want, Some have => (have =? want)%string
      | Some _, None => false
      | None, _ => true
      end)%bool.

(** The columns written by [.update({ status, reserved_until })]. *)
Record SeatPatch := mkPatch {
  p_status : string;
  p_reserved_until : option Z
}.

Definition patch (p : SeatPatch) (s : Seat) : Seat :=
  mkSeat (id s) (show_id s) (section s) (row s) (number s) (price_nok s)
         (Some (p_status p)) (p_reserved_until p).

(** The table after [.update(p)] restricted by [f]: the matching rows are
    patched, every other row is left as it is. *)
Definition write_seats (f : SeatFilter) (p : SeatPatch) (t : list Seat) : list Seat :=
  map (fun s => if matches f s then patch p s else s) t.

Definition with_seats (t : list Seat) (st : Store) : Store :=
  mkStore t (shows st) (bookings st) (discount_codes st).

Definition with_bookings (t : list Booking) (st : Store) : Store :=
  mkStore (seats st) (shows st) t (discount_codes st).

Definition with_shows (t : list Show) (st : Store) : Store :=
  mkStore (seats st) t (bookings st) (discount_codes st).

Definition with_codes (t : list DiscountCode) (st : Store) : Store :=
  mkStore (seats st) (shows st) (bookings st) t.

(** The store calls of the two handlers, one name per call in the source. *)
Inductive Site :=
| CheckSeats | Cleanup | ReserveUpdate | Rollback
| GetShow | GetSeats | GetDiscount | BumpDiscount | InsertBooking
| SetDiscountUsed | SetQr | SellSeats | DecrementShow | SetTicketSent.

(** How a store call can go wrong: the client resolves to [{ error }], or
    the awaited promise rejects. *)
Inductive Fault :=
| NoFault
| DbError (message : string)
| Thrown.

(** The answer [{ data, error }] of a store call. *)
Record DbResult (A : Type) := mkResult {
  data : option A;
  error : option string
}.

(** The columns a handler writes on a booking row after the insert. *)
Inductive BookingPatch :=
| PatchDiscountUsed (c : string)
| PatchQr (q : QrData)
| PatchTicketSent (b : bool).

Definition patch_booking (p : BookingPatch) (b : Booking) : Booking :=
  match p with
  | PatchDiscountUsed c =>
      mkBooking (booking_id b) (user_id b) (booking_show_id b) (seat_ids b)
        (total_amount_nok b) (booking_reference b) (qr_code_data b)
        (customer_name b) (customer_email b) (customer_phone b)
        (special_requests b) (booking_status b) (confirmed_at b)
        (ticket_sent b) (Some c)
  | PatchQr q =>
      mkBooking (booking_id b) (user_id b) (booking_show_id b) (seat_ids b)
        (total_amount_nok b) (booking_reference b) q
        (customer_name b) (customer_email b) (customer_phone b)
        (special_requests b) (booking_status b) (confirmed_at b)
        (ticket_sent b) (discount_code_used b)
  | PatchTicketSent t =>
      mkBooking (booking_id b) (user_id b) (booking_show_id b) (seat_ids b)
        (total_amount_nok b) (booking_reference b) (qr_code_data b)
        (customer_name b) (customer_email b) (customer_phone b)
        (special_requests b) (booking_status b) (confirmed_at b)
        t (discount_code_used b)
  end.

(** The arguments and the answer of [sendTicketEmail]. *)
Record SeatLine := mkLine {
  line_section : string;
  line_row : string;
  line_number : Z;
  line_price_nok : Z
}.

Record EmailArgs := mkEmail {
  e_customerName : string;
  e_customerEmail : string;
  e_bookingReference : string;
  e_showTitle : string;
  e_showDatetime : string;
  e_venueName : string;
  e_venueAddress : string;
  e_seats : list SeatLine;
  e_totalAmount : Z;
  e_qrCodeData : QrData
}.

Inductive EmailOutcome :=
| EmailReturned (success : bool) (err : option string)
| EmailThrewError (message : string)
| EmailThrewOther.

(** What a request did to the outside world, in order. *)
Inductive Effect :=
| SeatsWrite (site : Site) (f : SeatFilter) (p : SeatPatch) (changed : option (list string))
| BookingInsert (b : Booking) (ok : bool)
| BookingWrite (site : Site) (key : string) (p : BookingPatch) (ok : bool)
| CodeWrite (key : string) (uses : Z) (ok : bool)
| ShowWrite (key : string) (available : Z) (ok : bool)
| EmailCall (a : EmailArgs) (o : EmailOutcome).

(** The collaborators of one request. *)
Record Env := mkEnv {
  (** [process.env.SUPABASE_SERVICE_ROLE_KEY] is set *)
  service_role_key : bool;
  (** [Date.now()] where the hold is computed, and where holds are compared *)
  now_at_hold : Z;
  now_at_check : Z;
  (** [new Date()] at the booking insert *)
  now_at_insert : Z;
  (** outcome of each store call *)
  fault : Site -> Fault;
  (** writes of other requests that the store serves just before a call *)
  concurrent : Site -> Store -> Store;
  (** [auth.getUser()] *)
  current_user : option string;
  (** [generateBookingReference()] *)
  generateBookingReference : string;
  (** the key the store gives the inserted booking *)
  new_booking_id : string;
  sendTicketEmail : EmailArgs -> EmailOutcome
}.

(** No other request writes while this one runs. *)
Definition quiet (env : Env) : Prop :=
  forall site st, concurrent env site st = st.

(* ===================================================================== *)
(** ** Responses                                                          *)
(* ===================================================================== *)

Inductive Body :=
| BError (err : string)
| BErrorDetails (err details : string)
| BUnavailable (err : string) (unavailableSeatIds : list string)
| BReserved (reservedUntil : Z) (seatIds : list string)
| BBooked (bookingId bookingReference : string) (emailSent : bool)
          (emailError : option string).

Record Response := mkResponse {
  http_status : Z;
  body : Body
}.

(** [NextResponse.json(b)] answers 200. *)
Definition json (b : Body) : Response := mkResponse 200 b.
Definition json_status (b : Body) (code : Z) : Response := mkResponse code b.

(* ===================================================================== *)
(** ** The handler monad                                                  *)
(* ===================================================================== *)

Record World := mkWorld {
  db : Store;
  issued : list Effect
}.

Inductive Outcome (A : Type) :=
| Ok (a : A)
| Return (r : Response)
| Throw.
Arguments Return {A} r.
Arguments Throw {A}.

Definition M (A : Type) : Type := World -> Outcome A * World.

Definition ret {A} (a : A) : M A := fun w => (Ok a, w).

Definition bind {A B} (m : M A) (k : A -> M B) : M B :=
  fun w =>
    match m w with
    | (Ok a, w1) => k a w1
    | (Return r, w1) => (Return r, w1)
    | (Throw, w1) => (Throw, w1)
    end.

(** [return NextResponse.json(..)] in the middle of the handler. *)
Definition respond {A} (r : Response) : M A := fun w => (Return r, w).

Definition throw {A} : M A := fun w => (Throw, w).

(** [try { m } catch (e) { console.warn(..) }] *)
Definition try_ignore (m : M unit) : M unit :=
  fun w =>
    match m w with
    | (Throw, w1) => (Ok tt, w1)
    | other => other
    end.

Declare Scope handler_scope.
Delimit Scope handler_scope with handler.
Notation "x <- m ;; k" := (bind m (fun x => k))
  (at level 100, m at next level, right associativity) : handler_scope.
Notation "m ;; k" := (bind m (fun _ => k))
  (at level 100, right associativity) : handler_scope.
Local Open Scope handler_scope.

(** The outer [try { .. } catch (error) { return 500 }] of a handler. *)
Definition answer (res : Outcome Response * World) : Response * World :=
  match res with
  | (Ok r, w) => (r, w)
  | (Return r, w) => (r, w)
  | (Throw, w) => (json_status (BError "Intern serverfeil") 500, w)
  end.

Definition run_handler (m : M Response) (st : Store) : Response * World :=
  answer (m (mkWorld st [])).

(** *** Store calls *)

Definition serve (env : Env) (site : Site) (w : World) : World :=
  mkWorld (concurrent env site (db w)) (issued w).

Definition emit (e : Effect) (w : World) : World :=
  mkWorld (db w) (issued w ++ [e]).

(** [from("seats").select(..)] with the given restriction. *)
Definition select_seats (env : Env) (site : Site) (f : SeatFilter)
  : M (DbResult (list Seat)) :=
  fun w =>
    let w1 := serve env site w in
    match fault env site with
    | NoFault => (Ok (mkResult (Some (filter (matches f) (seats (db w1)))) None), w1)
    | DbError msg => (Ok (mkResult None (Some msg)), w1)
    | Thrown => (Throw, w1)
    end.

(** [from("seats").update(p)] with the given restriction; the answer carries
    the rows that were changed (what [.select("id")] asks for). *)
Definition update_seats (env : Env) (site : Site) (f : SeatFilter) (p : SeatPatch)
  : M (DbResult (list Seat)) :=
  fun w =>
    let w1 := serve env site w in
    match fault env site with
    | NoFault =>
        let hit := filter (matches f) (seats (db w1)) in
        (Ok (mkResult (Some (map (patch p) hit)) None),
         emit (SeatsWrite site f p (Some (map id hit)))
              (mkWorld (with_seats (write_seats f p (seats (db w1))) (db w1)) (issued w1)))
    | DbError msg =>
        (Ok (mkResult None (Some msg)), emit (SeatsWrite site f p None) w1)
    | Thrown => (Throw, emit (SeatsWrite site f p None) w1)
    end.

(** [.single()]: exactly one row, or an error. *)
Definition single {A : Type} (rows : list A) : DbResult A :=
  match rows with
  | [x] => mkResult (Some x) None
  | _ => mkResult None (Some "JSON object requested, multiple (or no) rows returned")
  end.

(** [from("shows").select(..).eq("id", key).single()] *)
Definition select_show (env : Env) (site : Site) (key : string) : M (DbResult Show) :=
  fun w =>
    let w1 := serve env site w in
    match fault env site with
    | NoFault =>
        (Ok (single (filter (fun s => (show_key s =? key)%string) (shows (db w1)))), w1)
    | DbError msg => (Ok (mkResult None (Some msg)), w1)
    | Thrown => (Throw, w1)
    end.

(** [from("discount_codes").select("*").eq("code", c).single()] *)
Definition select_code (env : Env) (site : Site) (c : string) : M (DbResult DiscountCode) :=
  fun w =>
    let w1 := serve env site w in
    match fault env site with
    | NoFault =>
        (Ok (single (filter (fun d => (code d =? c)%string) (discount_codes (db w1)))), w1)
    | DbError msg => (Ok (mkResult None (Some msg)), w1)
    | Thrown => (Throw, w1)
    end.

(** [from("discount_codes").update({ current_uses }).eq("id", key)] *)
Definition update_code (env : Env) (site : Site) (key : string) (uses : Z)
  : M (DbResult unit) :=
  fun w =>
    let w1 := serve env site w in
    match fault env site with
    | NoFault =>
        (Ok (mkResult None None),
         emit (CodeWrite key uses true)
              (mkWorld
                 (with_codes
                    (map (fun d => if (code_id d =? key)%string
                                   then mkCode (code_id d) (code d) (Some uses) else d)
                         (discount_codes (db w1)))
                    (db w1))
                 (issued w1)))
    | DbError msg => (Ok (mkResult None (Some msg)), emit (CodeWrite key uses false) w1)
    | Thrown => (Throw, emit (CodeWrite key uses false) w1)
    end.

(** [from("bookings").insert(b).select().single()]: the row is appended and
    handed back. *)
Definition insert_booking (env : Env) (site : Site) (b : Booking) : M (DbResult Booking) :=
  fun w =>
    let w1 := serve env site w in
    match fault env site with
    | NoFault =>
        (Ok (mkResult (Some b) None),
         emit (BookingInsert b true)
              (mkWorld (with_bookings (bookings (db w1) ++ [b]) (db w1)) (issued w1)))
    | DbError msg => (Ok (mkResult None (Some msg)), emit (BookingInsert b false) w1)
    | Thrown => (Throw, emit (BookingInsert b false) w1)
    end.

(** [from("bookings").update(p).eq("id", key)] *)
Definition update_booking (env : Env) (site : Site) (key : string) (p : BookingPatch)
  : M (DbResult unit) :=
  fun w =>
    let w1 := serve env site w in
    match fault env site with
    | NoFault =>
        (Ok (mkResult None None),
         emit (BookingWrite site key p true)
              (mkWorld
                 (with_bookings
                    (map (fun b => if (booking_id b =? key)%string
                                   then patch_booking p b else b)
                         (bookings (db w1)))
                    (db w1))
                 (issued w1)))
    | DbError msg => (Ok (mkResult None (Some msg)), emit (BookingWrite site key p false) w1)
    | Thrown => (Throw, emit (BookingWrite site key p false) w1)
    end.

(** [from("shows").update({ available_seats }).eq("id", key)] *)
Definition update_show (env : Env) (site : Site) (key : string) (available : Z)
  : M (DbResult unit) :=
  fun w =>
    let w1 := serve env site w in
    match fault env site with
    | NoFault =>
        (Ok (mkResult None None),
         emit (ShowWrite key available true)
              (mkWorld
                 (with_shows
                    (map (fun s => if (show_key s =? key)%string
                                   then mkShow (show_key s) (title s) (ensemble_title s)
                                               (show_datetime s) available (venue s)
                                   else s)
                         (shows (db w1)))
                    (db w1))
                 (issued w1)))
    | DbError msg => (Ok (mkResult None (Some msg)), emit (ShowWrite key available false) w1)
    | Thrown => (Throw, emit (ShowWrite key available false) w1)
    end.

(** [await sendTicketEmail(args)] *)
Definition send_email (env : Env) (a : EmailArgs) : M EmailOutcome :=
  fun w => (Ok (sendTicketEmail env a), emit (EmailCall a (sendTicketEmail env a)) w).

(* ===================================================================== *)
(** ** Reservation Manager: [POST /api/seats/reserve]                     *)
(* ===================================================================== *)

Module Reserve.

(** The parsed request body; [None] stands for a field that is missing or
    has the wrong type. *)
Record RequestBody := mkBody {
  seatIds : option (list string);
  showId : option string
}.

(** The callback of [currentSeats.filter(..)], without its side effect: the
    normalised status and the three ways it is told apart. *)
Inductive Class := Eligible | Expired | Unavailable.

Definition classify (now : Z) (s : Seat) : Class :=
  let st := toLowerCase (or_default (status s) "available") in
  if (st =? "available")%string then Eligible
  else if (st =? "reserved")%string then
    let until := match reserved_until s with Some t => t | None => 0 end in
    if (negb (until =? 0)%Z && (until >? now)%Z)%bool then Unavailable
    else Expired
  else Unavailable.

Definition is_unavailable (now : Z) (s : Seat) : bool :=
  match classify now s with Unavailable => true | _ => false end.

Definition is_expired (now : Z) (s : Seat) : bool :=
  match classify now s with Expired => true | _ => false end.

Definition seat_label (s : Seat) : string :=
  "Rad " ++ row s ++ ", Sete " ++ string_of_Z (number s).

Definition hold_window : Z := 10 * 60 * 1000.

Definition available_patch : SeatPatch := mkPatch "available" None.

Definition check_filter (seatIds : list string) (showId : string) : SeatFilter :=
  mkFilter seatIds (Some showId) None.

Definition reserve_filter (seatIds : list string) (showId : string) : SeatFilter :=
  mkFilter seatIds (Some showId) (Some "available").

Definition reserve_patch (reservedUntil : Z) : SeatPatch :=
  mkPatch "reserved" (Some reservedUntil).

Definition by_ids (ids : list string) : SeatFilter := mkFilter ids None None.

Definition taken_message (failedCount : Z) : string :=
  string_of_Z failedCount ++ " av setene ble nettopp tatt av noen andre".

(** The cleanup of the expired holds: its failure is caught and logged. *)
Definition cleanup_expired (env : Env) (expiredReservedIds : list string) : M unit :=
  if (0 <? len expiredReservedIds)%Z
  then try_ignore
         (_ <- update_seats env Cleanup (by_ids expiredReservedIds) available_patch ;;
          ret tt)
  else ret tt.

(** The rollback of a partial update. *)
Definition rollback (env : Env) (reservedIds : list string) : M unit :=
  if (0 <? len reservedIds)%Z
  then _ <- update_seats env Rollback (by_ids reservedIds) available_patch ;; ret tt
  else ret tt.

(** The handler from the status check on: classification, cleanup of the
    expired holds, the conditional update and its rollback. *)
Definition decide (env : Env) (seatIds : list string) (showId : string)
                  (reservedUntil : Z) (currentSeats : list Seat) : M Response :=
  let now := now_at_check env in
  let expiredReservedIds := map id (filter (is_expired now) currentSeats) in
  let unavailableSeats := filter (is_unavailable now) currentSeats in
  cleanup_expired env expiredReservedIds ;;
  if (0 <? len unavailableSeats)%Z
  then
    let seatList := String.concat ", " (map seat_label unavailableSeats) in
    respond (json_status
               (BUnavailable ("Følgende seter er ikke tilgjengelige: " ++ seatList)
                             (map id unavailableSeats))
               409)
  else
    upd <- update_seats env ReserveUpdate (reserve_filter seatIds showId)
             (reserve_patch reservedUntil) ;;
    match error upd with
    | Some message =>
        respond (json_status (BErrorDetails "Kunne ikke reservere setene" message) 500)
    | None =>
      let updatedSeats := match data upd with Some l => l | None => [] end in
      if negb (len updatedSeats =? len seatIds)%Z
      then
        let reservedIds := map id updatedSeats in
        rollback env reservedIds ;;
        let failedCount := len seatIds - len updatedSeats in
        respond (json_status (BError (taken_message failedCount)) 409)
      else
        ret (json (BReserved reservedUntil (map id updatedSeats)))
    end.

Definition missing_fields : Response :=
  json_status (BError "Manglende seatIds eller showId") 400.

Definition seats_not_found : Response :=
  json_status (BError "Noen av setene finnes ikke") 400.

Definition handler (env : Env) (request : option RequestBody) : M Response :=
  match request with
  | None => throw
  | Some body =>
    match seatIds body, showId body with
    | Some seatIds, Some showId =>
      if (match seatIds with [] => true | _ => false end || (showId =? "")%string)%bool
      then respond missing_fields
      else
        let reservedUntil := now_at_hold env + hold_window in
        if negb (service_role_key env)
        then respond (json_status (BError "Server misconfiguration") 500)
        else
          res <- select_seats env CheckSeats (check_filter seatIds showId) ;;
          match error res, data res with
          | Some _, _ =>
              respond (json_status (BError "Kunne ikke sjekke sete-status") 500)
          | None, None => respond seats_not_found
          | None, Some currentSeats =>
            if negb (len currentSeats =? len seatIds)%Z
            then respond seats_not_found
            else decide env seatIds showId reservedUntil currentSeats
          end
    | _, _ => respond missing_fields
    end
  end.

Definition POST (env : Env) (request : option RequestBody) (st : Store)
  : Response * World :=
  run_handler (handler env request) st.

End Reserve.

(* ===================================================================== *)
(** ** Booking Finalizer: the booking-creation route                      *)
(* ===================================================================== *)

Module Confirm.

Record RequestBody := mkBody {
  showId : option string;
  seatIds : option (list string);
  customerName : option string;
  customerEmail : option string;
  customerPhone : option string;
  specialRequests : option string;
  (** [None]: missing, or not of type number *)
  totalAmount : option Z;
  discountCode : option string
}.

(** [x || null] *)
Definition or_null (o : option string) : option string :=
  if truthy o then o else None.

(** Modelled from the spec: [createQRCodeData] of [lib/utils/booking], which
    is not among the sources; the spec's Ticket Payload holds the booking id
    (filled after the insert), the booking reference, the show id, title and
    datetime, the customer name and the seat summaries. *)
Definition createQRCodeData (bookingId bookingReference showId showTitle
                             showDatetime customerName : string)
                            (seatSummaries : list SeatSummary) : QrData :=
  mkQr bookingId bookingReference showId showTitle showDatetime customerName
       seatSummaries.

(** [s.status !== "reserved" && s.status !== "available"] *)
Definition is_unavailable (s : Seat) : bool :=
  match status s with
  | Some st => (negb (st =? "reserved")%string && negb (st =? "available")%string)%bool
  | None => true
  end.

Definition has_status (want : string) (s : Seat) : bool :=
  match status s with
  | Some st => (st =? want)%string
  | None => false
  end.

Definition unavailable_message (unavailableSeats : list Seat) : string :=
  let soldCount := len (filter (has_status "sold") unavailableSeats) in
  let blockedCount := len (filter (has_status "blocked") unavailableSeats) in
  let errorMsg := "Noen av setene er ikke lenger tilgjengelige" in
  let errorMsg := if (0 <? soldCount)%Z
                  then string_of_Z soldCount ++ " av setene er allerede solgt"
                  else errorMsg in
  let errorMsg := if (0 <? blockedCount)%Z
                  then string_of_Z blockedCount ++ " av setene er blokkert"
                  else errorMsg in
  errorMsg.

Definition sold_patch : SeatPatch := mkPatch "sold" None.

Definition missing_fields : Response :=
  json_status (BError "Manglende påkrevde felt") 400.

(** [emailResult] after the [try { .. } catch (emailError) { .. }] around the
    dispatch. *)
Definition email_result (o : EmailOutcome) : bool * option string :=
  match o with
  | EmailReturned success err => (success, err)
  | EmailThrewError message => (false, Some message)
  | EmailThrewOther => (false, Some "Ukjent feil i e-postsending")
  end.

Definition seats_not_found : Response :=
  json_status (BError "Noen av setene finnes ikke") 400.

Definition booked (booking : Booking) (bookingReference : string)
                  (emailResult : bool * option string) : Response :=
  json (BBooked (booking_id booking) bookingReference (fst emailResult) (snd emailResult)).

(** The handler from the e-mail dispatch to the answer. *)
Definition dispatch_and_answer (env : Env) (booking : Booking) (bookingReference : string)
                               (args : EmailArgs) : M Response :=
  outcome <- send_email env args ;;
  let emailResult := email_result outcome in
  _ <- update_booking env SetTicketSent (booking_id booking)
         (PatchTicketSent (fst emailResult)) ;;
  ret (booked booking bookingReference emailResult).

(** The discount code, when one is given: looked up, and its use counted. *)
Definition count_discount (env : Env) (discountCode : option string) : M unit :=
  if truthy discountCode
  then
    found <- select_code env GetDiscount (or_default discountCode "") ;;
    match error found, data found with
    | None, Some c =>
        _ <- update_code env BumpDiscount (code_id c)
               (match current_uses c with Some n => n | None => 0 end + 1) ;;
        ret tt
    | _, _ => ret tt
    end
  else ret tt.

(** The writes between the booking insert and the e-mail: the discount code
    on the booking, the ticket payload with the booking id, the seats sold,
    the counter of the show. *)
Definition settle (env : Env) (booking : Booking) (discountCode : option string)
                  (showId : string) (seatIds : list string) (show : Show)
                  (updatedQrData : QrData) : M unit :=
  (if truthy discountCode
   then try_ignore
          (_ <- update_booking env SetDiscountUsed (booking_id booking)
                  (PatchDiscountUsed (or_default discountCode "")) ;;
           ret tt)
   else ret tt) ;;
  _ <- update_booking env SetQr (booking_id booking) (PatchQr updatedQrData) ;;
  _ <- update_seats env SellSeats (mkFilter seatIds None None) sold_patch ;;
  _ <- update_show env DecrementShow showId (available_seats show - len seatIds) ;;
  ret tt.

Definition new_booking (env : Env) (userId showId : string) (seatIds : list string)
                       (customerName customerEmail : string)
                       (customerPhone specialRequests : option string)
                       (totalAmount : Z) (bookingReference : string)
                       (qrData : QrData) : Booking :=
  mkBooking (new_booking_id env) userId showId seatIds totalAmount
            bookingReference qrData customerName customerEmail
            (or_null customerPhone) (or_null specialRequests)
            "confirmed" (now_at_insert env) false None.

Definition email_args (customerName customerEmail bookingReference showTitle : string)
                      (show : Show) (seats : list Seat) (totalAmount : Z)
                      (qrCodeData : QrData) : EmailArgs :=
  mkEmail customerName customerEmail bookingReference showTitle
    (show_datetime show)
    (match venue show with
     | Some v => if (venue_name v =? "")%string then "Ukjent lokale" else venue_name v
     | None => "Ukjent lokale"
     end)
    (match venue show with
     | Some v => address v ++ ", " ++ postal_code v ++ " " ++ city v
     | None => ""
     end)
    (map (fun s => mkLine (section s) (row s) (number s) (price_nok s)) seats)
    totalAmount qrCodeData.

(** The handler from the booking insert on. *)
Definition commit (env : Env) (userId showId : string) (seatIds : list string)
                  (customerName customerEmail : string)
                  (customerPhone specialRequests : option string)
                  (totalAmount : Z) (discountCode : option string)
                  (show : Show) (seats : list Seat) (bookingReference : string)
  : M Response :=
  let showTitle := or_default (title show)
                     (or_default (ensemble_title show) "Forestilling") in
  let qrData :=
    createQRCodeData "" bookingReference showId showTitle (show_datetime show)
      customerName
      (map (fun s => mkSummary (section s) (row s) (number s)) seats) in
  ins <- insert_booking env InsertBooking
           (new_booking env userId showId seatIds customerName customerEmail
              customerPhone specialRequests totalAmount bookingReference qrData) ;;
  match error ins, data ins with
  | Some message, _ =>
      respond (json_status (BError ("Kunne ikke opprette bestilling: " ++ message)) 500)
  | None, None => throw
  | None, Some booking =>
    let updatedQrData :=
      mkQr (booking_id booking) (qr_booking_reference qrData) (qr_show_id qrData)
           (qr_show_title qrData) (qr_show_datetime qrData)
           (qr_customer_name qrData) (qr_seats qrData) in
    settle env booking discountCode showId seatIds show updatedQrData ;;
    dispatch_and_answer env booking bookingReference
      (email_args customerName customerEmail bookingReference showTitle show seats
                  totalAmount updatedQrData)
  end.

(** The handler once the request, the user, the show and the seats have
    passed the checks. *)
Definition book (env : Env) (body : RequestBody) (userId showId : string)
                (seatIds : list string) (customerName customerEmail : string)
                (totalAmount : Z) (show : Show) (seats : list Seat) : M Response :=
  let bookingReference := generateBookingReference env in
  count_discount env (discountCode body) ;;
  commit env userId showId seatIds customerName customerEmail
    (customerPhone body) (specialRequests body) totalAmount
    (discountCode body) show seats bookingReference.

Definition not_signed_in : Response :=
  json_status (BError "Du må være logget inn for å bestille billetter") 401.

Definition handler (env : Env) (request : option RequestBody) : M Response :=
  match request with
  | None => throw
  | Some body =>
    match showId body, seatIds body, customerName body, customerEmail body,
          totalAmount body with
    | Some showId, Some seatIds, Some customerName, Some customerEmail,
      Some totalAmount =>
      if ((showId =? "")%string
          || match seatIds with [] => true | _ => false end
          || (customerName =? "")%string
          || (customerEmail =? "")%string
          || (totalAmount <=? 0)%Z)%bool
      then respond missing_fields
      else
        match current_user env with
        | None => respond not_signed_in
        | Some userId =>
          if (userId =? "")%string
          then respond not_signed_in
          else
            sh <- select_show env GetShow showId ;;
            match error sh, data sh with
            | Some _, _ | None, None =>
                respond (json_status (BError "Forestilling ikke funnet") 404)
            | None, Some show =>
              res <- select_seats env GetSeats (mkFilter seatIds None None) ;;
              match error res, data res with
              | Some _, _ | None, None =>
                  respond (json_status (BError "Kunne ikke hente setedata") 500)
              | None, Some seats =>
                if negb (len seats =? len seatIds)%Z
                then respond seats_not_found
                else
                  let unavailableSeats := filter is_unavailable seats in
                  if (0 <? len unavailableSeats)%Z
                  then respond (json_status
                                  (BError (unavailable_message unavailableSeats)) 400)
                  else book env body userId showId seatIds customerName
                            customerEmail totalAmount show seats
              end
            end
        end
    | _, _, _, _, _ => respond missing_fields
    end
  end.

Definition POST (env : Env) (request : option RequestBody) (st : Store)
  : Response * World :=
  run_handler (handler env request) st.

End Confirm.

(* ===================================================================== *)
(** ** Vocabulary of the properties                                       *)
(* ===================================================================== *)

(** The primary key of [seats]. *)
Definition keyed (st : Store) : Prop := NoDup (map id (seats st)).

(** A reserve request that passes the first check of the handler. *)
Definition reserve_valid (body : Reserve.RequestBody) : bool :=
  (match Reserve.seatIds body with Some (_ :: _) => true | _ => false end
   && truthy (Reserve.showId body))%bool.

(** A confirm request that passes the first check of the handler. *)
Definition confirm_valid (body : Confirm.RequestBody) : bool :=
  (truthy (Confirm.showId body)
   && match Confirm.seatIds body with Some (_ :: _) => true | _ => false end
   && truthy (Confirm.customerName body)
   && truthy (Confirm.customerEmail body)
   && match Confirm.totalAmount body with Some t => (0 <? t)%Z | None => false end)%bool.

(** The show of the request is in the store, once. *)
Definition show_found (st : Store) (key : option string) : bool :=
  match key with
  | Some k =>
      match filter (fun s => (show_key s =? k)%string) (shows st) with
      | [_] => true
      | _ => false
      end
  | None => false
  end.

(** The rows the status check of a reserve request reads. *)
Definition requested_rows (st : Store) (ids : list string) (sh : string) : list Seat :=
  filter (matches (Reserve.check_filter ids sh)) (seats st).

(** A reserve request that gets as far as the status check: it is well
    formed, the service key is configured, the store answers the check and
    every requested seat is a row of the show. *)
Definition reaches_status_check (env : Env) (st : Store) (body : Reserve.RequestBody)
                                (ids : list string) (sh : string) : Prop :=
  Reserve.seatIds body = Some ids /\
  Reserve.showId body = Some sh /\
  reserve_valid body = true /\
  service_role_key env = true /\
  fault env CheckSeats = NoFault /\
  length (requested_rows st ids sh) = length ids.

(** A seat that cannot be had: sold, blocked, or held by a reservation that
    has not run out. *)
Definition held (now : Z) (s : Seat) : Prop :=
  status s = Some "sold" \/
  status s = Some "blocked" \/
  (status s = Some "reserved" /\ exists t, reserved_until s = Some t /\ (now < t)%Z).

(** The reservation of a seat has run out, or never had an end. *)
Definition lapsed (now : Z) (s : Seat) : Prop :=
  status s = Some "reserved" /\
  (reserved_until s = None \/ exists t, reserved_until s = Some t /\ (t <= now)%Z).

(** The ids of the requested rows whose hold has run out. *)
Definition expired_ids (env : Env) (rows : list Seat) : list string :=
  map id (filter (Reserve.is_expired (now_at_check env)) rows).

(** The requested rows that are not to be had. *)
Definition unavailable_rows (env : Env) (rows : list Seat) : list Seat :=
  filter (Reserve.is_unavailable (now_at_check env)) rows.

(** The world after the cleanup step, and after the rollback step. *)
Definition cleaned (env : Env) (ids : list string) (w : World) : World :=
  snd (Reserve.cleanup_expired env ids w).

Definition rolled_back (env : Env) (ids : list string) (w : World) : World :=
  snd (Reserve.rollback env ids w).

(** An effect that writes [status = "reserved"] on seats. *)
Definition sets_reserved (e : Effect) : bool :=
  match e with
  | SeatsWrite _ _ p _ => (p_status p =? "reserved")%string
  | _ => false
  end.

(** Writes restricted to the requested rows leave every other row alone. *)
Definition inside (ids : list string) (sh : string) (f : SeatFilter) (t : list Seat) : Prop :=
  forall s, In s t -> matches f s = true -> matches (Reserve.check_filter ids sh) s = true.

(* ===================================================================== *)
(** ** A small theatre, for the concrete runs                              *)
(* ===================================================================== *)

Module Example.

Definition venue1 : Venue := mkVenue "Munken" "Storgata 1" "0155" "Oslo".

Definition show1 : Show :=
  mkShow "show-1" (Some "Hamlet") None "2026-01-10T19:00:00Z" 5 (Some venue1).

Definition show2 : Show :=
  mkShow "show-2" None (Some "Peer Gynt") "2026-02-01T18:00:00Z" 1 None.

(** available *)
Definition a1 : Seat := mkSeat "a1" "show-1" "Hovedsal" "A" 1 300 (Some "available") None.
(** reserved, the hold ran out at 500 *)
Definition a2 : Seat := mkSeat "a2" "show-1" "Hovedsal" "A" 2 300 (Some "reserved") (Some 500).
(** no status *)
Definition a3 : Seat := mkSeat "a3" "show-1" "Hovedsal" "A" 3 300 None None.
(** sold *)
Definition a4 : Seat := mkSeat "a4" "show-1" "Hovedsal" "A" 4 300 (Some "sold") None.
(** reserved, held until 900000 *)
Definition a5 : Seat :=
  mkSeat "a5" "show-1" "Hovedsal" "A" 5 300 (Some "reserved") (Some 900000).
(** available *)
Definition a6 : Seat := mkSeat "a6" "show-1" "Hovedsal" "A" 6 300 (Some "available") None.
(** a seat of the other show *)
Definition b1 : Seat := mkSeat "b1" "show-2" "Balkong" "B" 1 450 (Some "available") None.

Definition hall : Store :=
  mkStore [a1; a2; a3; a4; a5; a6; b1] [show1; show2] [] [mkCode "code-1" "VENN10" (Some 2)].

(** No fault, no other request, a signed-in user, the e-mail goes out. *)
Definition calm : Env :=
  mkEnv true 1000 1001 1002 (fun _ => NoFault) (fun _ st => st)
        (Some "user-1") "TM-260110-AB12" "booking-1"
        (fun _ => EmailReturned true None).

(** The same, with the cleanup write rejected by the store. *)
Definition cleanup_fails : Env :=
  mkEnv true 1000 1001 1002
        (fun site => match site with Cleanup => Thrown | _ => NoFault end)
        (fun _ st => st)
        (Some "user-1") "TM-260110-AB12" "booking-1"
        (fun _ => EmailReturned true None).

(** The same as [calm], with another request taking [a6] between the status
    check and the conditional update. *)
Definition raced : Env :=
  mkEnv true 1000 1001 1002 (fun _ => NoFault)
        (fun site st =>
           match site with
           | ReserveUpdate =>
               with_seats (write_seats (mkFilter ["a6"] None None)
                                       (mkPatch "reserved" (Some 700000)) (seats st)) st
           | _ => st
           end)
        (Some "user-1") "TM-260110-AB12" "booking-1"
        (fun _ => EmailReturned true None).


Definition reserve_request (ids : list string) : Reserve.RequestBody :=
  Reserve.mkBody (Some ids) (Some "show-1").

Definition confirm_request (sh : string) (ids : list string) (total : Z)
  : Confirm.RequestBody :=
  Confirm.mkBody (Some sh) (Some ids) (Some "Kari Nordmann") (Some "kari@example.no")
                 None None (Some total) None.

End Example.

(** The rows the confirm handler reads for a list of seat ids. *)
Definition confirm_rows (st : Store) (ids : list string) : list Seat :=
  filter (matches (mkFilter ids None None)) (seats st).

(** An effect on the discount codes. *)
Definition is_code_write (e : Effect) : Prop :=
  match e with
  | CodeWrite _ _ _ => True
  | _ => False
  end.

(** An effect of the writes that follow the booking insert. *)
Definition is_settling (ids : list string) (e : Effect) : Prop :=
  match e with
  | BookingWrite SetDiscountUsed _ (PatchDiscountUsed _) _ => True
  | BookingWrite SetQr _ (PatchQr _) _ => True
  | SeatsWrite SellSeats f p _ =>
      f = mkFilter ids None None /\ p = Confirm.sold_patch
  | ShowWrite _ _ _ => True
  | _ => False
  end.

(** What the writes after the insert leave alone on a booking. *)
Definition booking_core (b : Booking) : string * string * bool * Z * list string * string :=
  (booking_id b, booking_status b, ticket_sent b, total_amount_nok b, seat_ids b,
   booking_show_id b).

(** A seat that can no longer be booked: sold or blocked. *)
Definition sold_or_blocked (s : Seat) : Prop :=
  status s = Some "sold" \/ status s = Some "blocked".

(** A confirm request that gets as far as the status check of its seats. *)
Definition reaches_seat_check (env : Env) (st : Store) (body : Confirm.RequestBody)
                              (ids : list string) : Prop :=
  Confirm.seatIds body = Some ids /\
  confirm_valid body = true /\
  truthy (current_user env) = true /\
  show_found st (Confirm.showId body) = true /\
  fault env GetShow = NoFault /\
  fault env GetSeats = NoFault /\
  length (confirm_rows st ids) = length ids.

(** The message of the rejection, from the counts of sold and of blocked
    seats among the requested rows. *)
Definition rejection_message (rows : list Seat) : string :=
  let sold := len (filter (Confirm.has_status "sold") rows) in
  let blocked := len (filter (Confirm.has_status "blocked") rows) in
  if (0 <? blocked)%Z then string_of_Z blocked ++ " av setene er blokkert"
  else if (0 <? sold)%Z then string_of_Z sold ++ " av setene er allerede solgt"
  else "Noen av setene er ikke lenger tilgjengelige".









(** Every reserve request with a seat of no status ends in the 409 of the
    partial update, after the conditional update was sent. *)
Definition blank_status_ends_in_partial_update : Prop :=
  forall env st body ids sh s r w,
    quiet env -> keyed st ->
    reaches_status_check env st body ids sh ->
    In s (requested_rows st ids sh) ->
    status s = None \/ status s = Some "" ->
    fault env ReserveUpdate = NoFault ->
    fault env Rollback <> Thrown ->
    Reserve.POST env (Some body) st = (r, w) ->
    exists changed,
      In (SeatsWrite ReserveUpdate (Reserve.reserve_filter ids sh)
                     (Reserve.reserve_patch (now_at_hold env + Reserve.hold_window))
                     (Some changed))
         (issued w) /\
      r = json_status (BError (Reserve.taken_message (len ids - len changed))) 409.
From Stdlib Require DecimalZ DecimalFacts.

(** Every store call of the request is carried out. *)
Definition no_faults (env : Env) : Prop :=
  forall site, fault env site = NoFault.

(** The columns of a seat that no handler writes. *)
Definition seat_identity (s : Seat) : string * string * string * string * Z * Z :=
  (id s, show_id s, section s, row s, number s, price_nok s).

(** A seat the next caller can have: available, or held by a reservation
    that has run out. *)
Definition reservable (now : Z) (s : Seat) : Prop :=
  status s = Some "available" \/ lapsed now s.

(** The seat ids of a reserve request. *)
Definition requested_ids (request : option Reserve.RequestBody) : list string :=
  match request with
  | Some body => match Reserve.seatIds body with Some ids => ids | None => [] end
  | None => []
  end.

(** What a write of the reserve handler may be: an update of seats, keyed by
    ids of the request, that sets the hold of this request or resets rows to
    available. *)
Definition reserve_write (env : Env) (ids : list string) (e : Effect) : Prop :=
  match e with
  | SeatsWrite _ f p _ =>
      incl (f_ids f) ids /\
      (p = mkPatch "reserved" (Some (now_at_hold env + 10 * 60 * 1000)) \/
       p = mkPatch "available" None)
  | _ => False
  end.

(** A row as it was in [t], or a row that is available with no hold. *)
Definition untouched_or_free (t : list Seat) (s : Seat) : Prop :=
  In s t \/ (status s = Some "available" /\ reserved_until s = None).

(** The discount codes after a confirm request that names the code [dc]: the
    use counter of the code goes up by one when the lookup finds it, once. *)
Definition codes_after (dc : option string) (t : list DiscountCode) : list DiscountCode :=
  if truthy dc
  then match single (filter (fun d => (code d =? or_default dc "")%string) t) with
       | mkResult (Some c) None =>
           map (fun d => if (code_id d =? code_id c)%string
                         then mkCode (code_id d) (code d)
                                (Some (match current_uses c with Some n => n | None => 0 end + 1))
                         else d)
               t
       | _ => t
       end
  else t.

(** A seat the confirm handler accepts: reserved or available, whoever holds
    the reservation and whenever it ends. *)
Definition bookable (s : Seat) : Prop :=
  status s = Some "reserved" \/ status s = Some "available".

(** The seat ids of a confirm request. *)
Definition confirm_ids (request : option Confirm.RequestBody) : list string :=
  match request with
  | Some body => match Confirm.seatIds body with Some ids => ids | None => [] end
  | None => []
  end.

(** The shows after a confirm request for [n] seats of the show [sh], whose
    counter was read as [available]. *)
Definition shows_after (sh : string) (available n : Z) (t : list Show) : list Show :=
  map (fun s => if (show_key s =? sh)%string
                then mkShow (show_key s) (title s) (ensemble_title s)
                            (show_datetime s) (available - n) (venue s)
                else s)
      t.

(* ===================================================================== *)
(** ** More of the small theatre                                          *)
(* ===================================================================== *)

Module More.

(** Another caller, after the holds of [Example.calm] have run out. *)
Definition later : Env :=
  mkEnv true 700000 700001 700002 (fun _ => NoFault) (fun _ st => st)
        (Some "user-2") "TM-260110-CD34" "booking-2"
        (fun _ => EmailReturned true None).

(** A caller who is not signed in. *)
Definition signed_out : Env :=
  mkEnv true 1000 1001 1002 (fun _ => NoFault) (fun _ st => st)
        None "TM-260110-AB12" "booking-1"
        (fun _ => EmailReturned true None).

(** A confirm request that names a discount code. *)
Definition discounted_request (ids : list string) (total : Z) (dc : string)
  : Confirm.RequestBody :=
  Confirm.mkBody (Some "show-1") (Some ids) (Some "Kari Nordmann")
                 (Some "kari@example.no") None None (Some total) (Some dc).

End More.

(* ===================================================================== *)
(** ** The booking page: [getShowData] and [BookingPage]                  *)
(* ===================================================================== *)

(** The server component of the route [/bestill/[showId]]: it loads the
    show, creates the seats of the show from the seat map of the venue when
    the show has none, and renders the seat selector. *)
Module Bestill.

(** [venue.seat_map_config]: either [{ sections: [{ name, rows: [{ number,
    seats: [..] }] }] }] or [{ rows, seatsPerRow }].  [None] stands for a key
    that is missing; the numbers of the second format are integers. *)
Record RowConfig := mkRowConfig {
  row_number : string;
  row_seats : list Z
}.

Record SectionConfig := mkSectionConfig {
  section_name : string;
  section_rows : list RowConfig
}.

Record SeatMapConfig := mkSeatMapConfig {
  sections : option (list SectionConfig);
  rows : option Z;
  seatsPerRow : option Z
}.

(** A row of [shows] as the page reads it, with the venue joined. *)
Record ShowRow := mkShowRow {
  show : Show;
  show_status : string;
  base_price_nok : Z;
  (** [venue.seat_map_config], when the show has a venue *)
  venue_seat_map_config : option SeatMapConfig
}.

(** [show.venue?.seat_map_config] *)
Definition seat_map_config (s : ShowRow) : option SeatMapConfig :=
  match venue (show s) with
  | Some _ => venue_seat_map_config s
  | None => None
  end.

(** An element of [seatsToCreate]. *)
Record NewSeat := mkNewSeat {
  new_show_id : string;
  new_section : string;
  new_row : string;
  new_number : Z;
  new_price_nok : Z;
  new_status : string
}.

Definition rowLabels : string := "ABCDEFGHIJKLMNOPQRSTUVWXYZ".

(** [rowLabels[r] || `R${r + 1}`] *)
Definition rowLabel (r : nat) : string :=
  match String.get r rowLabels with
  | Some c => String c EmptyString
  | None => "R" ++ string_of_Z (Z.of_nat r + 1)
  end.

(** The values of [s] in [for (let s = 1; s <= n; s++)]. *)
Definition from_one_to (n : Z) : list Z := map Z.of_nat (seq 1 (Z.to_nat n)).

(** The list [seatsToCreate] once the loops are through. *)
Definition seatsToCreate (showId : string) (price : Z) (seatMapConfig : SeatMapConfig)
  : list NewSeat :=
  match sections seatMapConfig with
  | Some sections =>
      flat_map
        (fun section =>
           flat_map
             (fun row =>
                map (fun seatNum =>
                       mkNewSeat showId (section_name section) (row_number row) seatNum
                                 price "available")
                    (row_seats row))
             (section_rows section))
        sections
  | None =>
      match rows seatMapConfig, seatsPerRow seatMapConfig with
      | Some rows, Some seatsPerRow =>
          if ((rows =? 0)%Z || (seatsPerRow =? 0)%Z)%bool then []
          else
            flat_map
              (fun r =>
                 map (fun s => mkNewSeat showId "Hovedsal" (rowLabel r) s price "available")
                     (from_one_to seatsPerRow))
              (seq 0 (Z.to_nat rows))
      | _, _ => []
      end
  end.

(** The two tables the page works on. *)
Record Tables := mkTables {
  show_rows : list ShowRow;
  seat_rows : list Seat
}.

(** The store calls of [getShowData], one name per call in the source. *)
Inductive Call := LoadShow | LoadSeats | InsertSeats | ReloadSeats.

(** The collaborators of one page load. *)
Record Client := mkClient {
  (** outcome of each store call *)
  call_fault : Call -> Fault;
  (** writes of other requests that the store serves just before a call *)
  other_writes : Call -> Tables -> Tables;
  (** the key the store gives the n-th row of an insert *)
  new_seat_id : nat -> string
}.

(** No other request writes while the page loads, and every call is
    carried out. *)
Definition undisturbed (c : Client) : Prop :=
  (forall site t, other_writes c site t = t) /\
  (forall site, call_fault c site = NoFault).

Inductive Result (A : Type) :=
| Value (a : A)
| Raised.
Arguments Raised {A}.

Definition P (A : Type) : Type := Tables -> Result A * Tables.

Definition unit_ {A} (a : A) : P A := fun t => (Value a, t).

Definition then_ {A B} (m : P A) (k : A -> P B) : P B :=
  fun t =>
    match m t with
    | (Value a, t1) => k a t1
    | (Raised, t1) => (Raised, t1)
    end.

(** A query: [data] is [null] when the store answers with an error. *)
Definition load {A} (c : Client) (site : Call) (read : Tables -> option A) : P (option A) :=
  fun t =>
    let t1 := other_writes c site t in
    match call_fault c site with
    | NoFault => (Value (read t1), t1)
    | DbError _ => (Value None, t1)
    | Thrown => (Raised, t1)
    end.

(** [from("shows").select(..).eq("id", showId).single()] *)
Definition the_show (showId : string) (t : Tables) : option ShowRow :=
  data (single (filter (fun s => (show_key (show s) =? showId)%string) (show_rows t))).

(** [from("seats").select("*").eq("show_id", showId)] *)
Definition seats_of (showId : string) (t : Tables) : option (list Seat) :=
  Some (filter (fun s => (show_id s =? showId)%string) (seat_rows t)).

(** The rows of an insert as the store keeps them: with a key of the store
    and no hold. *)
Fixpoint stored (c : Client) (n : nat) (l : list NewSeat) : list Seat :=
  match l with
  | [] => []
  | d :: l' =>
      mkSeat (new_seat_id c n) (new_show_id d) (new_section d) (new_row d)
             (new_number d) (new_price_nok d) (Some (new_status d)) None
      :: stored c (S n) l'
  end.

(** [await supabase.from("seats").insert(seatsToCreate)]: the answer is not
    looked at. *)
Definition insert_seats (c : Client) (l : list NewSeat) : P unit :=
  fun t =>
    let t1 := other_writes c InsertSeats t in
    match call_fault c InsertSeats with
    | NoFault => (Value tt, mkTables (show_rows t1) (seat_rows t1 ++ stored c 0 l))
    | DbError _ => (Value tt, t1)
    | Thrown => (Raised, t1)
    end.

(** [!seats || seats.length === 0] *)
Definition none_yet (seats : option (list Seat)) : bool :=
  match seats with
  | Some (_ :: _) => false
  | _ => true
  end.

Definition getShowData (c : Client) (showId : string)
  : P (option (ShowRow * list Seat)) :=
  then_ (load c LoadShow (the_show showId)) (fun show =>
  match show with
  | None => unit_ None
  | Some show =>
    then_ (load c LoadSeats (seats_of showId)) (fun seats =>
    then_
      (if none_yet seats
       then
         match seat_map_config show with
         | Some seatMapConfig =>
             let seatsToCreate := seatsToCreate showId (base_price_nok show) seatMapConfig in
             if (0 <? len seatsToCreate)%Z
             then
               then_ (insert_seats c seatsToCreate) (fun _ =>
               load c ReloadSeats (seats_of showId))
             else unit_ seats
         | None => unit_ seats
         end
       else unit_ seats)
      (fun seats =>
         unit_ (Some (show, match seats with Some l => l | None => [] end))))
  end).

(** What the page comes to: [notFound()], a [redirect(..)], or the seat
    selector with its two props. *)
Inductive View :=
| NotFound
| Redirect (url : string)
| Selector (show : ShowRow) (seats : list Seat).

Definition BookingPage (c : Client) (showId : string) : P View :=
  then_ (getShowData c showId) (fun data =>
  match data with
  | None => unit_ NotFound
  | Some (show, seats) =>
      if (show_status show =? "cancelled")%string
      then unit_ (Redirect "/forestillinger?message=cancelled")
      else if (show_status show =? "sold_out")%string
      then unit_ (Redirect "/forestillinger?message=soldout")
      else unit_ (Selector show seats)
  end).

(** The store of the two handlers, with the tables of the page. *)
Definition as_store (t : Tables) : Store :=
  mkStore (seat_rows t) (map show (show_rows t)) [] [].

End Bestill.

(* ===================================================================== *)
(** ** The seat selector                                                  *)
(* ===================================================================== *)

(** [from("seats").select("*").eq("show_id", showId)], served. *)
Definition seats_of_show (showId : string) (st : Store) : list Seat :=
  filter (fun s => (show_id s =? showId)%string) (seats st).

(** The client component [SeatSelector]: its state, the callbacks that
    change it, and [handleProceed], which asks the reserve handler for the
    selected seats. *)
Module SeatSelector.

(** The state of the component: [useState] by [useState]. *)
Record State := mkState {
  seats : list Seat;
  selectedSeats : list Seat;
  isLoading : bool;
  error : option string
}.

(** [useState(initialSeats)], [useState([])], [useState(false)],
    [useState(null)] *)
Definition initial (initialSeats : list Seat) : State :=
  mkState initialSeats [] false None.

(** [selectedSeats.some((s) => s.id === seat.id)] *)
Definition isSelected (seat : Seat) (prev : list Seat) : bool :=
  existsb (fun s => (id s =? id seat)%string) prev.

(** [prev.filter((s) => s.id !== key)] *)
Definition without (key : string) (prev : list Seat) : list Seat :=
  filter (fun s => negb (id s =? key)%string) prev.

Definition toggleSeat (seat : Seat) (s : State) : State :=
  let st := toLowerCase (or_default (status seat) "") in
  if negb (st =? "available")%string then s
  else
    mkState (seats s)
            (if isSelected seat (selectedSeats s)
             then without (id seat) (selectedSeats s)
             else selectedSeats s ++ [seat])
            (isLoading s) (error s).

(** A change of the [seats] table as the realtime channel reports it;
    [payload.new] is the whole row, so [{ ...seat, ...payload.new }] is that
    row. *)
Inductive Change :=
| INSERT (new : Seat)
| UPDATE (new : Seat)
| DELETE (old : Seat).

(** The callback of the subscription. *)
Definition on_change (payload : Change) (s : State) : State :=
  match payload with
  | UPDATE new =>
      mkState (map (fun seat => if (id seat =? id new)%string then new else seat)
                   (seats s))
              (if match status new with
                  | Some st => negb (st =? "available")%string
                  | None => true
                  end
               then without (id new) (selectedSeats s)
               else selectedSeats s)
              (isLoading s) (error s)
  | _ => s
  end.

(** The answer of the browser client to
    [from("seats").select("*").eq("show_id", show.id)]. *)
Inductive Fetched :=
| Rows (freshSeats : list Seat)
| NoData
| Threw (message : option string).

(** [if (freshSeats) setSeats(freshSeats)] *)
Definition refreshSeats (fetched : Fetched) (s : State) : State :=
  match fetched with
  | Rows freshSeats => mkState freshSeats (selectedSeats s) (isLoading s) (error s)
  | _ => s
  end.

(** [selectedSeats.reduce((sum, seat) => sum + seat.price_nok, 0)] *)
Definition totalPrice (s : State) : Z :=
  fold_left (fun sum seat => (sum + price_nok seat)%Z) (selectedSeats s) 0%Z.

(** What [handleProceed] leaves in the browser: the entry [booking] of the
    session storage, and the route pushed. *)
Record StoredBooking := mkStoredBooking {
  stored_showId : string;
  stored_seatIds : list string;
  stored_totalPrice : Z;
  stored_reservedUntil : option Z
}.

Record Browser := mkBrowser {
  booking : option StoredBooking;
  pushed : option string
}.

(** The outcome of [fetch(..)] and [response.json()]: the answer of the
    server, or an exception ([message] is [None] when what was thrown is not
    an [Error]). *)
Inductive Reply :=
| Answered (response : Response)
| Failed (message : option string).

(** [response.ok] *)
Definition ok (response : Response) : bool :=
  ((200 <=? http_status response)%Z && (http_status response <=? 299)%Z)%bool.

(** The keys of [result] that [handleProceed] reads. *)
Definition result_error (response : Response) : option string :=
  match body response with
  | BError err => Some err
  | BErrorDetails err _ => Some err
  | BUnavailable err _ => Some err
  | _ => None
  end.

Definition result_unavailableSeatIds (response : Response) : option (list string) :=
  match body response with
  | BUnavailable _ unavailableSeatIds => Some unavailableSeatIds
  | _ => None
  end.

Definition result_reservedUntil (response : Response) : option Z :=
  match body response with
  | BReserved reservedUntil _ => Some reservedUntil
  | _ => None
  end.

(** [catch (err) { setError(..); setIsLoading(false) }] *)
Definition caught (message : option string) (s : State) : State :=
  mkState (seats s) (selectedSeats s) false
          (Some (match message with Some m => m | None => "Noe gikk galt" end)).

(** [handleProceed] up to the [fetch]: the request that is sent, if any. *)
Definition handleProceed_request (show : Show) (s : State)
  : State * option Reserve.RequestBody :=
  if (len (selectedSeats s) =? 0)%Z
  then (mkState (seats s) (selectedSeats s) (isLoading s)
                (Some "Vennligst velg minst ett sete"),
        None)
  else (mkState (seats s) (selectedSeats s) true None,
        Some (Reserve.mkBody (Some (map id (selectedSeats s))) (Some (show_key show)))).

(** [handleProceed] from the answer on.  [seatIds] and [totalPrice] are the
    values of the render in which the button was pressed; the updates of the
    state are functions of the state at the time they are applied. *)
Definition handleProceed_answer (show : Show) (seatIds : list string) (totalPrice : Z)
                                (reply : Reply) (fetched : Fetched)
                                (sb : State * Browser) : State * Browser :=
  let (s, b) := sb in
  match reply with
  | Failed message => (caught message s, b)
  | Answered response =>
      if negb (ok response)
      then
        match fetched with
        | Threw message => (caught message s, b)
        | _ =>
            let s1 := refreshSeats fetched s in
            let s2 :=
              mkState (seats s1)
                      (match result_unavailableSeatIds response with
                       | Some unavailableSeatIds =>
                           filter (fun x => negb (mem (id x) unavailableSeatIds))
                                  (selectedSeats s1)
                       | None => []
                       end)
                      (isLoading s1) (error s1) in
            (caught (Some (or_default (result_error response)
                                      "Kunne ikke reservere setene")) s2,
             b)
        end
      else
        (s,
         mkBrowser
           (Some (mkStoredBooking (show_key show) seatIds totalPrice
                                  (result_reservedUntil response)))
           (Some ("/kasse/billett?show=" ++ show_key show)))
  end.

(** What can happen to the component, one after the other. *)
Inductive Event :=
| Click (seat : Seat)
| Realtime (payload : Change)
| Refresh (fetched : Fetched)
| Proceed (show : Show)
| Answer (show : Show) (seatIds : list string) (totalPrice : Z)
         (reply : Reply) (fetched : Fetched).

Definition step (sb : State * Browser) (e : Event) : State * Browser :=
  match e with
  | Click seat => (toggleSeat seat (fst sb), snd sb)
  | Realtime payload => (on_change payload (fst sb), snd sb)
  | Refresh fetched => (refreshSeats fetched (fst sb), snd sb)
  | Proceed show => (fst (handleProceed_request show (fst sb)), snd sb)
  | Answer show seatIds totalPrice reply fetched =>
      handleProceed_answer show seatIds totalPrice reply fetched sb
  end.

Definition run (events : list Event) (sb : State * Browser) : State * Browser :=
  fold_left step events sb.

(** [handleProceed] against the reserve handler, with nothing in between:
    the request goes to [Reserve.POST], the store is read again for the
    refresh. *)
Definition handleProceed (env : Env) (refresh : Store -> Fetched) (show : Show)
                         (st : Store) (sb : State * Browser)
  : (State * Browser) * World :=
  match handleProceed_request show (fst sb) with
  | (s1, None) => ((s1, snd sb), mkWorld st [])
  | (s1, Some request) =>
      let (response, w) := Reserve.POST env (Some request) st in
      (handleProceed_answer show (map id (selectedSeats (fst sb))) (totalPrice (fst sb))
                            (Answered response) (refresh (db w)) (s1, snd sb),
       w)
  end.

(** The refresh when the browser client is served: the seats of the show. *)
Definition served (show : Show) (st : Store) : Fetched :=
  Rows (seats_of_show (show_key show) st).

End SeatSelector.

(** What every callback keeps true of the selection: no seat is selected
    twice, and every selected seat read "available" when it was clicked. *)
Definition well_selected (sel : list Seat) : Prop :=
  NoDup (map id sel) /\
  forall x, In x sel -> toLowerCase (or_default (status x) "") = "available".

(** A status as the handlers write it. *)
Definition plain_status (s : Seat) : Prop :=
  status s = Some "available" \/ status s = Some "reserved" \/
  status s = Some "sold" \/ status s = Some "blocked".

(* ===================================================================== *)
(** ** The ticket scanner                                                 *)
(* ===================================================================== *)

(** The client component [QRScanner] of the admin pages: what it asks of
    the two admin endpoints when a code is read or typed, and what it then
    shows.  Its callbacks are [async]: each runs to its next [await], and
    goes on when the answer is there; in between, other callbacks run.  The
    endpoints are collaborators, and so is the user: what they do, and when,
    are the events of the model.

    - [await fetch(..)] and the [await response.json()] that follows it are
      one wait: the callback does nothing between them.
    - [handleManualSubmit], [handleCheckIn] and [clearResult] are those of
      the latest render: they read the state as it is when they are called,
      and keep what they read across their waits.  [handleScan] is called by
      the scanner, which keeps the callback it was started with: what it
      reads of [autoCheckIn] and [lastScannedCode] comes with the event.
    - What the page shows or disables ([disabled={isProcessing}], the button
      that is only there under some results) is not in the model: a form can
      be submitted and the button pressed at any time.
    - Of [startScanner] and [stopScanner], which drive the camera, the model
      has what they write of the state the callbacks read: the result set
      when the camera cannot be started. *)
Module QRScanner.

(** [ScanResult] and its [booking]. *)
Record BookingInfo := mkBookingInfo {
  id : string;
  reference : string;
  customerName : string;
  showTitle : string;
  showDatetime : string;
  seats : list SeatSummary;
  specialRequests : option string;
  alreadyCheckedIn : bool
}.

Record ScanResult := mkScanResult {
  status : string;
  message : string;
  booking : option BookingInfo
}.

(** The answer of [/api/admin/check-in]. *)
Record CheckInResult := mkCheckInResult {
  success : bool;
  error : option string
}.

(** What [await fetch(..)] followed by [await response.json()] comes to: the
    parsed answer, or an exception (of the request, of the parsing, or of
    the first reading of a field of an answer that is no object). *)
Inductive Fetch (A : Type) :=
| Got (a : A)
| Rejected.
Arguments Rejected {A}.

(** The body of a request to [/api/admin/verify-ticket]. *)
Inductive TicketQuery :=
| ByQrData (qrData : string)
| ByReference (bookingReference : string).

(** The requests the component sends. *)
Inductive Call :=
| VerifyTicket (query : TicketQuery)
| CheckIn (bookingId : string).

(** [String.prototype.trim] and [String.prototype.toUpperCase] of the
    browser.  The component only hands their result on, and asks whether
    the trimmed text is empty; the model takes them as they come. *)
Record Strings := mkStrings {
  trim : string -> string;
  toUpperCase : string -> string
}.

(** A callback that waits for an answer, with what its closure holds. *)
Inductive Task :=
(** [handleScan], at [await fetch("/api/admin/verify-ticket", ..)] *)
| ScanVerifying (autoCheckIn : bool)
(** [handleScan], at [await fetch("/api/admin/check-in", ..)] *)
| ScanCheckingIn (verified : BookingInfo)
(** [handleManualSubmit], at the one and at the other *)
| ManualVerifying (autoCheckIn : bool)
| ManualCheckingIn (verified : BookingInfo)
(** [handleCheckIn], at [await fetch("/api/admin/check-in", ..)] *)
| ButtonCheckingIn (shown : BookingInfo).

(** The state the callbacks read and write: five [useState]s, the ref
    [processingRef], the timers that will reset [lastScannedCode], the
    callbacks that wait, oldest first, and the requests sent so far. *)
Record State := mkState {
  manualCode : string;
  isProcessing : bool;
  result : option ScanResult;
  autoCheckIn : bool;
  lastScannedCode : option string;
  processingRef : bool;
  timers : nat;
  pending : list Task;
  sent : list Call
}.

Definition initial : State := mkState "" false None true None false 0 [] [].

Definition setManualCode (v : string) (s : State) : State :=
  mkState v (isProcessing s) (result s) (autoCheckIn s) (lastScannedCode s)
          (processingRef s) (timers s) (pending s) (sent s).

Definition setIsProcessing (v : bool) (s : State) : State :=
  mkState (manualCode s) v (result s) (autoCheckIn s) (lastScannedCode s)
          (processingRef s) (timers s) (pending s) (sent s).

Definition setResult (v : option ScanResult) (s : State) : State :=
  mkState (manualCode s) (isProcessing s) v (autoCheckIn s) (lastScannedCode s)
          (processingRef s) (timers s) (pending s) (sent s).

Definition setAutoCheckIn (v : bool) (s : State) : State :=
  mkState (manualCode s) (isProcessing s) (result s) v (lastScannedCode s)
          (processingRef s) (timers s) (pending s) (sent s).

Definition setLastScannedCode (v : option string) (s : State) : State :=
  mkState (manualCode s) (isProcessing s) (result s) (autoCheckIn s) v
          (processingRef s) (timers s) (pending s) (sent s).

Definition setProcessingRef (v : bool) (s : State) : State :=
  mkState (manualCode s) (isProcessing s) (result s) (autoCheckIn s) (lastScannedCode s)
          v (timers s) (pending s) (sent s).

(** [setTimeout(.., 3000)], and its callback running *)
Definition setTimeout (s : State) : State :=
  mkState (manualCode s) (isProcessing s) (result s) (autoCheckIn s) (lastScannedCode s)
          (processingRef s) (S (timers s)) (pending s) (sent s).

Definition timer_fired (s : State) : State :=
  match timers s with
  | O => s
  | S n =>
      mkState (manualCode s) (isProcessing s) (result s) (autoCheckIn s) None
              (processingRef s) n (pending s) (sent s)
  end.

Definition with_pending (l : list Task) (s : State) : State :=
  mkState (manualCode s) (isProcessing s) (result s) (autoCheckIn s) (lastScannedCode s)
          (processingRef s) (timers s) l (sent s).

(** [fetch(..)]: the request leaves. *)
Definition fetch (c : Call) (s : State) : State :=
  mkState (manualCode s) (isProcessing s) (result s) (autoCheckIn s) (lastScannedCode s)
          (processingRef s) (timers s) (pending s) (sent s ++ [c]).

(** The callback stops at an [await]. *)
Definition await (t : Task) (s : State) : State :=
  with_pending (pending s ++ [t]) s.

(** The waiting callback number [k] goes on, and is then through, or waits
    again as [t]. *)
Definition through (k : nat) (s : State) : State :=
  with_pending (firstn k (pending s) ++ skipn (S k) (pending s)) s.

Definition waits_again (k : nat) (t : Task) (s : State) : State :=
  with_pending (firstn k (pending s) ++ t :: skipn (S k) (pending s)) s.

(** [{ ...booking, alreadyCheckedIn: true }] *)
Definition checked_in (b : BookingInfo) : BookingInfo :=
  mkBookingInfo (id b) (reference b) (customerName b) (showTitle b) (showDatetime b)
                (seats b) (specialRequests b) true.

Definition verification_failed : ScanResult :=
  mkScanResult "error" "Kunne ikke verifisere billett. Prøv igjen." None.

(** The condition of the automatic check-in, the same in [handleScan] and in
    [handleManualSubmit]: the booking to check in, if there is to be one. *)
Definition to_check_in (verifyResult : ScanResult) (autoCheckIn : bool)
  : option BookingInfo :=
  match booking verifyResult with
  | Some b =>
      if ((status verifyResult =? "success")%string && autoCheckIn
          && negb (alreadyCheckedIn b))%bool
      then Some b
      else None
  | None => None
  end.

(** *** [handleScan] *)

(** Up to the first [await]; [autoCheckIn] and [seen] are the values of
    [autoCheckIn] and [lastScannedCode] in the render the callback was made
    in: the scanner keeps the callback it was started with. *)
Definition handleScan (autoCheckIn : bool) (seen : option string) (data : string)
                      (s : State) : State :=
  if (processingRef s
      || match seen with Some c => (data =? c)%string | None => false end)%bool
  then s
  else
    await (ScanVerifying autoCheckIn)
      (fetch (VerifyTicket (ByQrData data))
         (setLastScannedCode (Some data)
            (setIsProcessing true (setProcessingRef true s)))).

(** The [finally] block. *)
Definition handleScan_finally (s : State) : State :=
  setTimeout (setIsProcessing false (setProcessingRef false s)).

(** From the answer of the verification on. *)
Definition handleScan_verified (k : nat) (autoCheckIn : bool) (reply : Fetch ScanResult)
                               (s : State) : State :=
  match reply with
  | Rejected => handleScan_finally (setResult (Some verification_failed) (through k s))
  | Got verifyResult =>
      match to_check_in verifyResult autoCheckIn with
      | Some b => waits_again k (ScanCheckingIn b) (fetch (CheckIn (id b)) s)
      | None => handleScan_finally (setResult (Some verifyResult) (through k s))
      end
  end.

(** From the answer of the check-in on. *)
Definition handleScan_checked_in (k : nat) (b : BookingInfo) (reply : Fetch CheckInResult)
                                 (s : State) : State :=
  handleScan_finally
    (setResult
       (Some match reply with
             | Rejected => verification_failed
             | Got checkInResult =>
                 if success checkInResult
                 then mkScanResult "success" "Billett automatisk sjekket inn!"
                                   (Some (checked_in b))
                 else mkScanResult "error"
                                   (or_default (error checkInResult) "Kunne ikke sjekke inn")
                                   (Some b)
             end)
       (through k s)).

(** *** [handleManualSubmit] *)

Definition handleManualSubmit (js : Strings) (s : State) : State :=
  if (trim js (manualCode s) =? "")%string
  then s
  else
    await (ManualVerifying (autoCheckIn s))
      (fetch (VerifyTicket (ByReference (toUpperCase js (trim js (manualCode s)))))
         (setIsProcessing true s)).

Definition handleManualSubmit_verified (k : nat) (autoCheckIn : bool)
                                       (reply : Fetch ScanResult) (s : State) : State :=
  match reply with
  | Rejected =>
      setIsProcessing false (setResult (Some verification_failed) (through k s))
  | Got verifyResult =>
      match to_check_in verifyResult autoCheckIn with
      | Some b => waits_again k (ManualCheckingIn b) (fetch (CheckIn (id b)) s)
      | None => setIsProcessing false (setResult (Some verifyResult) (through k s))
      end
  end.

Definition handleManualSubmit_checked_in (k : nat) (b : BookingInfo)
                                         (reply : Fetch CheckInResult) (s : State)
  : State :=
  setIsProcessing false
    (setResult
       (Some match reply with
             | Rejected => verification_failed
             | Got checkInResult =>
                 if success checkInResult
                 then mkScanResult "success" "Billett sjekket inn!" (Some (checked_in b))
                 else mkScanResult "error"
                                   (or_default (error checkInResult) "Kunne ikke sjekke inn")
                                   (Some b)
             end)
       (through k s)).

(** *** [handleCheckIn], the button under a verified ticket *)

Definition handleCheckIn (s : State) : State :=
  match result s with
  | Some shown =>
      match booking shown with
      | Some b =>
          await (ButtonCheckingIn b) (fetch (CheckIn (id b)) (setIsProcessing true s))
      | None => s
      end
  | None => s
  end.

Definition handleCheckIn_checked_in (k : nat) (b : BookingInfo)
                                    (reply : Fetch CheckInResult) (s : State) : State :=
  setIsProcessing false
    (setResult
       (Some match reply with
             | Rejected => mkScanResult "error" "Feil ved innsjekking" None
             | Got checkInResult =>
                 if success checkInResult
                 then mkScanResult "success" "Billett sjekket inn!" (Some (checked_in b))
                 else mkScanResult "error"
                                   (or_default (error checkInResult) "Kunne ikke sjekke inn")
                                   None
             end)
       (through k s)).

(** [clearResult] *)
Definition clearResult (s : State) : State :=
  setLastScannedCode None (setManualCode "" (setResult None s)).

(** The [catch] of [startScanner]: the camera could not be started, and
    [userMessage] says why. *)
Definition camera_failed (userMessage : string) (s : State) : State :=
  setResult (Some (mkScanResult "error" userMessage None)) s.

(** What can happen to the component, one after the other: the scanner reads
    a code, the user types, switches, submits, presses or clears, the camera
    fails, a timer runs out, and the answer to the request of the waiting
    callback number [k] arrives. *)
Inductive Event :=
| Scanned (autoCheckIn : bool) (seen : option string) (data : string)
| Typed (value : string)
| AutoCheckInSwitched (checked : bool)
| ManualSubmitted
| CheckInPressed
| Cleared
| CameraFailed (userMessage : string)
| TimerFired
| VerifyAnswered (k : nat) (reply : Fetch ScanResult)
| CheckInAnswered (k : nat) (reply : Fetch CheckInResult).

Definition step (js : Strings) (s : State) (e : Event) : State :=
  match e with
  | Scanned autoCheckIn seen data => handleScan autoCheckIn seen data s
  | Typed value => setManualCode value s
  | AutoCheckInSwitched checked => setAutoCheckIn checked s
  | ManualSubmitted => handleManualSubmit js s
  | CheckInPressed => handleCheckIn s
  | Cleared => clearResult s
  | CameraFailed userMessage => camera_failed userMessage s
  | TimerFired => timer_fired s
  | VerifyAnswered k reply =>
      match nth_error (pending s) k with
      | Some (ScanVerifying autoCheckIn) => handleScan_verified k autoCheckIn reply s
      | Some (ManualVerifying autoCheckIn) =>
          handleManualSubmit_verified k autoCheckIn reply s
      | _ => s
      end
  | CheckInAnswered k reply =>
      match nth_error (pending s) k with
      | Some (ScanCheckingIn b) => handleScan_checked_in k b reply s
      | Some (ManualCheckingIn b) => handleManualSubmit_checked_in k b reply s
      | Some (ButtonCheckingIn b) => handleCheckIn_checked_in k b reply s
      | _ => s
      end
  end.

Definition run (js : Strings) (events : list Event) : State :=
  fold_left (step js) events initial.

(** The requests that [e] makes the component send, in the state [s]. *)
Definition sent_by (js : Strings) (s : State) (e : Event) : list Call :=
  skipn (length (sent s)) (sent (step js s e)).

(** The waiting callback number [k] waits for a verification, with this
    [autoCheckIn]. *)
Definition verifying (s : State) (k : nat) (autoCheckIn : bool) : Prop :=
  nth_error (pending s) k = Some (ScanVerifying autoCheckIn) \/
  nth_error (pending s) k = Some (ManualVerifying autoCheckIn).

(** In the session [events], an answer to a verification of the component
    carried the booking [bookingId]. *)
Definition vouched (js : Strings) (events : list Event) (bookingId : string) : Prop :=
  exists pre k shown b post autoCheckIn,
    events = (pre ++ VerifyAnswered k (Got shown) :: post)%list /\
    verifying (run js pre) k autoCheckIn /\
    booking shown = Some b /\ id b = bookingId.

(** The booking a waiting callback holds. *)
Definition held_by (t : Task) : option BookingInfo :=
  match t with
  | ScanCheckingIn b | ManualCheckingIn b | ButtonCheckingIn b => Some b
  | _ => None
  end.

(** A run of [handleScan] waits. *)
Definition of_handleScan (t : Task) : bool :=
  match t with
  | ScanVerifying _ | ScanCheckingIn _ => true
  | _ => false
  end.

End QRScanner.



(** The bookings the component knows of were handed out by a verification:
    those of the check-ins sent, the one on display, and those the waiting
    callbacks hold. *)
Definition all_vouched (js : QRScanner.Strings) (events : list QRScanner.Event)
                       (s : QRScanner.State) : Prop :=
  (forall bookingId,
      In (QRScanner.CheckIn bookingId) (QRScanner.sent s) ->
      QRScanner.vouched js events bookingId) /\
  (forall shown b,
      QRScanner.result s = Some shown -> QRScanner.booking shown = Some b ->
      QRScanner.vouched js events (QRScanner.id b)) /\
  (forall t b,
      In t (QRScanner.pending s) -> QRScanner.held_by t = Some b ->
      QRScanner.vouched js events (QRScanner.id b)).

(** At most one run of [handleScan] waits, and [processingRef] says whether
    one does; and something waits while [isProcessing] is set. *)
Definition one_scan (s : QRScanner.State) : Prop :=
  length (filter QRScanner.of_handleScan (QRScanner.pending s))
  = (if QRScanner.processingRef s then 1 else 0)%nat /\
  (QRScanner.pending s = [] -> QRScanner.isProcessing s = false).

(* ===================================================================== *)
(** ** A small hall for the page and the selector                         *)
(* ===================================================================== *)

Module Foyer.

(** A show on sale whose venue has two rows of three seats, and no seat
    yet. *)
Definition on_sale : Bestill.ShowRow :=
  Bestill.mkShowRow Example.show1 "on_sale" 300
                    (Some (Bestill.mkSeatMapConfig None (Some 2) (Some 3))).

Definition empty_hall : Bestill.Tables :=
  Bestill.mkTables [on_sale] [Example.b1].

(** The store gives the rows of an insert the keys n-0, n-1, .. *)
Definition client : Bestill.Client :=
  Bestill.mkClient (fun _ => NoFault) (fun _ t => t)
                   (fun n => "n-" ++ string_of_Z (Z.of_nat n)).

Definition created : list Seat :=
  [mkSeat "n-0" "show-1" "Hovedsal" "A" 1 300 (Some "available") None;
   mkSeat "n-1" "show-1" "Hovedsal" "A" 2 300 (Some "available") None;
   mkSeat "n-2" "show-1" "Hovedsal" "A" 3 300 (Some "available") None;
   mkSeat "n-3" "show-1" "Hovedsal" "B" 1 300 (Some "available") None;
   mkSeat "n-4" "show-1" "Hovedsal" "B" 2 300 (Some "available") None;
   mkSeat "n-5" "show-1" "Hovedsal" "B" 3 300 (Some "available") None].

Definition full_hall : Bestill.Tables :=
  Bestill.mkTables [on_sale] (Example.b1 :: created).

(** The seat [a5] as the selector still shows it: available. *)
Definition stale_a5 : Seat :=
  mkSeat "a5" "show-1" "Hovedsal" "A" 5 300 (Some "available") None.

(** The visitor has picked [a1], [a5] and [a6]. *)
Definition picked : SeatSelector.State :=
  SeatSelector.mkState (seats_of_show "show-1" Example.hall)
                       [Example.a1; stale_a5; Example.a6] false None.

Definition nothing_yet : SeatSelector.Browser := SeatSelector.mkBrowser None None.

(** The ticket of [booking-1], as the verification reports it. *)
Definition ticket : QRScanner.BookingInfo :=
  QRScanner.mkBookingInfo "booking-1" "TM-260110-AB12" "Kari Nordmann" "Hamlet"
                          "2026-01-10T19:00:00Z" [mkSummary "Hovedsal" "A" 1] None false.

Definition valid : QRScanner.ScanResult :=
  QRScanner.mkScanResult "success" "Gyldig billett" (Some ticket).

(** The two string functions, as they act on a reference that is typed
    without blanks and in upper case. *)
Definition as_typed : QRScanner.Strings := QRScanner.mkStrings (fun s => s) (fun s => s).

(** An evening at the door: the camera reads the ticket, reads another code
    while the first is being verified, the same ticket is typed in and
    submitted, and the answers arrive, those of the typed reference first. *)
Definition evening : list QRScanner.Event :=
  [QRScanner.Scanned true None "qr-1";
   QRScanner.Scanned true None "qr-2";
   QRScanner.Typed "TM-260110-AB12";
   QRScanner.ManualSubmitted;
   QRScanner.VerifyAnswered 1 (QRScanner.Got valid);
   QRScanner.VerifyAnswered 0 (QRScanner.Got valid);
   QRScanner.CheckInAnswered 1 (QRScanner.Got (QRScanner.mkCheckInResult true None));
   QRScanner.CheckInAnswered 0
     (QRScanner.Got (QRScanner.mkCheckInResult false (Some "Allerede sjekket inn")))].

End Foyer.
(* ===================================================================== *)
(** ** Facts about the helpers and the store                              *)
(* ===================================================================== *)

Unset Implicit Arguments.

Arguments len : simpl never.
Arguments string_of_Z : simpl never.
Arguments matches : simpl never.
Arguments write_seats : simpl never.
Arguments patch_booking : simpl never.
Arguments Reserve.classify : simpl never.
Arguments Reserve.taken_message : simpl never.
Arguments Confirm.unavailable_message : simpl never.

Lemma mem_In (x : string) (l : list string) : mem x l = true <-> In x l.
Proof.
  unfold mem. rewrite existsb_exists. split.
  - intros (y & Hy & E). apply String.eqb_eq in E. now subst.
  - intros H. exists x. split; [assumption | apply String.eqb_refl].
Qed.

Lemma len_nonneg {A : Type} (l : list A) : 0 <= len l.
Proof. unfold len. lia. Qed.

Lemma len_pos_iff {A : Type} (l : list A) : (0 <? len l) = true <-> l <> [].
Proof.
  unfold len. destruct l; simpl.
  - split; [discriminate | congruence].
  - split; [discriminate | intros _; apply Z.ltb_lt; lia].
Qed.

Lemma len_pos_false {A : Type} (l : list A) : (0 <? len l) = false <-> l = [].
Proof.
  destruct l; simpl.
  - split; reflexivity.
  - split; [|discriminate]. intros H.
    assert (E : (0 <? len (a :: l)) = true) by (apply len_pos_iff; discriminate).
    congruence.
Qed.

Lemma len_eqb {A B : Type} (l : list A) (l' : list B) :
  (len l =? len l') = Nat.eqb (length l) (length l').
Proof.
  unfold len. destruct (Nat.eqb_spec (length l) (length l')) as [E | E].
  - rewrite E. apply Z.eqb_refl.
  - apply Z.eqb_neq. lia.
Qed.

Lemma matches_id (f : SeatFilter) (s : Seat) :
  matches f s = true -> In (id s) (f_ids f).
Proof.
  unfold matches. intros H.
  apply andb_prop in H as [H _]. apply andb_prop in H as [H _].
  now apply mem_In.
Qed.

Lemma NoDup_map_filter {A B : Type} (g : A -> B) (p : A -> bool) (l : list A) :
  NoDup (map g l) -> NoDup (map g (filter p l)).
Proof.
  induction l as [| a l IH]; simpl; intros H; [constructor |].
  inversion H as [| ? ? Hnotin Hnd]; subst.
  destruct (p a); simpl; [constructor |]; auto.
  intros Hin. apply Hnotin.
  apply in_map_iff in Hin as (x & E & Hx).
  apply in_map_iff. exists x. apply filter_In in Hx as [Hx _]. auto.
Qed.

Lemma nodup_shorter (l : list string) :
  ~ NoDup l -> (length (nodup string_dec l) < length l)%nat.
Proof.
  induction l as [| a l IH]; intros H.
  - exfalso. apply H. constructor.
  - simpl. destruct (in_dec string_dec a l) as [Hin | Hnin].
      assert (length (nodup string_dec l) <= length l)%nat.
      { apply NoDup_incl_length; [apply NoDup_nodup |].
        intros x Hx. now apply nodup_In in Hx. }
      lia.
    + simpl. assert (~ NoDup l) by (intros Hl; apply H; now constructor).
      specialize (IH H0). lia.
Qed.

(** The store answers one row per distinct key: a list of keys that repeats
    one of them is longer than any answer to it. *)
Lemma repeated_key_short_answer (f : SeatFilter) (t : list Seat) :
  NoDup (map id t) -> ~ NoDup (f_ids f) ->
  (length (filter (matches f) t) < length (f_ids f))%nat.
Proof.
  intros Hkey Hdup.
  apply Nat.le_lt_trans with (m := length (nodup string_dec (f_ids f))).
  - rewrite <- (length_map id).
    apply NoDup_incl_length; [now apply NoDup_map_filter |].
    intros x Hx. apply in_map_iff in Hx as (s & <- & Hs).
    apply filter_In in Hs as [_ Hs]. apply nodup_In. now apply matches_id.
  - now apply nodup_shorter.
Qed.

Lemma serve_quiet (env : Env) (site : Site) (w : World) :
  quiet env -> serve env site w = w.
Proof. intros Hq. unfold serve. rewrite Hq. now destruct w. Qed.

Ltac split_andb :=
  repeat match goal with
         | H : (_ && _)%bool = true |- _ => apply andb_prop in H; destruct H
         end.

Ltac leaf :=
  repeat split; simpl in *; intros; try reflexivity; try discriminate;
  try congruence; try (split_andb; simpl in *; discriminate).

Lemma dup_count_mismatch (f : SeatFilter) (st : Store) :
  keyed st -> ~ NoDup (f_ids f) ->
  (len (filter (matches f) (seats st)) =? len (f_ids f)) = false.
Proof.
  intros Hk Hd. pose proof (repeated_key_short_answer f _ Hk Hd) as H.
  apply Z.eqb_neq. unfold len. lia.
Qed.

(** *** The table under a write *)

Lemma write_seats_ids (f : SeatFilter) (p : SeatPatch) (t : list Seat) :
  map id (write_seats f p t) = map id t.
Proof.
  unfold write_seats. rewrite map_map. apply map_ext.
  intros s. now destruct (matches f s).
Qed.

Lemma write_seats_In (f : SeatFilter) (p : SeatPatch) (t : list Seat) (s' : Seat) :
  In s' (write_seats f p t) ->
  (In s' t /\ matches f s' = false) \/
  (exists s, In s t /\ matches f s = true /\ s' = patch p s).
Proof.
  unfold write_seats. intros H. apply in_map_iff in H as (s & E & Hs).
  destruct (matches f s) eqn:Em.
  - right. exists s. auto.
  - left. subst. auto.
Qed.

Lemma write_seats_keeps (f : SeatFilter) (p : SeatPatch) (t : list Seat) (s : Seat) :
  In s t -> matches f s = false -> In s (write_seats f p t).
Proof.
  intros Hs Hm. unfold write_seats. apply in_map_iff. exists s. now rewrite Hm.
Qed.

Lemma matches_check_patch (ids : list string) (sh : string) (p : SeatPatch) (s : Seat) :
  matches (Reserve.check_filter ids sh) (patch p s)
  = matches (Reserve.check_filter ids sh) s.
Proof. reflexivity. Qed.

Lemma filter_check_write (ids : list string) (sh : string) (f : SeatFilter)
      (p : SeatPatch) (t : list Seat) :
  length (filter (matches (Reserve.check_filter ids sh)) (write_seats f p t))
  = length (filter (matches (Reserve.check_filter ids sh)) t).
Proof.
  unfold write_seats. induction t as [| s t IH]; simpl; [reflexivity |].
  assert (E : matches (Reserve.check_filter ids sh) (if matches f s then patch p s else s)
              = matches (Reserve.check_filter ids sh) s)
    by (destruct (matches f s); [apply matches_check_patch | reflexivity]).
  rewrite E. destruct (matches (Reserve.check_filter ids sh) s); simpl; congruence.
Qed.

Lemma matches_reserve_check (ids : list string) (sh : string) (s : Seat) :
  matches (Reserve.reserve_filter ids sh) s = true ->
  matches (Reserve.check_filter ids sh) s = true.
Proof.
  unfold matches. simpl. intros H. apply andb_prop in H as [H _].
  now rewrite H.
Qed.

Lemma matches_reserve_status (ids : list string) (sh : string) (s : Seat) :
  matches (Reserve.reserve_filter ids sh) s = true -> status s = Some "available".
Proof.
  unfold matches. simpl. intros H. apply andb_prop in H as [_ H].
  destruct (status s) as [st |]; [| discriminate].
  apply String.eqb_eq in H. now subst.
Qed.

Lemma filter_length_le {A : Type} (p q : A -> bool) (l : list A) :
  (forall x, In x l -> p x = true -> q x = true) ->
  (length (filter p l) <= length (filter q l))%nat.
Proof.
  induction l as [| a l IH]; simpl; intros H; [lia |].
  assert (IH' : (length (filter p l) <= length (filter q l))%nat)
    by (apply IH; intros x Hx; apply H; now right).
  destruct (p a) eqn:Ep.
  - rewrite (H a (or_introl eq_refl) Ep). simpl. lia.
  - destruct (q a); simpl; lia.
Qed.

Lemma filter_length_lt {A : Type} (p q : A -> bool) (l : list A) (a : A) :
  (forall x, In x l -> p x = true -> q x = true) ->
  In a l -> p a = false -> q a = true ->
  (length (filter p l) < length (filter q l))%nat.
Proof.
  induction l as [| b l IH]; simpl; intros H Ha Hp Hq; [contradiction |].
  assert (Hle : (length (filter p l) <= length (filter q l))%nat)
    by (apply filter_length_le; intros x Hx; apply H; now right).
  destruct Ha as [-> | Ha].
  - rewrite Hp, Hq. simpl. lia.
  - assert (IH' : (length (filter p l) < length (filter q l))%nat)
      by (apply IH; auto).
    destruct (p b) eqn:Ep.
    + rewrite (H b (or_introl eq_refl) Ep). simpl. lia.
    + destruct (q b); simpl; lia.
Qed.

Lemma filter_length_eq_all {A : Type} (p q : A -> bool) (l : list A) :
  (forall x, In x l -> p x = true -> q x = true) ->
  length (filter p l) = length (filter q l) ->
  forall x, In x l -> p x = q x.
Proof.
  intros H E x Hx. destruct (p x) eqn:Ep.
  - symmetry. now apply H.
  - destruct (q x) eqn:Eq; [| reflexivity].
    pose proof (filter_length_lt p q l x H Hx Ep Eq). lia.
Qed.

(** Two rows of a keyed table with the same key are the same row. *)
Lemma keyed_same_row (t : list Seat) (a b : Seat) :
  NoDup (map id t) -> In a t -> In b t -> id a = id b -> a = b.
Proof.
  induction t as [| c t IH]; simpl; intros Hk Ha Hb E; [contradiction |].
  inversion Hk as [| ? ? Hnotin Hnd]; subst.
  destruct Ha as [-> | Ha], Hb as [-> | Hb]; auto.
  - exfalso. apply Hnotin. rewrite E. now apply in_map.
  - exfalso. apply Hnotin. rewrite <- E. now apply in_map.
Qed.

(** *** The status check *)

Lemma classify_held (now : Z) (s : Seat) :
  (0 <= now)%Z -> held now s -> Reserve.is_unavailable now s = true.
Proof.
  intros Hnow [H | [H | (H & t & Ht & Hlt)]];
    unfold Reserve.is_unavailable, Reserve.classify; rewrite H; simpl; auto.
  rewrite Ht.
  assert (E0 : (t =? 0)%Z = false) by (apply Z.eqb_neq; lia).
  assert (E1 : (t >? now)%Z = true) by (apply Z.gtb_lt; lia).
  now rewrite E0, E1.
Qed.

Lemma classify_lapsed (now : Z) (s : Seat) :
  (0 <= now)%Z -> lapsed now s -> Reserve.classify now s = Reserve.Expired.
Proof.
  intros Hnow [H [Hu | (t & Ht & Hle)]]; unfold Reserve.classify;
    rewrite H, Hu || rewrite H, Ht; simpl; auto.
  destruct (Z.eqb_spec t 0); simpl; [reflexivity |].
  assert (E1 : (t >? now)%Z = false) by (rewrite Z.gtb_ltb; apply Z.ltb_ge; lia).
  now rewrite E1.
Qed.

Lemma classify_blank (now : Z) (s : Seat) :
  status s = None \/ status s = Some "" ->
  Reserve.classify now s = Reserve.Eligible.
Proof. intros [H | H]; unfold Reserve.classify; now rewrite H. Qed.

Lemma blank_not_matched (ids : list string) (sh : string) (s : Seat) :
  status s = None \/ status s = Some "" ->
  matches (Reserve.reserve_filter ids sh) s = false.
Proof.
  intros H. destruct (matches (Reserve.reserve_filter ids sh) s) eqn:E; [| reflexivity].
  apply (matches_reserve_status ids sh) in E. destruct H; congruence.
Qed.

(** *** The steps of the reserve handler *)

Lemma cleanup_expired_ok (env : Env) (ids : list string) (w : World) :
  Reserve.cleanup_expired env ids w = (Ok tt, cleaned env ids w).
Proof.
  unfold cleaned, Reserve.cleanup_expired.
  destruct (0 <? len ids)%Z; [| reflexivity].
  unfold try_ignore, bind, update_seats, ret.
  destruct (fault env Cleanup); reflexivity.
Qed.

Lemma cleaned_seats (env : Env) (ids : list string) (w : World) :
  quiet env ->
  seats (db (cleaned env ids w)) = seats (db w) \/
  seats (db (cleaned env ids w))
  = write_seats (Reserve.by_ids ids) Reserve.available_patch (seats (db w)).
Proof.
  intros Hq. unfold cleaned, Reserve.cleanup_expired.
  destruct (0 <? len ids)%Z; [| now left].
  unfold try_ignore, bind, update_seats, ret. rewrite serve_quiet by assumption.
  destruct (fault env Cleanup); simpl; auto.
Qed.

(** The cleanup issues at most one write, on the expired ids, and it sets
    them available. *)
Lemma cleaned_issued (env : Env) (ids : list string) (w : World) :
  issued (cleaned env ids w) = issued w \/
  exists c, issued (cleaned env ids w)
            = (issued w ++ [SeatsWrite Cleanup (Reserve.by_ids ids)
                                       Reserve.available_patch c])%list.
Proof.
  unfold cleaned, Reserve.cleanup_expired.
  destruct (0 <? len ids)%Z; [| now left].
  unfold try_ignore, bind, update_seats, ret.
  destruct (fault env Cleanup); simpl; right; eauto.
Qed.

Lemma cleaned_issued_nonempty (env : Env) (ids : list string) (w : World) :
  ids <> [] ->
  exists c, issued (cleaned env ids w)
            = (issued w ++ [SeatsWrite Cleanup (Reserve.by_ids ids)
                                       Reserve.available_patch c])%list.
Proof.
  intros Hne. unfold cleaned, Reserve.cleanup_expired.
  apply len_pos_iff in Hne. rewrite Hne.
  unfold try_ignore, bind, update_seats, ret.
  destruct (fault env Cleanup); simpl; eauto.
Qed.

(** A requested seat whose hold has run out counts as available in the
    status check, and the cleanup write on the expired ids, which include
    its id, is issued. *)
Lemma lapsed_hold_scheduled_for_cleanup (env : Env) (rows : list Seat) (s : Seat)
      (w : World) :
  (0 <= now_at_check env)%Z ->
  In s rows -> lapsed (now_at_check env) s ->
  ~ In s (unavailable_rows env rows) /\
  In (id s) (expired_ids env rows) /\
  exists c, issued (cleaned env (expired_ids env rows) w)
            = (issued w ++ [SeatsWrite Cleanup (Reserve.by_ids (expired_ids env rows))
                                       Reserve.available_patch c])%list.
Proof.
  intros Hnow Hs Hl. pose proof (classify_lapsed _ s Hnow Hl) as Hc.
  assert (Hin : In (id s) (expired_ids env rows)).
  { unfold expired_ids. apply in_map. apply filter_In. split; [assumption |].
    unfold Reserve.is_expired. now rewrite Hc. }
  split; [| split; [exact Hin |]].
  - intros H. apply filter_In in H as [_ H].
    unfold Reserve.is_unavailable in H. rewrite Hc in H. discriminate.
  - apply cleaned_issued_nonempty. intros E. rewrite E in Hin. contradiction.
Qed.

Lemma decide_unfold (env : Env) (ids : list string) (sh : string) (until : Z)
      (rows : list Seat) (w : World) :
  Reserve.decide env ids sh until rows w
  = (if (0 <? len (unavailable_rows env rows))%Z
     then respond
            (json_status
               (BUnavailable
                  ("Følgende seter er ikke tilgjengelige: "
                   ++ String.concat ", " (map Reserve.seat_label (unavailable_rows env rows)))
                  (map id (unavailable_rows env rows)))
               409)
     else
       upd <- update_seats env ReserveUpdate (Reserve.reserve_filter ids sh)
                (Reserve.reserve_patch until) ;;
       match error upd with
       | Some message =>
           respond (json_status
                      (BErrorDetails "Kunne ikke reservere setene" message) 500)
       | None =>
           let updatedSeats := match data upd with Some l => l | None => [] end in
           if negb (len updatedSeats =? len ids)%Z
           then
             Reserve.rollback env (map id updatedSeats) ;;
             respond (json_status
                        (BError (Reserve.taken_message (len ids - len updatedSeats)))
                        409)
           else ret (json (BReserved until (map id updatedSeats)))
       end)
      (cleaned env (expired_ids env rows) w).
Proof.
  unfold Reserve.decide. unfold bind at 1.
  fold (expired_ids env rows). rewrite cleanup_expired_ok. reflexivity.
Qed.

Lemma reserve_reaches_decide (env : Env) (st : Store) (body : Reserve.RequestBody)
      (ids : list string) (sh : string) :
  quiet env -> reaches_status_check env st body ids sh ->
  Reserve.POST env (Some body) st
  = run_handler
      (Reserve.decide env ids sh (now_at_hold env + Reserve.hold_window)
                      (requested_rows st ids sh))
      st.
Proof.
  intros Hq (E1 & E2 & Hv & Hkey & Hf & Hlen).
  unfold Reserve.POST, run_handler, answer, Reserve.handler, reserve_valid in *.
  rewrite E1, E2 in *. simpl in Hv.
  destruct ids as [| i ids]; [discriminate |]. simpl in Hv.
  apply negb_true_iff in Hv. rewrite Hv, Hkey. simpl.
  unfold bind at 1. unfold select_seats. rewrite serve_quiet by assumption.
  rewrite Hf. simpl. fold (requested_rows st (i :: ids) sh).
  rewrite len_eqb, Hlen, Nat.eqb_refl. reflexivity.
Qed.

(** *** Writes inside the request *)

Lemma by_ids_inside (ids : list string) (sh : string) (l : list string) (t : list Seat) :
  NoDup (map id t) ->
  (forall i, In i l -> exists s1, In s1 t /\ id s1 = i /\
                                  matches (Reserve.check_filter ids sh) s1 = true) ->
  inside ids sh (Reserve.by_ids l) t.
Proof.
  intros Hk Hl s Hs Hm. apply matches_id in Hm. simpl in Hm.
  destruct (Hl _ Hm) as (s1 & Hs1 & E & Hc).
  now rewrite (keyed_same_row t s s1 Hk Hs Hs1 (eq_sym E)).
Qed.

Lemma write_inside_keeps (ids : list string) (sh : string) (f : SeatFilter)
      (p : SeatPatch) (t : list Seat) (s : Seat) :
  inside ids sh f t -> In s t -> matches (Reserve.check_filter ids sh) s = false ->
  In s (write_seats f p t).
Proof.
  intros Hi Hs Hc. apply write_seats_keeps; [assumption |].
  destruct (matches f s) eqn:E; [| reflexivity].
  rewrite (Hi s Hs E) in Hc. discriminate.
Qed.

Lemma expired_ids_rows (env : Env) (st : Store) (ids : list string) (sh : string) :
  forall i, In i (expired_ids env (requested_rows st ids sh)) ->
            exists s1, In s1 (seats st) /\ id s1 = i /\
                       matches (Reserve.check_filter ids sh) s1 = true.
Proof.
  intros i Hi. unfold expired_ids in Hi.
  apply in_map_iff in Hi as (s1 & E & Hs1).
  apply filter_In in Hs1 as [Hs1 _]. apply filter_In in Hs1 as [Hs1 Hc].
  exists s1. auto.
Qed.


Lemma filter_check_write_ids (ids : list string) (sh : string) (f : SeatFilter)
      (p : SeatPatch) (t : list Seat) :
  map id (filter (matches (Reserve.check_filter ids sh)) (write_seats f p t))
  = map id (filter (matches (Reserve.check_filter ids sh)) t).
Proof.
  unfold write_seats. induction t as [| s t IH]; simpl; [reflexivity |].
  assert (E : matches (Reserve.check_filter ids sh) (if matches f s then patch p s else s)
              = matches (Reserve.check_filter ids sh) s)
    by (destruct (matches f s); [apply matches_check_patch | reflexivity]).
  rewrite E. destruct (matches (Reserve.check_filter ids sh) s); simpl; [| assumption].
  rewrite IH. f_equal. now destruct (matches f s).
Qed.

Lemma write_check_after (ids : list string) (sh : string) (f : SeatFilter)
      (a q : SeatPatch) (t : list Seat) :
  inside ids sh f t ->
  write_seats (Reserve.check_filter ids sh) q (write_seats f a t)
  = write_seats (Reserve.check_filter ids sh) q t.
Proof.
  intros Hi. unfold write_seats. rewrite map_map. apply map_ext_in.
  intros s Hs. destruct (matches f s) eqn:E; [| reflexivity].
  rewrite matches_check_patch, (Hi s Hs E). reflexivity.
Qed.

Lemma cleaned_table (env : Env) (st : Store) (ids : list string) (sh : string) :
  quiet env -> keyed st ->
  let t1 := seats (db (cleaned env (expired_ids env (requested_rows st ids sh))
                               (mkWorld st []))) in
  map id t1 = map id (seats st) /\
  (forall s, In s (seats st) -> matches (Reserve.check_filter ids sh) s = false ->
             In s t1) /\
  length (filter (matches (Reserve.check_filter ids sh)) t1)
  = length (requested_rows st ids sh) /\
  map id (filter (matches (Reserve.check_filter ids sh)) t1)
  = map id (requested_rows st ids sh) /\
  (forall q, write_seats (Reserve.check_filter ids sh) q t1
             = write_seats (Reserve.check_filter ids sh) q (seats st)).
Proof.
  intros Hq Hk t1.
  destruct (cleaned_seats env (expired_ids env (requested_rows st ids sh))
                          (mkWorld st []) Hq) as [E | E];
    fold t1 in E; simpl in E; rewrite E; clear E.
  - repeat split; auto.
  - assert (Hin : inside ids sh
                    (Reserve.by_ids (expired_ids env (requested_rows st ids sh)))
                    (seats st))
      by (apply by_ids_inside; [exact Hk | apply expired_ids_rows]).
    split; [apply write_seats_ids |].
    split; [intros s Hs Hc; now apply (write_inside_keeps ids sh) |].
    split; [apply filter_check_write |].
    split; [apply filter_check_write_ids |].
    intros q. now apply write_check_after.
Qed.


Lemma cleaned_issued_In (env : Env) (ids : list string) (w : World) (e : Effect) :
  In e (issued (cleaned env ids w)) ->
  In e (issued w) \/
  exists c, e = SeatsWrite Cleanup (Reserve.by_ids ids) Reserve.available_patch c.
Proof.
  intros H. destruct (cleaned_issued env ids w) as [E | [c E]]; rewrite E in H.
  - now left.
  - apply in_app_or in H as [H | [<- | []]]; [now left | right; eauto].
Qed.

Lemma write_by_ids_available (l : list string) (t : list Seat) (s : Seat) :
  In s (write_seats (Reserve.by_ids l) Reserve.available_patch t) ->
  In (id s) l ->
  status s = Some "available" /\ reserved_until s = None.
Proof.
  intros Hs Hl. apply write_seats_In in Hs as [[_ Hm] | (s0 & _ & _ & ->)].
  - unfold matches in Hm. simpl in Hm. apply mem_In in Hl. rewrite Hl in Hm. discriminate.
  - split; reflexivity.
Qed.

Ltac no_effect Hrun Hin :=
  simpl in Hrun; inversion Hrun; subst; simpl in Hin; contradiction.


Lemma not_expired_kept (env : Env) (st : Store) (ids : list string) (sh : string)
      (s : Seat) :
  quiet env -> keyed st ->
  In s (requested_rows st ids sh) ->
  Reserve.is_expired (now_at_check env) s = false ->
  In s (seats (db (cleaned env (expired_ids env (requested_rows st ids sh))
                           (mkWorld st [])))).
Proof.
  intros Hq Hk Hs Hne.
  assert (Hst : In s (seats st)) by (apply filter_In in Hs; tauto).
  destruct (cleaned_seats env (expired_ids env (requested_rows st ids sh))
                          (mkWorld st []) Hq) as [E | E]; rewrite E; simpl; [assumption |].
  apply write_seats_keeps; [assumption |].
  destruct (matches (Reserve.by_ids (expired_ids env (requested_rows st ids sh))) s)
    eqn:Em; [| reflexivity].
  apply matches_id in Em. simpl in Em. unfold expired_ids in Em.
  apply in_map_iff in Em as (s1 & E1 & Hs1).
  apply filter_In in Hs1 as [Hs1 Hexp].
  assert (Hst1 : In s1 (seats st)) by (apply filter_In in Hs1; tauto).
  rewrite (keyed_same_row (seats st) s1 s Hk Hst1 Hst E1) in Hexp. congruence.
Qed.


Lemma write_by_ids_status (l : list string) (p : SeatPatch) (t : list Seat) (s : Seat) :
  In s (write_seats (mkFilter l None None) p t) ->
  In (id s) l ->
  status s = Some (p_status p) /\ reserved_until s = p_reserved_until p.
Proof.
  intros Hs Hl. apply write_seats_In in Hs as [[_ Hm] | (s0 & _ & _ & ->)].
  - unfold matches in Hm. simpl in Hm. apply mem_In in Hl. rewrite Hl in Hm. discriminate.
  - split; reflexivity.
Qed.

(** *** The steps of the confirm handler *)

Lemma count_discount_run (env : Env) (dc : option string) (w : World) :
  exists o w1,
    Confirm.count_discount env dc w = (o, w1) /\
    (o = Ok tt \/ o = Throw) /\
    (exists l, issued w1 = (issued w ++ l)%list /\ Forall is_code_write l) /\
    (quiet env ->
     seats (db w1) = seats (db w) /\
     bookings (db w1) = bookings (db w) /\
     shows (db w1) = shows (db w)).
Proof.
  unfold Confirm.count_discount.
  destruct (truthy dc).
  2:{ do 2 eexists. split; [reflexivity |]. split; [now left |].
      split; [exists []; now rewrite app_nil_r | auto]. }
  unfold bind, select_code, update_code, ret, emit, serve.
  destruct (fault env GetDiscount); simpl.
  - match goal with
    | |- context [single ?l] => destruct (single l) as [[c |] [e |]]
    end; simpl.
    2:{ destruct (fault env BumpDiscount); simpl;
        (do 2 eexists; split; [reflexivity |]; split; [auto |]; split;
         [eexists; split; [reflexivity | constructor; [exact I | constructor]]
         | intros Hq; rewrite !Hq; auto]). }
    all: do 2 eexists; split; [reflexivity |]; split; [now left |]; split;
      [exists []; now rewrite app_nil_r | intros Hq; rewrite !Hq; auto].
  - do 2 eexists. split; [reflexivity |]. split; [now left |].
    split; [exists []; now rewrite app_nil_r |].
    intros Hq. rewrite !Hq. auto.
  - do 2 eexists. split; [reflexivity |]. split; [now right |].
    split; [exists []; now rewrite app_nil_r |].
    intros Hq. rewrite !Hq. auto.
Qed.

Lemma core_update (key : string) (p : BookingPatch) (bs : list Booking) :
  (forall b, booking_core (patch_booking p b) = booking_core b) ->
  map booking_core
      (map (fun b => if (booking_id b =? key)%string then patch_booking p b else b) bs)
  = map booking_core bs.
Proof.
  intros Hp. rewrite map_map. apply map_ext. intros b.
  destruct (booking_id b =? key)%string; [apply Hp | reflexivity].
Qed.

Ltac settled :=
  do 2 eexists; split; [reflexivity |]; simpl; split; [auto |]; split;
  [ rewrite <- ?app_assoc; simpl; eexists; split;
    [reflexivity | repeat (constructor; [simpl; auto |]); constructor]
  | intros Hq; rewrite ?Hq; simpl; rewrite ?Hq; simpl;
    repeat rewrite core_update by (intros b0; reflexivity);
    split; [reflexivity |]; split; [auto |]; intros; try discriminate;
    try congruence; try reflexivity ].

Lemma settle_run (env : Env) (b : Booking) (dc : option string) (sh : string)
      (ids : list string) (show : Show) (qr : QrData) (w : World) :
  exists o w1,
    Confirm.settle env b dc sh ids show qr w = (o, w1) /\
    (o = Ok tt \/ o = Throw) /\
    (exists l, issued w1 = (issued w ++ l)%list /\ Forall (is_settling ids) l) /\
    (quiet env ->
     map booking_core (bookings (db w1)) = map booking_core (bookings (db w)) /\
     (seats (db w1) = seats (db w) \/
      seats (db w1) = write_seats (mkFilter ids None None) Confirm.sold_patch (seats (db w))) /\
     (o = Ok tt -> fault env SellSeats = NoFault ->
      seats (db w1) = write_seats (mkFilter ids None None) Confirm.sold_patch (seats (db w)))).
Proof.
  unfold Confirm.settle, bind, try_ignore, update_booking, update_seats, update_show,
    ret, emit, serve.
  destruct (truthy dc).
  - destruct (fault env SetDiscountUsed), (fault env SetQr), (fault env SellSeats),
      (fault env DecrementShow); simpl; settled.
  - destruct (fault env SetQr), (fault env SellSeats),
      (fault env DecrementShow); simpl; settled.
Qed.

Lemma dispatch_run (env : Env) (b : Booking) (ref : string) (args : EmailArgs) (w : World) :
  exists res w1 ok,
    Confirm.dispatch_and_answer env b ref args w = (res, w1) /\
    issued w1
    = (issued w ++ [EmailCall args (sendTicketEmail env args);
                    BookingWrite SetTicketSent (booking_id b)
                      (PatchTicketSent
                         (fst (Confirm.email_result (sendTicketEmail env args))))
                      ok])%list /\
    (res = Ok (Confirm.booked b ref (Confirm.email_result (sendTicketEmail env args))) \/
     res = Throw) /\
    (fault env SetTicketSent <> Thrown ->
     res = Ok (Confirm.booked b ref (Confirm.email_result (sendTicketEmail env args)))) /\
    (quiet env ->
     seats (db w1) = seats (db w) /\
     forall b0, In b0 (bookings (db w)) -> ticket_sent b0 = false ->
       exists b', In b' (bookings (db w1)) /\
                  booking_id b' = booking_id b0 /\
                  booking_status b' = booking_status b0 /\
                  (fst (Confirm.email_result (sendTicketEmail env args)) = false ->
                   ticket_sent b' = false)).
Proof.
  unfold Confirm.dispatch_and_answer, bind, send_email, update_booking, ret, emit, serve.
  destruct (fault env SetTicketSent); simpl;
    do 3 eexists; (split; [reflexivity |]); simpl;
    (split; [rewrite <- app_assoc; reflexivity |]);
    (split; [auto |]); (split; [intros; congruence |]);
    intros Hq; rewrite ?Hq; simpl; (split; [reflexivity |]);
    intros b0 Hb0 Hts.
  - exists (if (booking_id b0 =? booking_id b)%string
            then patch_booking
                   (PatchTicketSent (fst (Confirm.email_result (sendTicketEmail env args))))
                   b0
            else b0).
    split; [apply in_map_iff; exists b0; auto |].
    destruct (booking_id b0 =? booking_id b)%string; auto.
  - exists b0. auto.
  - exists b0. auto.
Qed.

Lemma book_run (env : Env) (body : Confirm.RequestBody) (uid sh : string)
      (ids : list string) (cn ce : string) (ta : Z) (show : Show) (rows : list Seat)
      (w : World) :
  exists res w1 b codes,
    Confirm.book env body uid sh ids cn ce ta show rows w = (res, w1) /\
    Forall is_code_write codes /\
    (total_amount_nok b = ta /\ seat_ids b = ids /\ booking_show_id b = sh /\
     booking_status b = "confirmed" /\ ticket_sent b = false /\
     booking_id b = new_booking_id env) /\
    ((* the booking was not inserted *)
     ((issued w1 = (issued w ++ codes)%list \/
       issued w1 = (issued w ++ codes ++ [BookingInsert b false])%list) /\
      (res = Throw \/ exists msg, res = Return (json_status (BError msg) 500)) /\
      (quiet env ->
       seats (db w1) = seats (db w) /\ bookings (db w1) = bookings (db w)))
     \/
     (* inserted, stopped before the e-mail *)
     (exists l,
         issued w1 = (issued w ++ codes ++ BookingInsert b true :: l)%list /\
         Forall (is_settling ids) l /\ res = Throw)
     \/
     (* inserted, the e-mail was dispatched *)
     (exists l a ok,
         issued w1
         = (issued w ++ codes ++ BookingInsert b true :: l
            ++ [EmailCall a (sendTicketEmail env a);
                BookingWrite SetTicketSent (booking_id b)
                  (PatchTicketSent (fst (Confirm.email_result (sendTicketEmail env a))))
                  ok])%list /\
         Forall (is_settling ids) l /\
         e_totalAmount a = ta /\
         (res = Ok (Confirm.booked b (generateBookingReference env)
                                   (Confirm.email_result (sendTicketEmail env a))) \/
          res = Throw) /\
         (fault env SetTicketSent <> Thrown ->
          res = Ok (Confirm.booked b (generateBookingReference env)
                                   (Confirm.email_result (sendTicketEmail env a)))) /\
         (quiet env ->
          (exists b', In b' (bookings (db w1)) /\
                      booking_id b' = booking_id b /\
                      booking_status b' = "confirmed" /\
                      (fst (Confirm.email_result (sendTicketEmail env a)) = false ->
                       ticket_sent b' = false)) /\
          (fault env SellSeats = NoFault ->
           forall s, In s (seats (db w1)) -> In (id s) ids ->
                     status s = Some "sold" /\ reserved_until s = None)))).
Proof.
  unfold Confirm.book. unfold bind at 1.
  destruct (count_discount_run env (Confirm.discountCode body) w)
    as (o0 & w0 & E0 & Ho0 & (codes & Elog0 & Hcodes) & Hst0).
  rewrite E0.
  set (ref := generateBookingReference env).
  set (showTitle := or_default (title show) (or_default (ensemble_title show) "Forestilling")).
  set (qrData := Confirm.createQRCodeData "" ref sh showTitle (show_datetime show) cn
                   (map (fun s => mkSummary (section s) (row s) (number s)) rows)).
  set (b := Confirm.new_booking env uid sh ids cn ce (Confirm.customerPhone body)
              (Confirm.specialRequests body) ta ref qrData).
  assert (Hb : total_amount_nok b = ta /\ seat_ids b = ids /\ booking_show_id b = sh /\
               booking_status b = "confirmed" /\ ticket_sent b = false /\
               booking_id b = new_booking_id env) by (repeat split; reflexivity).
  destruct Ho0 as [-> | ->].
  2:{ exists Throw, w0, b, codes. split; [reflexivity |]. split; [assumption |].
      split; [assumption |]. left. split; [now left |]. split; [now left |].
      intros Hq. destruct (Hst0 Hq) as (? & ? & ?). auto. }
  unfold Confirm.commit. fold ref showTitle qrData b.
  unfold bind at 1. unfold insert_booking.
  destruct (fault env InsertBooking) eqn:Ei; simpl.
  - (* inserted *)
    set (w2 := emit (BookingInsert b true) _).
    set (qr2 := mkQr _ _ _ _ _ _ _).
    unfold bind at 1.
    destruct (settle_run env b (Confirm.discountCode body) sh ids show qr2 w2)
      as (o3 & w3 & E3 & Ho3 & (l3 & Elog3 & Hl3) & Hst3).
    rewrite E3.
    assert (Elog : issued w3 = (issued w ++ codes ++ BookingInsert b true :: l3)%list).
    { rewrite Elog3. unfold w2, emit, serve. simpl. rewrite Elog0.
      rewrite <- !app_assoc. reflexivity. }
    destruct Ho3 as [-> | ->].
    2:{ exists Throw, w3, b, codes. split; [reflexivity |]. split; [assumption |].
        split; [assumption |]. right. left. exists l3. auto. }
    set (args := Confirm.email_args cn ce ref showTitle show rows ta qr2).
    destruct (dispatch_run env b ref args w3)
      as (res & w4 & ok & E4 & Elog4 & Hres & Hres' & Hst4).
    rewrite E4. exists res, w4, b, codes.
    split; [reflexivity |]. split; [assumption |]. split; [assumption |].
    right. right. exists l3, args, ok.
    split; [rewrite Elog4, Elog; rewrite <- !app_assoc; reflexivity |].
    split; [assumption |]. split; [reflexivity |].
    split; [assumption |]. split; [assumption |].
    intros Hq. destruct (Hst4 Hq) as (Hseats4 & Hbook4).
    destruct (Hst3 Hq) as (Hcore3 & _ & Hsold3).
    split.
    + (* the booking stands *)
      assert (Hin2 : In (booking_core b) (map booking_core (bookings (db w3)))).
      { rewrite Hcore3. unfold w2, emit, serve. simpl. rewrite Hq. simpl.
        rewrite map_app. apply in_or_app. right. now left. }
      apply in_map_iff in Hin2 as (b0 & Ecore & Hb0).
      injection Ecore as Eid Est Ets _ _ _.
      destruct (Hbook4 b0 Hb0 Ets) as (b' & Hb' & Eid' & Est' & Hts').
      exists b'. split; [assumption |].
      split; [rewrite Eid', Eid; reflexivity |].
      split; [rewrite Est', Est; reflexivity | assumption].
    + intros Hsell s Hs Hi. rewrite Hseats4 in Hs.
      rewrite (Hsold3 eq_refl Hsell) in Hs.
      apply (write_by_ids_status ids Confirm.sold_patch _ s Hs Hi).
  - exists (Return (json_status (BError ("Kunne ikke opprette bestilling: " ++ message)) 500)).
    eexists. exists b, codes. split; [reflexivity |]. split; [assumption |].
    split; [assumption |]. left.
    split; [right; simpl; rewrite Elog0, <- app_assoc; reflexivity |].
    split; [right; eauto |].
    intros Hq. simpl. rewrite Hq. destruct (Hst0 Hq) as (? & ? & ?). auto.
  - exists Throw. eexists. exists b, codes. split; [reflexivity |]. split; [assumption |].
    split; [assumption |]. left.
    split; [right; simpl; rewrite Elog0, <- app_assoc; reflexivity |].
    split; [now left |].
    intros Hq. simpl. rewrite Hq. destruct (Hst0 Hq) as (? & ? & ?). auto.
Qed.

Arguments confirm_rows : simpl never.

Lemma confirm_structure (env : Env) (request : option Confirm.RequestBody) (st : Store)
      (r : Response) (w : World) :
  Confirm.POST env request st = (r, w) ->
  (issued w = [] /\ http_status r <> 200 /\ (quiet env -> db w = st)) \/
  (exists body sh ids cn ce ta uid show w0,
      request = Some body /\
      Confirm.showId body = Some sh /\ Confirm.seatIds body = Some ids /\
      Confirm.customerName body = Some cn /\ Confirm.customerEmail body = Some ce /\
      Confirm.totalAmount body = Some ta /\ (0 < ta)%Z /\
      current_user env = Some uid /\
      issued w0 = [] /\ (quiet env -> db w0 = st) /\
      length (confirm_rows (db w0) ids) = length ids /\
      filter Confirm.is_unavailable (confirm_rows (db w0) ids) = [] /\
      (r, w) = answer (Confirm.book env body uid sh ids cn ce ta show
                                    (confirm_rows (db w0) ids) w0)).
Proof.
  intros Hrun.
  unfold Confirm.POST, run_handler, answer, Confirm.handler in Hrun.
  destruct request as [body |]; [| inversion Hrun; left; now leaf].
  destruct (Confirm.showId body) as [sh |] eqn:Esh; [| inversion Hrun; left; now leaf].
  destruct (Confirm.seatIds body) as [ids |] eqn:Eids; [| inversion Hrun; left; now leaf].
  destruct (Confirm.customerName body) as [cn |] eqn:Ecn;
    [| inversion Hrun; left; now leaf].
  destruct (Confirm.customerEmail body) as [ce |] eqn:Ece;
    [| inversion Hrun; left; now leaf].
  destruct (Confirm.totalAmount body) as [ta |] eqn:Eta;
    [| inversion Hrun; left; now leaf].
  destruct ((sh =? "")%string
            || match ids with [] => true | _ :: _ => false end
            || (cn =? "")%string || (ce =? "")%string || (ta <=? 0)%Z)%bool eqn:Ev;
    [inversion Hrun; left; now leaf |].
  apply orb_false_iff in Ev as [_ Hta]. apply Z.leb_gt in Hta.
  destruct (current_user env) as [uid |] eqn:Eu; [| inversion Hrun; left; now leaf].
  destruct (uid =? "")%string; [inversion Hrun; left; now leaf |].
  unfold bind at 1 in Hrun. unfold select_show in Hrun.
  destruct (fault env GetShow); simpl in Hrun;
    [| inversion Hrun; left; repeat split; try discriminate; intros Hq; simpl; apply Hq ..].
  unfold single in Hrun.
  match type of Hrun with
  | context [filter ?p (shows ?s)] =>
      destruct (filter p (shows s)) as [| show [| ? ?]]
  end; simpl in Hrun;
    [inversion Hrun; left; repeat split; try discriminate; intros Hq; simpl; apply Hq
    | | inversion Hrun; left; repeat split; try discriminate; intros Hq; simpl; apply Hq].
  unfold bind at 1 in Hrun. unfold select_seats in Hrun.
  destruct (fault env GetSeats); simpl in Hrun.
  2,3: inversion Hrun; left; repeat split; try discriminate;
       intros Hq; simpl; rewrite !Hq; reflexivity.
  unfold serve in Hrun. simpl in Hrun.
  remember (concurrent env GetSeats (concurrent env GetShow st)) as s0 eqn:Es0.
  change (filter (matches (mkFilter ids None None)) (seats s0))
    with (confirm_rows s0 ids) in Hrun.
  assert (Hs0 : quiet env -> s0 = st) by (intros Hq; rewrite Es0, !Hq; reflexivity).
  clear Es0.
  destruct (len (confirm_rows s0 ids) =? len ids)%Z eqn:Ec; simpl in Hrun.
  2:{ inversion Hrun; left; repeat split; try discriminate. exact Hs0. }
  destruct (0 <? len (filter Confirm.is_unavailable (confirm_rows s0 ids)))%Z eqn:Eun;
    simpl in Hrun.
  { inversion Hrun; left; repeat split; try discriminate. exact Hs0. }
  right. exists body, sh, ids, cn, ce, ta, uid, show, (mkWorld s0 []).
  repeat split; auto; try (unfold answer; symmetry; exact Hrun).
  - rewrite len_eqb in Ec. now apply Nat.eqb_eq in Ec.
  - now apply len_pos_false in Eun.
Qed.



Lemma missing_key_short_answer (ids : list string) (t : list Seat) (i : string) :
  NoDup (map id t) -> In i ids -> ~ In i (map id t) ->
  (length (filter (matches (mkFilter ids None None)) t) < length ids)%nat.
Proof.
  intros Hk Hi Hnot.
  set (l := map id (filter (matches (mkFilter ids None None)) t)).
  assert (Hnd : NoDup (i :: l)).
  { constructor; [| now apply NoDup_map_filter].
    intros H. apply Hnot. unfold l in H. apply in_map_iff in H as (s & E & Hs).
    apply filter_In in Hs as [Hs _]. apply in_map_iff. eauto. }
  assert (Hincl : incl (i :: l) ids).
  { intros x [<- | Hx]; [assumption |].
    unfold l in Hx. apply in_map_iff in Hx as (s & <- & Hs).
    apply filter_In in Hs as [_ Hs]. now apply matches_id in Hs. }
  pose proof (NoDup_incl_length Hnd Hincl) as H. simpl in H.
  unfold l in H. rewrite length_map in H. lia.
Qed.

Lemma sold_or_blocked_unavailable (s : Seat) :
  sold_or_blocked s -> Confirm.is_unavailable s = true.
Proof. intros [H | H]; unfold Confirm.is_unavailable; now rewrite H. Qed.

Lemma filter_status_unavailable (want : string) (rows : list Seat) :
  want = "sold" \/ want = "blocked" ->
  filter (Confirm.has_status want) (filter Confirm.is_unavailable rows)
  = filter (Confirm.has_status want) rows.
Proof.
  intros Hw. induction rows as [| s rows IH]; simpl; [reflexivity |].
  destruct (Confirm.is_unavailable s) eqn:Eu; simpl; [now rewrite IH |].
  rewrite IH.
  assert (E : Confirm.has_status want s = false).
  { unfold Confirm.has_status, Confirm.is_unavailable in *.
    destruct (status s) as [x |]; [| reflexivity].
    destruct (x =? want)%string eqn:Ex; [| reflexivity].
    apply String.eqb_eq in Ex. subst x. destruct Hw; subst want; discriminate. }
  now rewrite E.
Qed.

Lemma unavailable_message_counts (rows : list Seat) :
  Confirm.unavailable_message (filter Confirm.is_unavailable rows)
  = rejection_message rows.
Proof.
  unfold Confirm.unavailable_message, rejection_message.
  rewrite !filter_status_unavailable by auto.
  destruct (0 <? len (filter (Confirm.has_status "blocked") rows))%Z; reflexivity.
Qed.

Lemma confirm_rejects_at_seat_check (env : Env) (st : Store)
      (body : Confirm.RequestBody) (ids : list string) :
  quiet env -> reaches_seat_check env st body ids ->
  filter Confirm.is_unavailable (confirm_rows st ids) <> [] ->
  Confirm.POST env (Some body) st
  = (json_status (BError (rejection_message (confirm_rows st ids))) 400, mkWorld st []).
Proof.
  intros Hq (Eids & Hv & Hu & Hshow & Hfs & Hfg & Hlen) Hne.
  unfold Confirm.POST, run_handler, answer, Confirm.handler, confirm_valid, show_found in *.
  rewrite Eids in *.
  destruct (Confirm.showId body) as [sh |]; [| discriminate].
  destruct (Confirm.customerName body) as [cn |]; [| now leaf].
  destruct (Confirm.customerEmail body) as [ce |]; [| now leaf].
  destruct (Confirm.totalAmount body) as [ta |]; [| now leaf].
  simpl in Hv. split_andb.
  destruct ids as [| i ids]; [discriminate |].
  repeat match goal with
         | H : negb _ = true |- _ => apply negb_true_iff in H; rewrite H
         end.
  assert (Eta : (ta <=? 0)%Z = false)
    by (apply Z.leb_gt; now apply Z.ltb_lt).
  rewrite Eta. simpl.
  destruct (current_user env) as [u |]; [| discriminate]. simpl in Hu.
  apply negb_true_iff in Hu. rewrite Hu.
  unfold bind, select_show, select_seats, serve, single. simpl.
  rewrite !Hq, Hfs. simpl in Hshow.
  destruct (filter (fun s => (show_key s =? sh)%string) (shows st)) as [| show [| ? ?]];
    try discriminate Hshow.
  simpl. rewrite !Hq, Hfg.
  simpl. fold (confirm_rows st (i :: ids)).
  rewrite len_eqb, Hlen, Nat.eqb_refl. simpl.
  apply len_pos_iff in Hne. rewrite Hne. unfold respond.
  now rewrite unavailable_message_counts.
Qed.

(** *** The total of a confirm request *)







(** *** Programs that do not look at the totals *)














(* ===================================================================== *)
(** ** Reservation Manager: properties                                    *)
(* ===================================================================== *)

(** C2.  A reserve request that gets to the status check with at least one
    requested seat sold, blocked or held by a running reservation is answered
    409 with [unavailableSeatIds] holding the id of every such seat of the
    request, and it reserves nothing: no write of the request sets a seat to
    reserved, and every row of the table afterwards is a row as it was or a
    row reset to available with [reserved_until] cleared. *)
Theorem reserve_conflict_reserves_nothing
        (env : Env) (st : Store) (body : Reserve.RequestBody)
        (ids : list string) (sh : string) :
  quiet env ->
  (0 <= now_at_check env)%Z ->
  reaches_status_check env st body ids sh ->
  (exists s, In s (requested_rows st ids sh) /\ held (now_at_check env) s) ->
  forall r w,
    Reserve.POST env (Some body) st = (r, w) ->
    let unavailable := unavailable_rows env (requested_rows st ids sh) in
    r = json_status
          (BUnavailable
             ("Følgende seter er ikke tilgjengelige: "
              ++ String.concat ", " (map Reserve.seat_label unavailable))
             (map id unavailable))
          409 /\
    (forall s, In s (requested_rows st ids sh) -> held (now_at_check env) s ->
               In (id s) (map id unavailable)) /\
    (forall e, In e (issued w) -> sets_reserved e = false) /\
    (forall s', In s' (seats (db w)) ->
                In s' (seats st) \/
                (status s' = Some "available" /\ reserved_until s' = None)).
Proof.
  intros Hq Hnow Hreach (s0 & Hs0 & Hheld0) r w Hrun unavailable.
  assert (Hin : forall s, In s (requested_rows st ids sh) ->
                          held (now_at_check env) s -> In s unavailable).
  { intros s Hs Hh. apply filter_In. split; [assumption |].
    now apply classify_held. }
  rewrite (reserve_reaches_decide env st body ids sh Hq Hreach) in Hrun.
  unfold run_handler, answer in Hrun. rewrite decide_unfold in Hrun.
  fold unavailable in Hrun.
  assert (Hne : (0 <? len unavailable)%Z = true).
  { apply len_pos_iff. intros E. specialize (Hin s0 Hs0 Hheld0).
    rewrite E in Hin. contradiction. }
  rewrite Hne in Hrun. unfold respond in Hrun.
  inversion Hrun; subst r w; clear Hrun.
  split; [reflexivity |]. split; [| split].
  - intros s Hs Hh. apply in_map. now apply Hin.
  - intros e He.
    destruct (cleaned_issued env (expired_ids env (requested_rows st ids sh))
                             (mkWorld st [])) as [E | [c E]];
      rewrite E in He; simpl in He; [contradiction |].
    destruct He as [<- | []]. reflexivity.
  - intros s' Hs'.
    destruct (cleaned_seats env (expired_ids env (requested_rows st ids sh))
                            (mkWorld st []) Hq) as [E | E];
      rewrite E in Hs'; simpl in Hs'; [now left |].
    apply write_seats_In in Hs' as [[Hs' _] | (s & _ & _ & ->)]; [now left |].
    right. split; reflexivity.
Qed.

(** C4.  A reserve request that gets to the status check with every
    requested seat eligible issues exactly one write that sets seats to
    reserved: the update restricted to [id in seatIds], [show_id = showId]
    and [status = "available"], writing [status = "reserved"] and
    [reserved_until = now + 10 minutes].  Every seat outside the request is a
    row of the table afterwards, as it was.  When the request succeeds, the
    answer carries that [reservedUntil] and the requested rows are the rows
    that were reserved. *)
Theorem reserve_conditional_update
        (env : Env) (st : Store) (body : Reserve.RequestBody)
        (ids : list string) (sh : string) :
  quiet env -> keyed st ->
  reaches_status_check env st body ids sh ->
  unavailable_rows env (requested_rows st ids sh) = [] ->
  forall r w,
    Reserve.POST env (Some body) st = (r, w) ->
    let reservedUntil := now_at_hold env + 10 * 60 * 1000 in
    (exists changed,
        filter sets_reserved (issued w)
        = [SeatsWrite ReserveUpdate (mkFilter ids (Some sh) (Some "available"))
                      (mkPatch "reserved" (Some reservedUntil)) changed]) /\
    (forall s, In s (seats st) ->
               matches (Reserve.check_filter ids sh) s = false ->
               In s (seats (db w))) /\
    (http_status r = 200 ->
     r = json (BReserved reservedUntil (map id (requested_rows st ids sh))) /\
     seats (db w)
     = write_seats (Reserve.check_filter ids sh)
                   (mkPatch "reserved" (Some reservedUntil)) (seats st)).
Proof.
  intros Hq Hk Hreach Hnone r w Hrun reservedUntil.
  pose proof Hreach as (_ & _ & _ & _ & _ & Hlen).
  rewrite (reserve_reaches_decide env st body ids sh Hq Hreach) in Hrun.
  unfold run_handler, answer in Hrun. rewrite decide_unfold in Hrun.
  rewrite Hnone in Hrun.
  change (0 <? len (@nil Seat))%Z with false in Hrun. cbv iota in Hrun.
  destruct (cleaned_table env st ids sh Hq Hk) as (Hids & Hkeep & Hcnt & Hcids & Hwr).
  set (w1 := cleaned env (expired_ids env (requested_rows st ids sh)) (mkWorld st [])) in *.
  assert (Hlog1 : filter sets_reserved (issued w1) = []).
  { destruct (cleaned_issued env (expired_ids env (requested_rows st ids sh))
                             (mkWorld st [])) as [E | [c E]];
      fold w1 in E; rewrite E; reflexivity. }
  assert (Hkeep2 : forall q s, In s (seats st) ->
                     matches (Reserve.check_filter ids sh) s = false ->
                     In s (write_seats (Reserve.reserve_filter ids sh) q (seats (db w1)))).
  { intros q s Hs Hc. apply write_seats_keeps; [now apply Hkeep |].
    destruct (matches (Reserve.reserve_filter ids sh) s) eqn:E; [| reflexivity].
    apply matches_reserve_check in E. congruence. }
  unfold bind at 1 in Hrun. unfold update_seats in Hrun.
  rewrite serve_quiet in Hrun by assumption.
  destruct (fault env ReserveUpdate) eqn:Ef; simpl in Hrun.
  - set (hit := filter (matches (Reserve.reserve_filter ids sh)) (seats (db w1))) in *.
    destruct (len (map (patch (Reserve.reserve_patch (now_at_hold env + Reserve.hold_window))) hit)
              =? len ids)%Z eqn:Ecount; simpl in Hrun.
    + (* every requested row was changed *)
      inversion Hrun; subst r w; clear Hrun. simpl.
      split; [rewrite filter_app, Hlog1; simpl; eauto |].
      split; [intros s Hs Hc; now apply Hkeep2 |].
      intros _.
      rewrite len_eqb, length_map in Ecount. apply Nat.eqb_eq in Ecount.
      assert (Hall : forall s, In s (seats (db w1)) ->
                       matches (Reserve.reserve_filter ids sh) s
                       = matches (Reserve.check_filter ids sh) s).
      { apply filter_length_eq_all.
        - intros x _. apply matches_reserve_check.
        - fold hit. lia. }
      split.
      * unfold json. f_equal. f_equal. rewrite map_map. simpl.
        rewrite <- Hcids. unfold hit.
        rewrite (filter_ext_in _ _ _ Hall). apply map_ext. reflexivity.
      * rewrite <- Hwr. unfold write_seats. apply map_ext_in.
        intros s Hs. now rewrite (Hall s Hs).
    + (* a partial update: rolled back *)
      unfold bind at 1 in Hrun. unfold Reserve.rollback in Hrun.
      rewrite map_map in Hrun. simpl in Hrun.
      assert (Hin : inside ids sh (Reserve.by_ids (map id hit))
                      (write_seats (Reserve.reserve_filter ids sh)
                         (Reserve.reserve_patch (now_at_hold env + Reserve.hold_window))
                         (seats (db w1)))).
      { apply by_ids_inside.
        - rewrite write_seats_ids, Hids. exact Hk.
        - intros i Hi. apply in_map_iff in Hi as (s1 & E & Hs1).
          apply filter_In in Hs1 as [Hs1 Hm].
          exists (patch (Reserve.reserve_patch (now_at_hold env + Reserve.hold_window)) s1).
          split; [| split; [exact E | rewrite matches_check_patch; now apply matches_reserve_check]].
          unfold write_seats. apply in_map_iff. exists s1. now rewrite Hm. }
      destruct (0 <? len (map (fun x => id x) hit))%Z eqn:Epos.
      * unfold bind at 1 in Hrun. unfold update_seats in Hrun.
        rewrite serve_quiet in Hrun by assumption.
        destruct (fault env Rollback) eqn:Er; simpl in Hrun;
          inversion Hrun; subst r w; clear Hrun; simpl;
          (split; [rewrite !filter_app, Hlog1; simpl; eauto |]);
          (split; [| discriminate]);
          intros s Hs Hc; try now apply Hkeep2.
        apply (write_inside_keeps ids sh); [apply Hin | now apply Hkeep2 | exact Hc].
      * simpl in Hrun. inversion Hrun; subst r w; clear Hrun; simpl.
        split; [rewrite filter_app, Hlog1; simpl; eauto |].
        split; [intros s Hs Hc; now apply Hkeep2 | discriminate].
  - inversion Hrun; subst r w; clear Hrun; simpl.
    split; [rewrite filter_app, Hlog1; simpl; eauto |].
    split; [intros s Hs Hc; now apply Hkeep | discriminate].
  - inversion Hrun; subst r w; clear Hrun; simpl.
    split; [rewrite filter_app, Hlog1; simpl; eauto |].
    split; [intros s Hs Hc; now apply Hkeep | discriminate].
Qed.

(** C6.  Whenever the conditional update of a reserve request changes a
    number of rows other than the number of requested seats, the request
    ends 409 with the count of seats lost (requested minus changed) and no
    seat ids; when rows were changed, the write that follows the update is
    the rollback of exactly the changed ids to [status = "available"] with
    [reserved_until] cleared, and when the store carries it out every row
    with one of these ids is available afterwards.  This holds whatever
    other requests write in between. *)
Theorem reserve_partial_update_rolled_back
        (env : Env) (request : option Reserve.RequestBody) (st : Store)
        (r : Response) (w : World)
        (f : SeatFilter) (p : SeatPatch) (changed : list string) :
  Reserve.POST env request st = (r, w) ->
  In (SeatsWrite ReserveUpdate f p (Some changed)) (issued w) ->
  length changed <> length (f_ids f) ->
  fault env Rollback <> Thrown ->
  (exists body, request = Some body /\ Reserve.seatIds body = Some (f_ids f)) /\
  r = json_status
        (BError (string_of_Z (len (f_ids f) - len changed)
                 ++ " av setene ble nettopp tatt av noen andre"))
        409 /\
  (changed = [] ->
   forall f' p' c', ~ In (SeatsWrite Rollback f' p' c') (issued w)) /\
  (changed <> [] ->
   exists pre ok,
     issued w = (pre ++ [SeatsWrite ReserveUpdate f p (Some changed);
                         SeatsWrite Rollback (mkFilter changed None None)
                                    (mkPatch "available" None) ok])%list /\
     (fault env Rollback = NoFault ->
      (exists t, seats (db w)
                 = write_seats (mkFilter changed None None)
                               (mkPatch "available" None) t) /\
      (forall s, In s (seats (db w)) -> In (id s) changed ->
                 status s = Some "available" /\ reserved_until s = None))).
Proof.
  intros Hrun Hin Hlen Hroll.
  unfold Reserve.POST, run_handler, answer, Reserve.handler in Hrun.
  destruct request as [body |]; [| no_effect Hrun Hin].
  destruct body as [sIds sh0]. simpl in Hrun.
  destruct sIds as [ids |], sh0 as [sh |]; try no_effect Hrun Hin.
  destruct ((match ids with [] => true | _ :: _ => false end || (sh =? "")%string)%bool);
    [no_effect Hrun Hin |].
  destruct (service_role_key env); simpl in Hrun; [| no_effect Hrun Hin].
  unfold bind at 1 in Hrun. unfold select_seats in Hrun.
  destruct (fault env CheckSeats); simpl in Hrun; try no_effect Hrun Hin.
  match type of Hrun with
  | context [negb (len ?l =? len ids)%Z] =>
      set (rows := l) in *; destruct (len rows =? len ids)%Z
  end; simpl in Hrun; [| no_effect Hrun Hin].
  rewrite decide_unfold in Hrun.
  match type of Hrun with
  | context [cleaned env ?l ?w] => set (w1 := cleaned env l w) in *
  end.
  assert (Hw1 : forall c, ~ In (SeatsWrite ReserveUpdate f p c) (issued w1)).
  { intros c H. apply cleaned_issued_In in H as [H | [c' H]];
      [simpl in H; contradiction | discriminate]. }
  destruct (0 <? len (unavailable_rows env rows))%Z;
    [inversion Hrun; subst; now apply Hw1 in Hin |].
  unfold bind at 1 in Hrun. unfold update_seats in Hrun.
  set (w2 := serve env ReserveUpdate w1) in *.
  assert (Hw2 : issued w2 = issued w1) by reflexivity.
  destruct (fault env ReserveUpdate); simpl in Hrun.
  2,3: inversion Hrun; subst; simpl in Hin; try rewrite Hw2 in Hin;
       apply in_app_or in Hin as [Hin | [Hin | []]];
       [now apply Hw1 in Hin | discriminate].
  set (hit := filter (matches (Reserve.reserve_filter ids sh))
                    (seats (concurrent env ReserveUpdate (db w1)))) in *.
  set (rp := Reserve.reserve_patch (now_at_hold env + Reserve.hold_window)) in *.
  assert (Eids : map id (map (patch rp) hit) = map id hit)
    by (rewrite map_map; apply map_ext; reflexivity).
  assert (Elen : len (map (patch rp) hit) = len (map id hit))
    by (unfold len; now rewrite !length_map).
  rewrite Eids, Elen in Hrun.
  assert (Hid : forall l,
             In (SeatsWrite ReserveUpdate f p (Some changed))
                (issued w1 ++ SeatsWrite ReserveUpdate (Reserve.reserve_filter ids sh) rp
                                         (Some (map id hit)) :: l)%list ->
             (forall f' p' c', In (SeatsWrite ReserveUpdate f' p' c') l -> False) ->
             f = Reserve.reserve_filter ids sh /\ p = rp /\ changed = map id hit).
  { intros l H Hl. apply in_app_or in H as [H | [H | H]].
    - now apply Hw1 in H.
    - inversion H. auto.
    - now apply Hl in H. }
  destruct (len (map id hit) =? len ids)%Z eqn:Ec; simpl in Hrun.
  - (* all rows changed: not a partial update *)
    inversion Hrun; subst r w; clear Hrun. simpl in Hin.
    destruct (Hid [] Hin) as (-> & -> & ->); [intros ? ? ? [] |].
    exfalso. apply Hlen. simpl.
    rewrite len_eqb in Ec. now apply Nat.eqb_eq in Ec.
  - unfold bind at 1 in Hrun. unfold Reserve.rollback in Hrun.
    destruct (0 <? len (map id hit))%Z eqn:Epos.
    + unfold bind at 1 in Hrun. unfold update_seats in Hrun.
      destruct (fault env Rollback) eqn:Er; [| | congruence]; simpl in Hrun;
        inversion Hrun; subst r w; clear Hrun; simpl in Hin;
        rewrite <- app_assoc in Hin; simpl in Hin;
        (destruct (Hid _ Hin) as (-> & -> & ->);
         [intros ? ? ? [H | []]; discriminate H |]);
        (split; [eexists; split; [reflexivity | reflexivity] |]);
        (split; [reflexivity |]);
        (split; [intros E; apply len_pos_iff in Epos; contradiction |]);
        intros _; simpl; exists (issued w1); eexists;
        (split; [rewrite <- app_assoc; reflexivity |]);
        intros Hf; try discriminate Hf.
      split; [eexists; reflexivity |].
      intros s Hs Hi. eapply write_by_ids_available; eassumption.
    + simpl in Hrun. inversion Hrun; subst r w; clear Hrun. simpl in Hin.
      destruct (Hid [] Hin) as (-> & -> & ->); [intros ? ? ? [] |].
      split; [eexists; split; reflexivity |].
      split; [reflexivity |].
      apply len_pos_false in Epos.
      split; [| intros Hne; contradiction].
      intros _ f' p' c' H. simpl in H.
      apply in_app_or in H as [H | [H | []]]; [| discriminate].
      apply cleaned_issued_In in H as [H | [c H]]; [contradiction | discriminate].
Qed.

(** A request with a seat of no status, up to the answer of the partial
    update. *)
Lemma blank_status_run
        (env : Env) (st : Store) (body : Reserve.RequestBody)
        (ids : list string) (sh : string) (s : Seat) :
  quiet env -> keyed st ->
  reaches_status_check env st body ids sh ->
  In s (requested_rows st ids sh) ->
  status s = None \/ status s = Some "" ->
  fault env ReserveUpdate = NoFault ->
  fault env Rollback <> Thrown ->
  forall r w,
    Reserve.POST env (Some body) st = (r, w) ->
    Reserve.classify (now_at_check env) s = Reserve.Eligible /\
    matches (Reserve.reserve_filter ids sh) s = false /\
    http_status r = 409 /\
    In s (seats (db w)) /\
    (unavailable_rows env (requested_rows st ids sh) = [] ->
     exists changed,
       In (SeatsWrite ReserveUpdate (Reserve.reserve_filter ids sh)
                      (Reserve.reserve_patch (now_at_hold env + Reserve.hold_window))
                      (Some changed))
          (issued w) /\
       ~ In (id s) changed /\
       (length changed < length ids)%nat /\
       r = json_status (BError (Reserve.taken_message (len ids - len changed))) 409 /\
       (changed <> [] ->
        exists ok, In (SeatsWrite Rollback (Reserve.by_ids changed)
                                  Reserve.available_patch ok)
                      (issued w))).
Proof.
  intros Hq Hk Hreach Hs Hblank Hfu Hfr r w Hrun.
  pose proof (classify_blank (now_at_check env) s Hblank) as Hcl.
  pose proof (blank_not_matched ids sh s Hblank) as Hnm.
  split; [exact Hcl |]. split; [exact Hnm |].
  pose proof Hreach as (_ & _ & _ & _ & _ & Hlen).
  assert (Hnexp : Reserve.is_expired (now_at_check env) s = false)
    by (unfold Reserve.is_expired; now rewrite Hcl).
  pose proof (not_expired_kept env st ids sh s Hq Hk Hs Hnexp) as Hs1.
  destruct (cleaned_table env st ids sh Hq Hk) as (Hids & _ & Hcnt & _ & _).
  rewrite (reserve_reaches_decide env st body ids sh Hq Hreach) in Hrun.
  unfold run_handler, answer in Hrun. rewrite decide_unfold in Hrun.
  set (w1 := cleaned env (expired_ids env (requested_rows st ids sh)) (mkWorld st [])) in *.
  destruct (0 <? len (unavailable_rows env (requested_rows st ids sh)))%Z eqn:Eun.
  - inversion Hrun; subst r w; clear Hrun.
    split; [reflexivity |]. split; [exact Hs1 |].
    intros E. rewrite E in Eun. discriminate.
  - unfold bind at 1 in Hrun. unfold update_seats in Hrun.
    rewrite serve_quiet in Hrun by assumption. rewrite Hfu in Hrun. simpl in Hrun.
    set (hit := filter (matches (Reserve.reserve_filter ids sh)) (seats (db w1))) in *.
    set (rp := Reserve.reserve_patch (now_at_hold env + Reserve.hold_window)) in *.
    assert (Eids : map id (map (patch rp) hit) = map id hit)
      by (rewrite map_map; apply map_ext; reflexivity).
    assert (Elen : len (map (patch rp) hit) = len (map id hit))
      by (unfold len; now rewrite !length_map).
    rewrite Eids, Elen in Hrun.
    assert (Hshort : (length (map id hit) < length ids)%nat).
    { rewrite length_map, <- Hlen, <- Hcnt. unfold hit.
      apply filter_length_lt with (a := s); auto.
      - intros x _. apply matches_reserve_check.
      - apply filter_In in Hs as [_ Hs]. exact Hs. }
    assert (Hnotin : ~ In (id s) (map id hit)).
    { intros H. apply in_map_iff in H as (s1 & E & Hs1').
      apply filter_In in Hs1' as [Hin1 Hm1].
      assert (Hk1 : NoDup (map id (seats (db w1)))) by (rewrite Hids; exact Hk).
      rewrite (keyed_same_row _ s1 s Hk1 Hin1 Hs1 E) in Hm1. congruence. }
    assert (Hs2 : In s (write_seats (Reserve.reserve_filter ids sh) rp (seats (db w1))))
      by (now apply write_seats_keeps).
    assert (Hnb : matches (Reserve.by_ids (map id hit)) s = false).
    { destruct (matches (Reserve.by_ids (map id hit)) s) eqn:Em; [| reflexivity].
      apply matches_id in Em. contradiction. }
    assert (Ec : (len (map id hit) =? len ids)%Z = false)
      by (rewrite len_eqb; apply Nat.eqb_neq; lia).
    rewrite Ec in Hrun. simpl in Hrun.
    unfold bind at 1 in Hrun. unfold Reserve.rollback in Hrun.
    destruct (0 <? len (map id hit))%Z eqn:Epos.
    + unfold bind at 1 in Hrun. unfold update_seats in Hrun.
      rewrite serve_quiet in Hrun by assumption.
      destruct (fault env Rollback) eqn:Er; [| | congruence]; simpl in Hrun;
        inversion Hrun; subst r w; clear Hrun; simpl;
        (split; [reflexivity |]);
        (split; [first [now apply write_seats_keeps | exact Hs2] |]);
        intros _; exists (map id hit);
        (split; [apply in_or_app; left; apply in_or_app; right; now left |]);
        (split; [exact Hnotin |]); (split; [exact Hshort |]);
        (split; [reflexivity |]);
        intros _; eexists; apply in_or_app; right; now left.
    + simpl in Hrun. inversion Hrun; subst r w; clear Hrun; simpl.
      split; [reflexivity |]. split; [exact Hs2 |].
      intros _. exists (map id hit).
      split; [apply in_or_app; right; now left |].
      split; [exact Hnotin |]. split; [exact Hshort |].
      split; [reflexivity |].
      intros Hne. apply len_pos_false in Epos. contradiction.
Qed.

(* ===================================================================== *)
(** ** Booking Finalizer: properties                                      *)
(* ===================================================================== *)

(** C9, as the code has it.  A requested seat whose stored status is null
    or empty passes the status check as available, but the conditional
    update, which asks for [status = "available"], does not match it.  Such a
    request (that gets to the status check, with the store carrying out the
    update and not rejecting the rollback) ends 409 and leaves the seat as it
    was.  Which 409 it is hangs on the other seats of the request.  When one
    of them is unavailable, it is the 409 of the status check, with the list
    of the unavailable seats: the handler sends no update and no rollback,
    its only write being the cleanup of the holds that ran out.  When none
    is, it is the 409 of the partial update: fewer rows changed than
    requested, the seat not among them, after the rollback of the rows that
    were changed. *)
Theorem reserve_blank_status_never_reserved
        (env : Env) (st : Store) (body : Reserve.RequestBody)
        (ids : list string) (sh : string) (s : Seat) :
  quiet env -> keyed st ->
  reaches_status_check env st body ids sh ->
  In s (requested_rows st ids sh) ->
  status s = None \/ status s = Some "" ->
  fault env ReserveUpdate = NoFault ->
  fault env Rollback <> Thrown ->
  forall r w,
    Reserve.POST env (Some body) st = (r, w) ->
    Reserve.classify (now_at_check env) s = Reserve.Eligible /\
    matches (Reserve.reserve_filter ids sh) s = false /\
    http_status r = 409 /\
    In s (seats (db w)) /\
    (unavailable_rows env (requested_rows st ids sh) = [] ->
     exists changed,
       In (SeatsWrite ReserveUpdate (Reserve.reserve_filter ids sh)
                      (Reserve.reserve_patch (now_at_hold env + Reserve.hold_window))
                      (Some changed))
          (issued w) /\
       ~ In (id s) changed /\
       (length changed < length ids)%nat /\
       r = json_status (BError (Reserve.taken_message (len ids - len changed))) 409 /\
       (changed <> [] ->
        exists ok, In (SeatsWrite Rollback (Reserve.by_ids changed)
                                  Reserve.available_patch ok)
                      (issued w))) /\
    (unavailable_rows env (requested_rows st ids sh) <> [] ->
     r = json_status
           (BUnavailable
              ("Følgende seter er ikke tilgjengelige: "
               ++ String.concat ", "
                    (map Reserve.seat_label
                         (unavailable_rows env (requested_rows st ids sh))))
              (map id (unavailable_rows env (requested_rows st ids sh))))
           409 /\
     forall e, In e (issued w) ->
       exists ok, e = SeatsWrite Cleanup
                        (Reserve.by_ids (expired_ids env (requested_rows st ids sh)))
                        Reserve.available_patch ok).
Proof.
  intros Hq Hk Hreach Hs Hblank Hfu Hfr r w Hrun.
  destruct (blank_status_run env st body ids sh s Hq Hk Hreach Hs Hblank Hfu Hfr r w Hrun)
    as (H1 & H2 & H3 & H4 & H5).
  repeat (split; [assumption |]).
  intros Hne.
  rewrite (reserve_reaches_decide env st body ids sh Hq Hreach) in Hrun.
  unfold run_handler, answer in Hrun. rewrite decide_unfold in Hrun.
  apply len_pos_iff in Hne. rewrite Hne in Hrun.
  inversion Hrun; subst r w; clear Hrun.
  split; [reflexivity |].
  intros e He. apply cleaned_issued_In in He as [[] | He]. exact He.
Qed.

(** C3.  Booking confirmation is all-or-nothing with respect to invalid
    seats.  A confirm request with a requested seat that is sold or blocked,
    or with a requested id that is no row of the table, is rejected and
    writes nothing: the store is as it was, no seat changed, no booking
    created; when it gets to the status check of the seats the answer is 400
    with the count of blocked seats when there are any, and else the count of
    sold seats.  More generally, a run that does not insert the booking
    answers with an error, writes at most the use counter of a discount code,
    and leaves the seats and the bookings as they were. *)
Theorem confirm_all_or_nothing
        (env : Env) (request : option Confirm.RequestBody) (st : Store)
        (r : Response) (w : World) :
  Confirm.POST env request st = (r, w) ->
  (* a request with a sold, blocked or missing seat *)
  (quiet env -> keyed st ->
   forall body ids,
     request = Some body -> Confirm.seatIds body = Some ids ->
     (exists s, In s (seats st) /\ In (id s) ids /\ sold_or_blocked s) \/
     (exists i, In i ids /\ ~ In i (map id (seats st))) ->
     http_status r <> 200 /\ w = mkWorld st [] /\
     (reaches_seat_check env st body ids ->
      r = json_status (BError (rejection_message (confirm_rows st ids))) 400 /\
      (0 < len (filter (Confirm.has_status "sold") (confirm_rows st ids))
           + len (filter (Confirm.has_status "blocked") (confirm_rows st ids)))%Z))
  /\
  (* any run that does not insert the booking *)
  ((forall b, ~ In (BookingInsert b true) (issued w)) ->
   http_status r <> 200 /\
   (forall e, In e (issued w) -> is_code_write e \/ exists b, e = BookingInsert b false) /\
   (quiet env -> seats (db w) = seats st /\ bookings (db w) = bookings st)).
Proof.
  intros Hrun. split.
  - intros Hq Hk body ids -> Eids Hbad.
    assert (Hrows : forall s, In s (seats st) -> In (id s) ids -> sold_or_blocked s ->
                      In s (filter Confirm.is_unavailable (confirm_rows st ids))).
    { intros s Hs Hi Hsb. apply filter_In. split; [| now apply sold_or_blocked_unavailable].
      apply filter_In. split; [assumption |].
      unfold matches. simpl. apply mem_In in Hi. now rewrite Hi. }
    assert (Hno : ~ (length (confirm_rows st ids) = length ids /\
                     filter Confirm.is_unavailable (confirm_rows st ids) = [])).
    { intros [Hlen Hnone]. destruct Hbad as [(s & Hs & Hi & Hsb) | (i & Hi & Hnot)].
      - specialize (Hrows s Hs Hi Hsb). rewrite Hnone in Hrows. contradiction.
      - pose proof (missing_key_short_answer ids (seats st) i Hk Hi Hnot) as H.
        unfold confirm_rows in Hlen. lia. }
    pose proof Hrun as Hrun'.
    apply confirm_structure in Hrun'
      as [(E & Hr & Hdb) | (body' & sh & ids' & cn & ce & ta & uid & show & w0 & Eb & _ & Eids'
                            & _ & _ & _ & _ & _ & _ & Hdb & Hlen & Hnone & _)].
    + split; [assumption |]. split.
      * specialize (Hdb Hq). destruct w as [d i]. simpl in *. now subst.
      * intros Hreach.
        assert (Hne : filter Confirm.is_unavailable (confirm_rows st ids) <> []).
        { intros Hnone. apply Hno. split; [apply Hreach | assumption]. }
        rewrite (confirm_rejects_at_seat_check env st body ids Hq Hreach Hne) in Hrun.
        inversion Hrun. split; [reflexivity |].
        destruct Hbad as [(s & Hs & Hi & [Hsold | Hblocked]) | (i & Hi & Hnot)].
        -- assert (Hin : In s (filter (Confirm.has_status "sold") (confirm_rows st ids))).
           { apply filter_In. split.
             - apply filter_In. split; [assumption |].
               unfold matches. simpl. apply mem_In in Hi. now rewrite Hi.
             - unfold Confirm.has_status. now rewrite Hsold. }
           pose proof (len_nonneg (filter (Confirm.has_status "blocked")
                                          (confirm_rows st ids))).
           destruct (filter (Confirm.has_status "sold") (confirm_rows st ids));
             [contradiction | unfold len in *; cbn [length]; lia].
        -- assert (Hin : In s (filter (Confirm.has_status "blocked") (confirm_rows st ids))).
           { apply filter_In. split.
             - apply filter_In. split; [assumption |].
               unfold matches. simpl. apply mem_In in Hi. now rewrite Hi.
             - unfold Confirm.has_status. now rewrite Hblocked. }
           pose proof (len_nonneg (filter (Confirm.has_status "sold")
                                          (confirm_rows st ids))).
           destruct (filter (Confirm.has_status "blocked") (confirm_rows st ids));
             [contradiction | unfold len in *; cbn [length]; lia].
        -- exfalso. destruct Hreach as (_ & _ & _ & _ & _ & _ & Hlen).
           pose proof (missing_key_short_answer ids (seats st) i Hk Hi Hnot) as H.
           unfold confirm_rows in Hlen. lia.
    + exfalso. injection Eb as <-. rewrite Eids in Eids'. injection Eids' as <-.
      rewrite (Hdb Hq) in *. apply Hno. auto.
  - intros Hnoins.
    apply confirm_structure in Hrun
      as [(E & Hr & Hdb) | (body & sh & ids & cn & ce & ta & uid & show & w0 & _ & _ & _
                            & _ & _ & _ & _ & _ & Ew0 & Hdb & _ & _ & Hrun)].
    + split; [assumption |]. split; [intros e He; rewrite E in He; contradiction |].
      intros Hq. now rewrite (Hdb Hq).
    + destruct (book_run env body uid sh ids cn ce ta show (confirm_rows (db w0) ids) w0)
        as (res & w1 & b & codes & Ebook & Hcodes & Hb & Hcases).
      rewrite Ebook in Hrun. rewrite Ew0 in Hcases. simpl in Hcases.
      assert (Ew : w = w1) by (destruct res; inversion Hrun; reflexivity).
      subst w1.
      destruct Hcases as [(Hlog & Hres & Hst) | [(l & E & _) | (l & a & ok & E & _)]].
      * split; [| split].
        -- destruct Hres as [-> | [msg ->]]; inversion Hrun; discriminate.
        -- intros e He. rewrite Forall_forall in Hcodes.
           destruct Hlog as [E | E]; rewrite E in He.
           ++ left. now apply Hcodes.
           ++ apply in_app_or in He as [He | [<- | []]]; [left; now apply Hcodes | eauto].
        -- intros Hq. destruct (Hst Hq) as [-> ->]. now rewrite (Hdb Hq).
      * exfalso. apply (Hnoins b). rewrite E. apply in_or_app. right. now left.
      * exfalso. apply (Hnoins b). rewrite E. apply in_or_app. right. now left.
Qed.



(* ===================================================================== *)
(** ** Both handlers: repeated seat ids                                   *)
(* ===================================================================== *)

(** C10.  A reserve or confirm request whose [seatIds] repeats an id is
    rejected and writes nothing: the store answers one row per key, so fewer
    rows come back than the list is long.  When the request gets as far as
    the count check, the answer is 400 "Noen av setene finnes ikke". *)
Theorem duplicate_seat_ids_rejected (env : Env) (st : Store) (ids : list string) :
  quiet env -> keyed st -> ~ NoDup ids ->
  (forall body,
      Reserve.seatIds body = Some ids ->
      http_status (fst (Reserve.POST env (Some body) st)) <> 200 /\
      snd (Reserve.POST env (Some body) st) = mkWorld st [] /\
      (reserve_valid body = true -> service_role_key env = true ->
       fault env CheckSeats = NoFault ->
       fst (Reserve.POST env (Some body) st) = Reserve.seats_not_found)) /\
  (forall body,
      Confirm.seatIds body = Some ids ->
      http_status (fst (Confirm.POST env (Some body) st)) <> 200 /\
      snd (Confirm.POST env (Some body) st) = mkWorld st [] /\
      (confirm_valid body = true -> truthy (current_user env) = true ->
       show_found st (Confirm.showId body) = true ->
       fault env GetShow = NoFault -> fault env GetSeats = NoFault ->
       fst (Confirm.POST env (Some body) st) = Confirm.seats_not_found)).
Proof.
  intros Hq Hk Hd. split.
  - intros [sIds sh] E. simpl in E. subst sIds.
    unfold Reserve.POST, run_handler, answer, Reserve.handler, reserve_valid. simpl.
    destruct sh as [sh |]; [| now leaf].
    destruct ids as [| i ids]; [exfalso; apply Hd; constructor |].
    simpl. destruct (sh =? "")%string eqn:Esh; simpl; [now leaf |].
    destruct (service_role_key env) eqn:Ekey; simpl; [| now leaf].
    unfold bind, select_seats. rewrite serve_quiet by assumption.
    destruct (fault env CheckSeats) eqn:Ef; simpl; [| now leaf ..].
    pose proof (dup_count_mismatch (Reserve.check_filter (i :: ids) sh) st Hk Hd) as Hc.
    simpl in Hc. rewrite Hc. simpl. now leaf.
  - intros body E.
    unfold Confirm.POST, run_handler, answer, Confirm.handler, confirm_valid, show_found.
    rewrite E.
    destruct (Confirm.showId body) as [sh |]. 2:{ now leaf. }
    destruct (Confirm.customerName body) as [cn |]. 2:{ now leaf. }
    destruct (Confirm.customerEmail body) as [ce |]; [| now leaf].
    destruct (Confirm.totalAmount body) as [ta |]; [| now leaf].
    destruct ids as [| i ids]; [exfalso; apply Hd; constructor |].
    simpl.
    destruct (sh =? "")%string eqn:Esh; simpl; [now leaf |].
    destruct (cn =? "")%string eqn:Ecn; simpl; [now leaf |].
    destruct (ce =? "")%string eqn:Ece; simpl; [now leaf |].
    destruct (ta <=? 0) eqn:Eta; simpl.
    { leaf. split_andb. apply Z.leb_le in Eta. lia. }
    destruct (current_user env) as [u |] eqn:Eu; simpl; [| now leaf].
    destruct (u =? "")%string eqn:Eue; simpl; [now leaf |].
    unfold bind, select_show. rewrite serve_quiet by assumption.
    destruct (fault env GetShow) eqn:Efs; simpl; [| now leaf ..].
    unfold single.
    destruct (filter (fun s => (show_key s =? sh)%string) (shows st)) as [| show [| ? ?]];
      simpl; [now leaf | | now leaf].
    unfold select_seats. rewrite serve_quiet by assumption.
    destruct (fault env GetSeats) eqn:Efg; simpl; [| now leaf ..].
    pose proof (dup_count_mismatch (mkFilter (i :: ids) None None) st Hk Hd) as Hc.
    simpl in Hc. rewrite Hc. simpl. now leaf.
Qed.

(* ===================================================================== *)
(** ** Concrete runs                                                      *)
(* ===================================================================== *)

Lemma calm_is_quiet : quiet Example.calm.
Proof. intros site st. reflexivity. Defined.

Lemma hall_is_keyed : keyed Example.hall.
Proof.
  unfold keyed. simpl.
  repeat (constructor; [simpl; intuition discriminate |]). constructor.
Defined.



Lemma reserve_conflict_reserves_nothing_witness :
  fst (Reserve.POST Example.calm (Some (Example.reserve_request ["a1"; "a4"; "a5"]))
                    Example.hall)
  = json_status
      (BUnavailable "Følgende seter er ikke tilgjengelige: Rad A, Sete 4, Rad A, Sete 5"
                    ["a4"; "a5"])
      409.
Proof.
  refine (proj1
            (reserve_conflict_reserves_nothing Example.calm Example.hall
               (Example.reserve_request ["a1"; "a4"; "a5"]) ["a1"; "a4"; "a5"] "show-1"
               calm_is_quiet _ _ _ _ _ (surjective_pairing _))).
  - simpl. lia.
  - repeat split; reflexivity.
  - exists Example.a4. split; [simpl; tauto | left; reflexivity].
Defined.

Lemma reserve_conditional_update_witness :
  fst (Reserve.POST Example.calm (Some (Example.reserve_request ["a1"; "a2"; "a6"]))
                    Example.hall)
  = json (BReserved 601000 ["a1"; "a2"; "a6"]).
Proof.
  refine (proj1 (proj2 (proj2
            (reserve_conditional_update Example.calm Example.hall
               (Example.reserve_request ["a1"; "a2"; "a6"]) ["a1"; "a2"; "a6"] "show-1"
               calm_is_quiet hall_is_keyed _ _ _ _ (surjective_pairing _))) _)).
  - repeat split; reflexivity.
  - reflexivity.
  - reflexivity.
Defined.

Lemma reserve_partial_update_rolled_back_witness :
  fst (Reserve.POST Example.raced (Some (Example.reserve_request ["a1"; "a6"]))
                    Example.hall)
  = json_status (BError "1 av setene ble nettopp tatt av noen andre") 409.
Proof.
  refine (proj1 (proj2
            (reserve_partial_update_rolled_back Example.raced
               (Some (Example.reserve_request ["a1"; "a6"])) Example.hall _ _
               (Reserve.reserve_filter ["a1"; "a6"] "show-1")
               (Reserve.reserve_patch 601000) ["a1"]
               (surjective_pairing _) _ _ _))).
  - vm_compute. left. reflexivity.
  - simpl. lia.
  - simpl. discriminate.
Defined.

(** C9, as stated, fails: with a seat of no status and a sold seat in one
    request, the 409 is the one of the status check, and neither the update
    nor a rollback is sent. *)
Lemma reserve_blank_status_not_partial_update :
  Reserve.POST Example.calm (Some (Example.reserve_request ["a3"; "a4"])) Example.hall
  = (json_status
       (BUnavailable "Følgende seter er ikke tilgjengelige: Rad A, Sete 4" ["a4"]) 409,
     mkWorld Example.hall []) /\
  ~ blank_status_ends_in_partial_update.
Proof.
  split; [reflexivity |].
  intros H.
  destruct (H Example.calm Example.hall (Example.reserve_request ["a3"; "a4"])
              ["a3"; "a4"] "show-1" Example.a3
              (fst (Reserve.POST Example.calm
                      (Some (Example.reserve_request ["a3"; "a4"])) Example.hall))
              (snd (Reserve.POST Example.calm
                      (Some (Example.reserve_request ["a3"; "a4"])) Example.hall))
              calm_is_quiet hall_is_keyed)
    as (changed & Hin & _).
  - repeat split; reflexivity.
  - simpl. tauto.
  - left. reflexivity.
  - reflexivity.
  - simpl. discriminate.
  - apply surjective_pairing.
  - vm_compute in Hin. exact Hin.
Qed.

Lemma reserve_blank_status_never_reserved_witness :
  http_status
    (fst (Reserve.POST Example.calm (Some (Example.reserve_request ["a1"; "a3"]))
                       Example.hall))
  = 409 /\
  In Example.a3
     (seats (db (snd (Reserve.POST Example.calm
                        (Some (Example.reserve_request ["a1"; "a3"])) Example.hall)))).
Proof.
  refine (let H := reserve_blank_status_never_reserved Example.calm Example.hall
                      (Example.reserve_request ["a1"; "a3"]) ["a1"; "a3"] "show-1"
                      Example.a3 calm_is_quiet hall_is_keyed _ _ _ _ _ _ _
                      (surjective_pairing _) in
          conj (proj1 (proj2 (proj2 H))) (proj1 (proj2 (proj2 (proj2 H))))).
  - repeat split; reflexivity.
  - simpl. tauto.
  - left. reflexivity.
  - reflexivity.
  - simpl. discriminate.
Defined.

Lemma confirm_all_or_nothing_witness :
  fst (Confirm.POST Example.calm
         (Some (Example.confirm_request "show-1" ["a1"; "a4"] 600)) Example.hall)
  = json_status (BError "1 av setene er allerede solgt") 400 /\
  snd (Confirm.POST Example.calm
         (Some (Example.confirm_request "show-1" ["a1"; "a4"] 600)) Example.hall)
  = mkWorld Example.hall [].
Proof.
  destruct (proj1
              (confirm_all_or_nothing Example.calm
                 (Some (Example.confirm_request "show-1" ["a1"; "a4"] 600)) Example.hall
                 _ _ (surjective_pairing _))
              calm_is_quiet hall_is_keyed
              (Example.confirm_request "show-1" ["a1"; "a4"] 600) ["a1"; "a4"]
              eq_refl eq_refl
              (or_introl (ex_intro _ Example.a4
                  (conj (or_intror (or_intror (or_intror (or_introl eq_refl))))
                        (conj (or_intror (or_introl eq_refl)) (or_introl eq_refl))))))
    as (_ & Hworld & Hmsg).
  split; [| exact Hworld].
  apply Hmsg. repeat split; reflexivity.
Defined.


Lemma duplicate_seat_ids_rejected_witness :
  fst (Reserve.POST Example.calm (Some (Example.reserve_request ["a1"; "a1"])) Example.hall)
  = Reserve.seats_not_found /\
  fst (Confirm.POST Example.calm
         (Some (Example.confirm_request "show-1" ["a1"; "a1"] 600)) Example.hall)
  = Confirm.seats_not_found.
Proof.
  assert (Hdup : ~ NoDup ["a1"; "a1"]).
  { intros H. inversion H as [| ? ? Hnotin _]. apply Hnotin. left. reflexivity. }
  destruct (duplicate_seat_ids_rejected Example.calm Example.hall ["a1"; "a1"]
              calm_is_quiet hall_is_keyed Hdup) as [Hres Hconf].
  split.
  - apply (Hres (Example.reserve_request ["a1"; "a1"]) eq_refl); reflexivity.
  - apply (Hconf (Example.confirm_request "show-1" ["a1"; "a1"] 600) eq_refl);
      reflexivity.
Defined.

(** C5.  The cleanup of an expired hold is caught when it fails, but the
    request then fails all the same: the seat keeps its status "reserved" in
    the store, the conditional update asks for "available" and changes no
    row, and the answer is the 409 of a lost race.  With the cleanup carried
    out, the same request on the same store reserves the seat. *)
Theorem cleanup_failure_fails_the_request :
  Reserve.classify (now_at_check Example.cleanup_fails) Example.a2 = Reserve.Expired /\
  fst (Reserve.POST Example.cleanup_fails (Some (Example.reserve_request ["a2"]))
                    Example.hall)
  = json_status (BError "1 av setene ble nettopp tatt av noen andre") 409 /\
  issued (snd (Reserve.POST Example.cleanup_fails
                 (Some (Example.reserve_request ["a2"])) Example.hall))
  = [SeatsWrite Cleanup (Reserve.by_ids ["a2"]) Reserve.available_patch None;
     SeatsWrite ReserveUpdate (Reserve.reserve_filter ["a2"] "show-1")
                (Reserve.reserve_patch 601000) (Some [])] /\
  fst (Reserve.POST Example.calm (Some (Example.reserve_request ["a2"])) Example.hall)
  = json (BReserved 601000 ["a2"]).
Proof. repeat split; reflexivity. Qed.

(** C7.  The confirm handler reads the requested seats by id alone, without
    the show of the request: a seat of show-2 is booked, and sold, under a
    booking of show-1. *)
Theorem confirm_books_seat_of_another_show :
  show_id Example.b1 = "show-2" /\
  fst (Confirm.POST Example.calm
         (Some (Example.confirm_request "show-1" ["b1"] 450)) Example.hall)
  = json (BBooked "booking-1" "TM-260110-AB12" true None) /\
  (exists b,
      In b (bookings (db (snd (Confirm.POST Example.calm
                                 (Some (Example.confirm_request "show-1" ["b1"] 450))
                                 Example.hall)))) /\
      booking_show_id b = "show-1" /\ seat_ids b = ["b1"] /\
      booking_status b = "confirmed") /\
  In (mkSeat "b1" "show-2" "Balkong" "B" 1 450 (Some "sold") None)
     (seats (db (snd (Confirm.POST Example.calm
                        (Some (Example.confirm_request "show-1" ["b1"] 450))
                        Example.hall)))).
Proof.
  split; [reflexivity |]. split; [reflexivity |]. split.
  - eexists. split; [vm_compute; left; reflexivity |]. repeat split; reflexivity.
  - vm_compute. do 6 right. left. reflexivity.
Qed.

(* ===================================================================== *)
(** ** Further properties of the handlers                                 *)
(* ===================================================================== *)

(** *** More on the seats table *)

Lemma write_seats_identity (f : SeatFilter) (p : SeatPatch) (t : list Seat) :
  map seat_identity (write_seats f p t) = map seat_identity t.
Proof.
  unfold write_seats. rewrite map_map. apply map_ext.
  intros s. now destruct (matches f s).
Qed.

(** An answer as long as the list of keys has a row for each key. *)
Lemma full_answer_covers (f : SeatFilter) (t : list Seat) :
  NoDup (map id t) ->
  length (filter (matches f) t) = length (f_ids f) ->
  forall i, In i (f_ids f) ->
            exists s, In s t /\ id s = i /\ matches f s = true.
Proof.
  intros Hk Hlen i Hi.
  assert (Hincl : incl (map id (filter (matches f) t)) (f_ids f)).
  { intros x Hx. apply in_map_iff in Hx as (s & <- & Hs).
    apply filter_In in Hs as [_ Hs]. now apply matches_id. }
  assert (Hnd : NoDup (map id (filter (matches f) t))) by now apply NoDup_map_filter.
  assert (Hrev : incl (f_ids f) (map id (filter (matches f) t))).
  { apply NoDup_length_incl; [assumption | rewrite length_map; lia | assumption]. }
  apply Hrev in Hi. apply in_map_iff in Hi as (s & E & Hs).
  apply filter_In in Hs as [Hs Hm]. eauto.
Qed.

(** A key with no matching row makes the answer shorter than the list. *)
Lemma unmatched_key_short_answer (f : SeatFilter) (t : list Seat) (i : string) :
  NoDup (map id t) -> In i (f_ids f) ->
  (forall s, In s t -> id s = i -> matches f s = false) ->
  (length (filter (matches f) t) < length (f_ids f))%nat.
Proof.
  intros Hk Hi Hnone.
  set (l := map id (filter (matches f) t)).
  assert (Hnd : NoDup (i :: l)).
  { constructor; [| now apply NoDup_map_filter].
    intros H. unfold l in H. apply in_map_iff in H as (s & E & Hs).
    apply filter_In in Hs as [Hs Hm]. rewrite (Hnone s Hs E) in Hm. discriminate. }
  assert (Hincl : incl (i :: l) (f_ids f)).
  { intros x [<- | Hx]; [assumption |].
    unfold l in Hx. apply in_map_iff in Hx as (s & <- & Hs).
    apply filter_In in Hs as [_ Hs]. now apply matches_id in Hs. }
  pose proof (NoDup_incl_length Hnd Hincl) as H. simpl in H.
  unfold l in H. rewrite length_map in H. lia.
Qed.

Lemma cleaned_seats_carried_out (env : Env) (ids : list string) (w : World) :
  quiet env -> fault env Cleanup = NoFault ->
  seats (db (cleaned env ids w))
  = write_seats (Reserve.by_ids ids) Reserve.available_patch (seats (db w)).
Proof.
  intros Hq Hf. unfold cleaned, Reserve.cleanup_expired.
  destruct (0 <? len ids)%Z eqn:E.
  - unfold try_ignore, bind, update_seats, ret. rewrite serve_quiet by assumption.
    now rewrite Hf.
  - apply len_pos_false in E. subst ids. simpl.
    unfold write_seats. symmetry. rewrite <- (map_id (seats (db w))) at 2.
    apply map_ext. intros s. reflexivity.
Qed.

Lemma cleaned_other_tables (env : Env) (ids : list string) (w : World) :
  quiet env ->
  shows (db (cleaned env ids w)) = shows (db w) /\
  bookings (db (cleaned env ids w)) = bookings (db w) /\
  discount_codes (db (cleaned env ids w)) = discount_codes (db w).
Proof.
  intros Hq. unfold cleaned, Reserve.cleanup_expired.
  destruct (0 <? len ids)%Z; [| now auto].
  unfold try_ignore, bind, update_seats, ret. rewrite serve_quiet by assumption.
  destruct (fault env Cleanup); simpl; auto.
Qed.

Lemma filter_none {A : Type} (p : A -> bool) (l : list A) :
  (forall x, In x l -> p x = false) -> filter p l = [].
Proof.
  induction l as [| a l IH]; simpl; intros H; [reflexivity |].
  rewrite (H a (or_introl eq_refl)). apply IH. intros x Hx. apply H. now right.
Qed.

Lemma matches_reserve_available (ids : list string) (sh : string) (s : Seat) :
  status s = Some "available" ->
  matches (Reserve.reserve_filter ids sh) s = matches (Reserve.check_filter ids sh) s.
Proof.
  intros E. unfold matches. simpl. rewrite E. simpl. now rewrite !andb_true_r.
Qed.

Lemma reservable_not_unavailable (now : Z) (s : Seat) :
  (0 <= now)%Z -> reservable now s -> Reserve.is_unavailable now s = false.
Proof.
  intros Hnow [E | Hl]; unfold Reserve.is_unavailable.
  - unfold Reserve.classify. now rewrite E.
  - now rewrite (classify_lapsed now s Hnow Hl).
Qed.

(** The run of a reserve request whose seats can all be had, with the store
    carrying out its writes. *)
Lemma reserve_grants (env : Env) (st : Store) (body : Reserve.RequestBody)
      (ids : list string) (sh : string) :
  quiet env -> keyed st -> (0 <= now_at_check env)%Z ->
  reaches_status_check env st body ids sh ->
  fault env Cleanup = NoFault -> fault env ReserveUpdate = NoFault ->
  (forall s, In s (requested_rows st ids sh) -> reservable (now_at_check env) s) ->
  exists w,
    Reserve.POST env (Some body) st
    = (json (BReserved (now_at_hold env + Reserve.hold_window)
                       (map id (requested_rows st ids sh))), w) /\
    seats (db w)
    = write_seats (Reserve.check_filter ids sh)
                  (Reserve.reserve_patch (now_at_hold env + Reserve.hold_window))
                  (seats st) /\
    shows (db w) = shows st /\ bookings (db w) = bookings st /\
    discount_codes (db w) = discount_codes st.
Proof.
  intros Hq Hk Hnow Hreach Hfc Hfu Hall.
  pose proof Hreach as (_ & _ & _ & _ & _ & Hlen).
  rewrite (reserve_reaches_decide env st body ids sh Hq Hreach).
  unfold run_handler, answer. rewrite decide_unfold.
  assert (Hnone : unavailable_rows env (requested_rows st ids sh) = []).
  { apply filter_none. intros s Hs. apply reservable_not_unavailable; auto. }
  rewrite Hnone. change (0 <? len (@nil Seat))%Z with false. cbv iota.
  destruct (cleaned_table env st ids sh Hq Hk) as (Hids & Hkeep & Hcnt & Hcids & Hwr).
  destruct (cleaned_other_tables env (expired_ids env (requested_rows st ids sh))
                                 (mkWorld st []) Hq) as (Hsh & Hbk & Hdc).
  pose proof (cleaned_seats_carried_out env (expired_ids env (requested_rows st ids sh))
                                        (mkWorld st []) Hq Hfc) as Ht1.
  set (w1 := cleaned env (expired_ids env (requested_rows st ids sh)) (mkWorld st [])) in *.
  simpl in Ht1, Hsh, Hbk, Hdc.
  assert (Hsame : forall s, In s (seats (db w1)) ->
                    matches (Reserve.reserve_filter ids sh) s
                    = matches (Reserve.check_filter ids sh) s).
  { intros s Hs. rewrite Ht1 in Hs.
    apply write_seats_In in Hs as [[Hs Hm] | (s0 & _ & _ & ->)].
    - destruct (matches (Reserve.check_filter ids sh) s) eqn:Ec.
      + assert (Hrow : In s (requested_rows st ids sh)) by (apply filter_In; auto).
        destruct (Hall s Hrow) as [E | Hl].
        * rewrite (matches_reserve_available ids sh s E). exact Ec.
        * exfalso.
          assert (Hin : In (id s) (expired_ids env (requested_rows st ids sh))).
          { unfold expired_ids. apply in_map. apply filter_In. split; [assumption |].
            unfold Reserve.is_expired. now rewrite (classify_lapsed _ s Hnow Hl). }
          unfold matches in Hm. simpl in Hm. apply mem_In in Hin.
          rewrite Hin in Hm. discriminate.
      + destruct (matches (Reserve.reserve_filter ids sh) s) eqn:Er; [| reflexivity].
        apply matches_reserve_check in Er. congruence.
    - now apply matches_reserve_available. }
  unfold bind at 1. unfold update_seats. rewrite serve_quiet by assumption.
  rewrite Hfu. simpl.
  set (hit := filter (matches (Reserve.reserve_filter ids sh)) (seats (db w1))) in *.
  assert (Ehit : hit = filter (matches (Reserve.check_filter ids sh)) (seats (db w1)))
    by (apply filter_ext_in; exact Hsame).
  set (rp := Reserve.reserve_patch (now_at_hold env + Reserve.hold_window)) in *.
  assert (Ec : (len (map (patch rp) hit) =? len ids)%Z = true).
  { rewrite len_eqb, length_map, Ehit, Hcnt, Hlen. apply Nat.eqb_refl. }
  rewrite Ec. simpl.
  eexists. split; [| split; [| split; [| split]]].
  - unfold ret, json. f_equal. f_equal. f_equal.
    rewrite map_map. simpl. rewrite <- Hcids, <- Ehit. apply map_ext. reflexivity.
  - simpl. rewrite <- Hwr. unfold write_seats. apply map_ext_in.
    intros s Hs. now rewrite (Hsame s Hs).
  - simpl. exact Hsh.
  - simpl. exact Hbk.
  - simpl. exact Hdc.
Qed.

(** The table after a reserve request that was answered 200. *)
Lemma reserve_granted_table (env : Env) (st : Store) (body : Reserve.RequestBody)
      (ids : list string) (sh : string) (r : Response) (w : World) :
  quiet env -> keyed st ->
  reaches_status_check env st body ids sh ->
  Reserve.POST env (Some body) st = (r, w) ->
  http_status r = 200 ->
  seats (db w)
  = write_seats (Reserve.check_filter ids sh)
                (Reserve.reserve_patch (now_at_hold env + Reserve.hold_window))
                (seats st).
Proof.
  intros Hq Hk Hreach Hrun Hok.
  pose proof Hreach as (_ & _ & _ & _ & _ & Hlen).
  rewrite (reserve_reaches_decide env st body ids sh Hq Hreach) in Hrun.
  unfold run_handler, answer in Hrun. rewrite decide_unfold in Hrun.
  destruct (0 <? len (unavailable_rows env (requested_rows st ids sh)))%Z;
    [inversion Hrun; subst r; discriminate Hok |].
  destruct (cleaned_table env st ids sh Hq Hk) as (Hids & Hkeep & Hcnt & Hcids & Hwr).
  set (w1 := cleaned env (expired_ids env (requested_rows st ids sh)) (mkWorld st [])) in *.
  unfold bind at 1 in Hrun. unfold update_seats in Hrun.
  rewrite serve_quiet in Hrun by assumption.
  destruct (fault env ReserveUpdate); simpl in Hrun;
    [| inversion Hrun; subst r; discriminate Hok ..].
  set (hit := filter (matches (Reserve.reserve_filter ids sh)) (seats (db w1))) in *.
  set (rp := Reserve.reserve_patch (now_at_hold env + Reserve.hold_window)) in *.
  destruct (len (map (patch rp) hit) =? len ids)%Z eqn:Ec; simpl in Hrun.
  - inversion Hrun; subst r w; clear Hrun. simpl.
    rewrite len_eqb, length_map in Ec. apply Nat.eqb_eq in Ec.
    assert (Hall : forall s, In s (seats (db w1)) ->
                     matches (Reserve.reserve_filter ids sh) s
                     = matches (Reserve.check_filter ids sh) s).
    { apply filter_length_eq_all.
      - intros x _. apply matches_reserve_check.
      - fold hit. lia. }
    rewrite <- Hwr. unfold write_seats. apply map_ext_in.
    intros s Hs. now rewrite (Hall s Hs).
  - exfalso. unfold bind at 1 in Hrun. unfold Reserve.rollback in Hrun.
    destruct (0 <? len (map id (map (patch rp) hit)))%Z.
    + unfold bind at 1 in Hrun. unfold update_seats in Hrun.
      destruct (fault env Rollback); simpl in Hrun;
        inversion Hrun; subst r; discriminate Hok.
    + simpl in Hrun. inversion Hrun; subst r; discriminate Hok.
Qed.

Lemma held_row_unavailable (now : Z) (s : Seat) (t : Z) :
  (0 <= now < t)%Z ->
  Reserve.is_unavailable now (patch (Reserve.reserve_patch t) s) = true.
Proof.
  intros Hnow. apply classify_held; [lia |].
  right. right. split; [reflexivity |]. exists t. split; [reflexivity | lia].
Qed.

(** X2. One request after the other.  After a reserve request was answered 200,
    a second reserve request that runs on the store as the first left it,
    names one of its seats and is checked before the hold runs out is
    answered 409, with that seat among [unavailableSeatIds], and sets no
    seat to reserved.  No other request writes while either of them runs, or
    between them ([quiet], and the second starts from [db w1]); ids are
    keys; both requests get to the status check. *)
Theorem reserve_excludes_second_caller
        (env1 env2 : Env) (st : Store) (body1 body2 : Reserve.RequestBody)
        (ids1 ids2 : list string) (sh1 sh2 : string) (r1 : Response) (w1 : World)
        (i : string) :
  quiet env1 -> keyed st ->
  reaches_status_check env1 st body1 ids1 sh1 ->
  Reserve.POST env1 (Some body1) st = (r1, w1) ->
  http_status r1 = 200 ->
  quiet env2 ->
  reaches_status_check env2 (db w1) body2 ids2 sh2 ->
  In i ids1 -> In i ids2 ->
  (0 <= now_at_check env2 < now_at_hold env1 + 10 * 60 * 1000)%Z ->
  exists msg unavailable,
    fst (Reserve.POST env2 (Some body2) (db w1))
    = json_status (BUnavailable msg unavailable) 409 /\
    In i unavailable /\
    forall e, In e (issued (snd (Reserve.POST env2 (Some body2) (db w1)))) ->
              sets_reserved e = false.
Proof.
  intros Hq1 Hk Hreach1 Hrun1 Hok Hq2 Hreach2 Hi1 Hi2 Hnow.
  pose proof (reserve_granted_table env1 st body1 ids1 sh1 r1 w1 Hq1 Hk Hreach1 Hrun1 Hok)
    as Ht.
  set (rp := Reserve.reserve_patch (now_at_hold env1 + Reserve.hold_window)) in *.
  assert (Hk1 : NoDup (map id (seats (db w1))))
    by (rewrite Ht, write_seats_ids; exact Hk).
  pose proof Hreach1 as (_ & _ & _ & _ & _ & Hlen1).
  pose proof Hreach2 as (_ & _ & _ & _ & _ & Hlen2).
  (* the row of [i] in the first request, and in the second *)
  destruct (full_answer_covers (Reserve.check_filter ids1 sh1) (seats st) Hk Hlen1 i Hi1)
    as (s1 & Hs1 & Eid1 & Hm1).
  destruct (full_answer_covers (Reserve.check_filter ids2 sh2) (seats (db w1)) Hk1 Hlen2 i Hi2)
    as (s2 & Hs2 & Eid2 & Hm2).
  assert (Es2 : s2 = patch rp s1).
  { apply (keyed_same_row (seats (db w1))); auto.
    - rewrite Ht. unfold write_seats. apply in_map_iff. exists s1. now rewrite Hm1.
    - rewrite Eid2. simpl. now rewrite Eid1. }
  assert (Hun : In s2 (unavailable_rows env2 (requested_rows (db w1) ids2 sh2))).
  { apply filter_In. split; [apply filter_In; auto |].
    rewrite Es2. apply held_row_unavailable.
    unfold Reserve.hold_window. lia. }
  rewrite (reserve_reaches_decide env2 (db w1) body2 ids2 sh2 Hq2 Hreach2).
  unfold run_handler, answer. rewrite decide_unfold.
  assert (Hne : (0 <? len (unavailable_rows env2 (requested_rows (db w1) ids2 sh2)))%Z = true).
  { apply len_pos_iff. intros E. rewrite E in Hun. contradiction. }
  rewrite Hne. unfold respond. simpl.
  do 2 eexists. split; [reflexivity |]. split.
  - rewrite <- Eid2. now apply in_map.
  - intros e He.
    destruct (cleaned_issued env2 (expired_ids env2 (requested_rows (db w1) ids2 sh2))
                             (mkWorld (db w1) [])) as [E | [c E]];
      rewrite E in He; simpl in He; [contradiction |].
    destruct He as [<- | []]. reflexivity.
Qed.

(** X1. A reserve request whose seats are all available, or held by a
    reservation that has run out, is granted (with the store carrying out the
    cleanup and the update): the answer is 200 with [reservedUntil] ten
    minutes after the clock reading and the ids of the requested rows, every
    requested row is in the table as reserved until then, its other columns
    as they were, and every row outside the request is as it was. *)
Theorem reserve_reclaims_lapsed_holds
        (env : Env) (st : Store) (body : Reserve.RequestBody)
        (ids : list string) (sh : string) :
  quiet env -> keyed st -> (0 <= now_at_check env)%Z ->
  reaches_status_check env st body ids sh ->
  fault env Cleanup = NoFault -> fault env ReserveUpdate = NoFault ->
  (forall s, In s (requested_rows st ids sh) -> reservable (now_at_check env) s) ->
  let reservedUntil := (now_at_hold env + 10 * 60 * 1000)%Z in
  fst (Reserve.POST env (Some body) st)
  = json (BReserved reservedUntil (map id (requested_rows st ids sh))) /\
  (forall s, In s (requested_rows st ids sh) ->
             In (mkSeat (id s) (show_id s) (section s) (row s) (number s) (price_nok s)
                        (Some "reserved") (Some reservedUntil))
                (seats (db (snd (Reserve.POST env (Some body) st))))) /\
  (forall s, In s (seats st) -> ~ In s (requested_rows st ids sh) ->
             In s (seats (db (snd (Reserve.POST env (Some body) st))))).
Proof.
  intros Hq Hk Hnow Hreach Hfc Hfu Hall reservedUntil.
  destruct (reserve_grants env st body ids sh Hq Hk Hnow Hreach Hfc Hfu Hall)
    as (w & Hrun & Hseats & _).
  rewrite Hrun. simpl. split; [reflexivity |]. split.
  - intros s Hs. rewrite Hseats. apply filter_In in Hs as [Hs Hm].
    unfold write_seats. apply in_map_iff. exists s. now rewrite Hm.
  - intros s Hs Hnot. rewrite Hseats. apply write_seats_keeps; [assumption |].
    destruct (matches (Reserve.check_filter ids sh) s) eqn:Em; [| reflexivity].
    exfalso. apply Hnot. apply filter_In. auto.
Qed.


(** X4. A reserve request that names an id with no seat of the requested
    show (an unknown id, or a seat of another show) is rejected and writes
    nothing; when the request gets as far as the count check the answer is
    400 "Noen av setene finnes ikke". *)
Theorem reserve_rejects_foreign_seat
        (env : Env) (st : Store) (body : Reserve.RequestBody)
        (ids : list string) (sh : string) (i : string) :
  quiet env -> keyed st ->
  Reserve.seatIds body = Some ids -> Reserve.showId body = Some sh ->
  In i ids ->
  (forall s, In s (seats st) -> id s = i -> show_id s <> sh) ->
  http_status (fst (Reserve.POST env (Some body) st)) <> 200 /\
  snd (Reserve.POST env (Some body) st) = mkWorld st [] /\
  (reserve_valid body = true -> service_role_key env = true ->
   fault env CheckSeats = NoFault ->
   fst (Reserve.POST env (Some body) st) = Reserve.seats_not_found).
Proof.
  intros Hq Hk E1 E2 Hi Hforeign.
  assert (Hshort : (len (requested_rows st ids sh) =? len ids)%Z = false).
  { rewrite len_eqb. apply Nat.eqb_neq.
    pose proof (unmatched_key_short_answer (Reserve.check_filter ids sh) (seats st) i
                  Hk Hi) as H.
    unfold requested_rows.
    assert (Hlt : (length (filter (matches (Reserve.check_filter ids sh)) (seats st))
                   < length ids)%nat).
    { apply H. intros s Hs Eid. unfold matches. simpl.
      destruct (show_id s =? sh)%string eqn:Es.
      - apply String.eqb_eq in Es. now apply Hforeign in Es.
      - now rewrite andb_false_r. }
    lia. }
  destruct body as [sIds sh0]. simpl in E1, E2. subst sIds sh0.
  unfold Reserve.POST, run_handler, answer, Reserve.handler, reserve_valid. simpl.
  destruct ids as [| j ids]; [contradiction |].
  simpl. destruct (sh =? "")%string eqn:Esh; simpl; [now leaf |].
  destruct (service_role_key env) eqn:Ekey; simpl; [| now leaf].
  unfold bind, select_seats. rewrite serve_quiet by assumption.
  destruct (fault env CheckSeats) eqn:Ef; simpl; [| now leaf ..].
  fold (requested_rows st (j :: ids) sh). rewrite Hshort. simpl. now leaf.
Qed.

(** *** Every write of a reserve request *)

Lemma expired_ids_requested (env : Env) (ids : list string) (sh : string) (t : list Seat) :
  incl (expired_ids env (filter (matches (Reserve.check_filter ids sh)) t)) ids.
Proof.
  intros i Hi. unfold expired_ids in Hi.
  apply in_map_iff in Hi as (s & <- & Hs).
  apply filter_In in Hs as [Hs _]. apply filter_In in Hs as [_ Hm].
  now apply matches_id in Hm.
Qed.

Lemma reserved_ids_requested (ids : list string) (sh : string) (p : SeatPatch)
      (t : list Seat) :
  incl (map id (map (patch p) (filter (matches (Reserve.reserve_filter ids sh)) t))) ids.
Proof.
  intros i Hi. rewrite map_map in Hi. simpl in Hi.
  apply in_map_iff in Hi as (s & <- & Hs).
  apply filter_In in Hs as [_ Hm]. now apply matches_id in Hm.
Qed.

Lemma rollback_issued (env : Env) (l : list string) (w : World) :
  exists o w1,
    Reserve.rollback env l w = (o, w1) /\
    (o = Ok tt \/ o = Throw) /\
    (issued w1 = issued w \/
     exists c, issued w1
               = (issued w ++ [SeatsWrite Rollback (Reserve.by_ids l)
                                          Reserve.available_patch c])%list).
Proof.
  unfold Reserve.rollback. destruct (0 <? len l)%Z.
  - unfold bind, update_seats, ret, emit, serve.
    destruct (fault env Rollback); simpl; do 2 eexists;
      (split; [reflexivity |]); (split; [auto |]); right; simpl; eexists; reflexivity.
  - unfold ret. do 2 eexists. split; [reflexivity |]. auto.
Qed.

Lemma decide_issued (env : Env) (ids : list string) (sh : string)
      (t : list Seat) (w : World) :
  exists l,
    issued (snd (answer (Reserve.decide env ids sh (now_at_hold env + Reserve.hold_window)
                                        (filter (matches (Reserve.check_filter ids sh)) t)
                                        w)))
    = (issued w ++ l)%list /\
    Forall (reserve_write env ids) l.
Proof.
  rewrite decide_unfold.
  set (rows := filter (matches (Reserve.check_filter ids sh)) t).
  assert (Hclean : exists l0,
             issued (cleaned env (expired_ids env rows) w) = (issued w ++ l0)%list /\
             Forall (reserve_write env ids) l0).
  { destruct (cleaned_issued env (expired_ids env rows) w) as [E | [c E]].
    - exists []. rewrite E, app_nil_r. split; [reflexivity | constructor].
    - eexists. split; [exact E |]. constructor; [| constructor].
      simpl. split; [apply expired_ids_requested | now right]. }
  destruct Hclean as (l0 & El0 & Hl0).
  set (w1 := cleaned env (expired_ids env rows) w) in *.
  destruct (0 <? len (unavailable_rows env rows))%Z.
  { exists l0. split; [exact El0 | exact Hl0]. }
  assert (Hupd : forall c,
             reserve_write env ids
               (SeatsWrite ReserveUpdate (Reserve.reserve_filter ids sh)
                  (Reserve.reserve_patch (now_at_hold env + Reserve.hold_window)) c)).
  { intros c. simpl. split; [apply incl_refl | now left]. }
  unfold bind at 1. unfold update_seats, emit, serve.
  destruct (fault env ReserveUpdate); simpl.
  - set (hit := filter (matches (Reserve.reserve_filter ids sh))
                       (seats (concurrent env ReserveUpdate (db w1)))).
    set (rp := Reserve.reserve_patch (now_at_hold env + Reserve.hold_window)).
    destruct (len (map (patch rp) hit) =? len ids)%Z; simpl.
    + eexists. rewrite El0, <- app_assoc. split; [reflexivity |].
      apply Forall_app. split; [exact Hl0 |]. constructor; [apply Hupd | constructor].
    + unfold bind at 1.
      match goal with
      | |- context [Reserve.rollback env ?l ?w0] =>
          destruct (rollback_issued env l w0) as (o & w2 & Erb & Ho & Hi); rewrite Erb
      end.
      simpl in Hi.
      assert (Hw2 : exists l2, issued w2 = (issued w ++ l2)%list /\
                               Forall (reserve_write env ids) l2).
      { destruct Hi as [E | [c E]]; rewrite E, El0, <- ?app_assoc; eexists;
          (split; [reflexivity |]); apply Forall_app; (split; [exact Hl0 |]).
        - constructor; [apply Hupd | constructor].
        - constructor; [apply Hupd |]. constructor; [| constructor].
          simpl. split; [apply reserved_ids_requested | now right]. }
      destruct Ho as [-> | ->]; simpl; exact Hw2.
  - eexists. rewrite El0, <- app_assoc. split; [reflexivity |].
    apply Forall_app. split; [exact Hl0 |]. constructor; [apply Hupd | constructor].
  - eexists. rewrite El0, <- app_assoc. split; [reflexivity |].
    apply Forall_app. split; [exact Hl0 |]. constructor; [apply Hupd | constructor].
Qed.

(** X5. Whatever the store and the other requests do, every write a
    reserve request issues is an update of seats keyed by ids of the request,
    which either sets the hold of this request ([status = "reserved"] until
    ten minutes after the clock reading) or resets rows to available: the
    handler inserts and deletes nothing, and writes no other table and no
    other status. *)
Theorem reserve_writes_only_requested_seats
        (env : Env) (request : option Reserve.RequestBody) (st : Store) :
  Forall (reserve_write env (requested_ids request))
         (issued (snd (Reserve.POST env request st))).
Proof.
  unfold Reserve.POST, run_handler, Reserve.handler.
  destruct request as [body |]; [| constructor].
  simpl requested_ids.
  destruct (Reserve.seatIds body) as [ids |]; [| constructor].
  destruct (Reserve.showId body) as [sh |]; [| constructor].
  destruct (match ids with [] => true | _ :: _ => false end || (sh =? "")%string)%bool;
    [constructor |].
  destruct (negb (service_role_key env)); [constructor |].
  unfold bind at 1. unfold select_seats, serve.
  destruct (fault env CheckSeats); simpl; [| constructor ..].
  match goal with
  | |- context [(len ?a =? len ?b)%Z] => destruct (len a =? len b)%Z
  end; simpl; [| constructor].
  match goal with
  | |- context [filter _ (seats ?s0)] =>
      destruct (decide_issued env ids sh (seats s0) (mkWorld s0 [])) as (l & El & Hl)
  end.
  rewrite El. exact Hl.
Qed.

(** *** A reserve request that fails *)

Lemma write_available_free (f : SeatFilter) (t : list Seat) (s : Seat) :
  In s (write_seats f Reserve.available_patch t) -> untouched_or_free t s.
Proof.
  intros Hs. apply write_seats_In in Hs as [[Hs _] | (s0 & _ & _ & ->)].
  - now left.
  - right. split; reflexivity.
Qed.

Lemma untouched_or_free_trans (t t1 : list Seat) (s : Seat) :
  (forall x, In x t1 -> untouched_or_free t x) ->
  untouched_or_free t1 s -> untouched_or_free t s.
Proof.
  intros H [Hs | Hf]; [now apply H | now right].
Qed.

Lemma cleaned_free (env : Env) (ids : list string) (w : World) :
  quiet env ->
  forall s, In s (seats (db (cleaned env ids w))) -> untouched_or_free (seats (db w)) s.
Proof.
  intros Hq s Hs. destruct (cleaned_seats env ids w Hq) as [E | E]; rewrite E in Hs.
  - now left.
  - now apply write_available_free in Hs.
Qed.

Lemma matches_by_ids (l : list string) (s : Seat) :
  matches (Reserve.by_ids l) s = mem (id s) l.
Proof.
  unfold matches. simpl. now rewrite !andb_true_r.
Qed.

(** The rollback of the rows an update changed undoes the update. *)
Lemma rollback_undoes (f : SeatFilter) (p : SeatPatch) (t : list Seat) (s : Seat) :
  In s (write_seats (Reserve.by_ids (map id (map (patch p) (filter (matches f) t))))
                    Reserve.available_patch (write_seats f p t)) ->
  untouched_or_free t s.
Proof.
  intros Hs. apply write_seats_In in Hs as [[Hs Hm] | (s0 & _ & _ & ->)].
  - apply write_seats_In in Hs as [[Hs _] | (s0 & Hs0 & Hm0 & ->)]; [now left |].
    exfalso.
    assert (Hin : In (id s0) (map id (map (patch p) (filter (matches f) t)))).
    { rewrite map_map. simpl. apply in_map. apply filter_In. auto. }
    apply mem_In in Hin. rewrite matches_by_ids in Hm. simpl in Hm. congruence.
  - right. split; reflexivity.
Qed.

Lemma decide_failure (env : Env) (ids : list string) (sh : string) (until : Z)
      (rows : list Seat) (w : World) (r : Response) (w' : World) :
  quiet env -> fault env Rollback = NoFault ->
  answer (Reserve.decide env ids sh until rows w) = (r, w') ->
  http_status r <> 200 ->
  (forall s, In s (seats (db w')) -> untouched_or_free (seats (db w)) s) /\
  map id (seats (db w')) = map id (seats (db w)) /\
  shows (db w') = shows (db w) /\ bookings (db w') = bookings (db w) /\
  discount_codes (db w') = discount_codes (db w).
Proof.
  intros Hq Hrb Hrun Hbad. rewrite decide_unfold in Hrun.
  pose proof (cleaned_free env (expired_ids env rows) w Hq) as Hfree.
  destruct (cleaned_other_tables env (expired_ids env rows) w Hq) as (Hsh & Hbk & Hdc).
  assert (Hids : map id (seats (db (cleaned env (expired_ids env rows) w)))
                 = map id (seats (db w))).
  { destruct (cleaned_seats env (expired_ids env rows) w Hq) as [E | E]; rewrite E;
      [reflexivity | apply write_seats_ids]. }
  set (w1 := cleaned env (expired_ids env rows) w) in *.
  destruct (0 <? len (unavailable_rows env rows))%Z.
  { unfold respond, answer in Hrun. inversion Hrun; subst r w'. auto. }
  unfold bind at 1 in Hrun. unfold update_seats in Hrun.
  rewrite serve_quiet in Hrun by assumption.
  destruct (fault env ReserveUpdate); simpl in Hrun.
  2,3: inversion Hrun; subst r w'; simpl; auto.
  set (hit := filter (matches (Reserve.reserve_filter ids sh)) (seats (db w1))) in *.
  destruct (len (map (patch (Reserve.reserve_patch until)) hit) =? len ids)%Z;
    simpl in Hrun.
  { inversion Hrun; subst r. now contradiction Hbad. }
  unfold bind at 1 in Hrun. unfold Reserve.rollback in Hrun.
  destruct (0 <? len (map id (map (patch (Reserve.reserve_patch until)) hit)))%Z eqn:Ern.
  - unfold bind at 1 in Hrun. unfold update_seats in Hrun.
    rewrite serve_quiet in Hrun by assumption. rewrite Hrb in Hrun. simpl in Hrun.
    inversion Hrun; subst r w'; clear Hrun. simpl.
    split; [| split; [now rewrite !write_seats_ids | auto]].
    intros s Hs. apply (untouched_or_free_trans _ (seats (db w1))); [exact Hfree |].
    now apply rollback_undoes in Hs.
  - simpl in Hrun. inversion Hrun; subst r w'; clear Hrun. simpl.
    split; [| split; [now rewrite write_seats_ids | auto]].
    intros s Hs. apply Hfree.
    apply len_pos_false in Ern.
    apply write_seats_In in Hs as [[Hs _] | (s0 & Hs0 & Hm0 & ->)]; [assumption |].
    exfalso.
    assert (Hin : In s0 hit) by (apply filter_In; auto).
    destruct hit; [contradiction | discriminate].
Qed.

(** X6. A reserve request that is not answered 200 reserves nothing (no
    other request writing, the store carrying out the rollback): every row of
    the seats table afterwards is a row as it was or a row that is available
    with no hold, the keys of the table are as they were, and the shows, the
    bookings and the discount codes are untouched. *)
Theorem reserve_failure_holds_nothing
        (env : Env) (request : option Reserve.RequestBody) (st : Store)
        (r : Response) (w : World) :
  quiet env -> fault env Rollback = NoFault ->
  Reserve.POST env request st = (r, w) ->
  http_status r <> 200 ->
  (forall s, In s (seats (db w)) ->
             In s (seats st) \/ (status s = Some "available" /\ reserved_until s = None)) /\
  map id (seats (db w)) = map id (seats st) /\
  shows (db w) = shows st /\ bookings (db w) = bookings st /\
  discount_codes (db w) = discount_codes st.
Proof.
  intros Hq Hrb Hrun Hbad.
  unfold Reserve.POST, run_handler, Reserve.handler in Hrun.
  destruct request as [body |]; [| inversion Hrun; simpl; auto].
  destruct (Reserve.seatIds body) as [ids |]; [| inversion Hrun; simpl; auto].
  destruct (Reserve.showId body) as [sh |]; [| inversion Hrun; simpl; auto].
  destruct (match ids with [] => true | _ :: _ => false end || (sh =? "")%string)%bool;
    [inversion Hrun; simpl; auto |].
  destruct (negb (service_role_key env)); [inversion Hrun; simpl; auto |].
  unfold bind at 1 in Hrun. unfold select_seats in Hrun.
  rewrite serve_quiet in Hrun by assumption.
  destruct (fault env CheckSeats); simpl in Hrun; [| inversion Hrun; simpl; auto ..].
  match type of Hrun with
  | context [(len ?a =? len ?b)%Z] => destruct (len a =? len b)%Z
  end; simpl in Hrun; [| inversion Hrun; simpl; auto].
  apply (decide_failure env ids sh _ _ (mkWorld st []) r w Hq Hrb Hrun Hbad).
Qed.

Lemma reserve_answer_cases (env : Env) (request : option Reserve.RequestBody)
      (st : Store) (r : Response) (w : World) :
  Reserve.POST env request st = (r, w) ->
  (http_status r = 200 /\
   exists seatIds, body r = BReserved (now_at_hold env + 10 * 60 * 1000) seatIds /\
                   length seatIds = length (requested_ids request)) \/
  (http_status r = 400 /\ exists msg, body r = BError msg) \/
  (http_status r = 409 /\
   ((exists msg unavailable, body r = BUnavailable msg unavailable /\ unavailable <> []) \/
    exists msg, body r = BError msg)) \/
  (http_status r = 500 /\
   ((exists msg, body r = BError msg) \/
    exists msg details, body r = BErrorDetails msg details)).
Proof.
  intros Hrun. unfold Reserve.POST, run_handler, Reserve.handler in Hrun.
  destruct request as [rq |];
    [| inversion Hrun; simpl; right; right; right; eauto].
  simpl requested_ids.
  destruct (Reserve.seatIds rq) as [ids |];
    [| inversion Hrun; simpl; right; left; eauto].
  destruct (Reserve.showId rq) as [sh |];
    [| inversion Hrun; simpl; right; left; eauto].
  destruct (match ids with [] => true | _ :: _ => false end || (sh =? "")%string)%bool;
    [inversion Hrun; simpl; right; left; eauto |].
  destruct (negb (service_role_key env));
    [inversion Hrun; simpl; right; right; right; eauto |].
  unfold bind at 1 in Hrun. unfold select_seats, serve in Hrun.
  destruct (fault env CheckSeats); simpl in Hrun;
    [| inversion Hrun; simpl; right; right; right; eauto ..].
  match type of Hrun with
  | context [(len ?a =? len ?b)%Z] => destruct (len a =? len b)%Z
  end; simpl in Hrun; [| inversion Hrun; simpl; right; left; eauto].
  rewrite decide_unfold in Hrun.
  match type of Hrun with
  | context [(0 <? len ?u)%Z] => destruct (0 <? len u)%Z eqn:Eu
  end.
  { inversion Hrun; simpl. right; right; left. split; [reflexivity |]. left.
    do 2 eexists. split; [reflexivity |].
    apply len_pos_iff in Eu. intros E. apply Eu.
    now apply map_eq_nil in E. }
  unfold bind at 1 in Hrun. unfold update_seats, emit, serve in Hrun.
  destruct (fault env ReserveUpdate); simpl in Hrun;
    [| inversion Hrun; simpl; right; right; right; eauto ..].
  match type of Hrun with
  | context [(len ?a =? len ?b)%Z] => destruct (len a =? len b)%Z eqn:Ec
  end; simpl in Hrun.
  - inversion Hrun; simpl. left. split; [reflexivity |].
    eexists. split; [reflexivity |].
    rewrite len_eqb in Ec. apply Nat.eqb_eq in Ec. now rewrite length_map.
  - unfold bind at 1 in Hrun.
    match type of Hrun with
    | context [Reserve.rollback env ?l ?w0] =>
        destruct (rollback_issued env l w0) as (o & w2 & Erb & [-> | ->] & _);
        rewrite Erb in Hrun
    end; simpl in Hrun; inversion Hrun; simpl.
    + right; right; left. split; [reflexivity |]. right. eauto.
    + right; right; right. eauto.
Qed.

(** X7. The answers of the reserve handler.  Whatever the request and the
    collaborators, the answer is 200 with [reservedUntil] ten minutes after
    the clock reading and as many seat ids as were requested, or 400 with an
    error, or 409 with either a non-empty [unavailableSeatIds] or an error
    alone, or 500. *)
Theorem reserve_answers
        (env : Env) (request : option Reserve.RequestBody) (st : Store) :
  let r := fst (Reserve.POST env request st) in
  (http_status r = 200 /\
   exists seatIds, body r = BReserved (now_at_hold env + 10 * 60 * 1000) seatIds /\
                   length seatIds = length (requested_ids request)) \/
  (http_status r = 400 /\ exists msg, body r = BError msg) \/
  (http_status r = 409 /\
   ((exists msg unavailable, body r = BUnavailable msg unavailable /\ unavailable <> []) \/
    exists msg, body r = BError msg)) \/
  (http_status r = 500 /\
   ((exists msg, body r = BError msg) \/
    exists msg details, body r = BErrorDetails msg details)).
Proof.
  destruct (Reserve.POST env request st) as [r w] eqn:Hrun. simpl.
  exact (reserve_answer_cases env request st r w Hrun).
Qed.

(** *** Store calls that are carried out *)

Lemma bind_ok {A B : Type} (m : M A) (k : A -> M B) (w w1 : World) (a : A) :
  m w = (Ok a, w1) -> bind m k w = k a w1.
Proof.
  intros E. unfold bind. now rewrite E.
Qed.

Section CarriedOut.

Variable env : Env.
Hypothesis Hq : quiet env.
Hypothesis Hf : no_faults env.

Lemma select_show_ok (site : Site) (key : string) (w : World) :
  select_show env site key w
  = (Ok (single (filter (fun s => (show_key s =? key)%string) (shows (db w)))), w).
Proof.
  unfold select_show. rewrite serve_quiet by assumption. now rewrite Hf.
Qed.

Lemma select_seats_ok (site : Site) (f : SeatFilter) (w : World) :
  select_seats env site f w
  = (Ok (mkResult (Some (filter (matches f) (seats (db w)))) None), w).
Proof.
  unfold select_seats. rewrite serve_quiet by assumption. now rewrite Hf.
Qed.

Lemma select_code_ok (site : Site) (c : string) (w : World) :
  select_code env site c w
  = (Ok (single (filter (fun d => (code d =? c)%string) (discount_codes (db w)))), w).
Proof.
  unfold select_code. rewrite serve_quiet by assumption. now rewrite Hf.
Qed.

Lemma update_code_ok (site : Site) (key : string) (uses : Z) (w : World) :
  update_code env site key uses w
  = (Ok (mkResult None None),
     mkWorld
       (with_codes
          (map (fun d => if (code_id d =? key)%string
                         then mkCode (code_id d) (code d) (Some uses) else d)
               (discount_codes (db w)))
          (db w))
       (issued w ++ [CodeWrite key uses true])).
Proof.
  unfold update_code. rewrite serve_quiet by assumption. now rewrite Hf.
Qed.

Lemma insert_booking_ok (site : Site) (b : Booking) (w : World) :
  insert_booking env site b w
  = (Ok (mkResult (Some b) None),
     mkWorld (with_bookings (bookings (db w) ++ [b]) (db w))
             (issued w ++ [BookingInsert b true])).
Proof.
  unfold insert_booking. rewrite serve_quiet by assumption. now rewrite Hf.
Qed.

Lemma update_booking_ok (site : Site) (key : string) (p : BookingPatch) (w : World) :
  update_booking env site key p w
  = (Ok (mkResult None None),
     mkWorld
       (with_bookings
          (map (fun b => if (booking_id b =? key)%string then patch_booking p b else b)
               (bookings (db w)))
          (db w))
       (issued w ++ [BookingWrite site key p true])).
Proof.
  unfold update_booking. rewrite serve_quiet by assumption. now rewrite Hf.
Qed.

Lemma update_seats_ok (site : Site) (f : SeatFilter) (p : SeatPatch) (w : World) :
  update_seats env site f p w
  = (Ok (mkResult (Some (map (patch p) (filter (matches f) (seats (db w))))) None),
     mkWorld (with_seats (write_seats f p (seats (db w))) (db w))
             (issued w ++ [SeatsWrite site f p
                             (Some (map id (filter (matches f) (seats (db w)))))])).
Proof.
  unfold update_seats. rewrite serve_quiet by assumption. now rewrite Hf.
Qed.

Lemma update_show_ok (site : Site) (key : string) (available : Z) (w : World) :
  update_show env site key available w
  = (Ok (mkResult None None),
     mkWorld
       (with_shows
          (map (fun s => if (show_key s =? key)%string
                         then mkShow (show_key s) (title s) (ensemble_title s)
                                     (show_datetime s) available (venue s)
                         else s)
               (shows (db w)))
          (db w))
       (issued w ++ [ShowWrite key available true])).
Proof.
  unfold update_show. rewrite serve_quiet by assumption. now rewrite Hf.
Qed.

End CarriedOut.

(** *** A confirm request that passes every check *)

Lemma confirm_reaches_book (env : Env) (st : Store) (body : Confirm.RequestBody)
      (ids : list string) :
  quiet env -> reaches_seat_check env st body ids ->
  filter Confirm.is_unavailable (confirm_rows st ids) = [] ->
  exists sh cn ce ta uid show,
    Confirm.showId body = Some sh /\
    Confirm.customerName body = Some cn /\
    Confirm.customerEmail body = Some ce /\
    Confirm.totalAmount body = Some ta /\ (0 < ta)%Z /\
    current_user env = Some uid /\
    filter (fun s => (show_key s =? sh)%string) (shows st) = [show] /\
    Confirm.POST env (Some body) st
    = answer (Confirm.book env body uid sh ids cn ce ta show (confirm_rows st ids)
                           (mkWorld st [])).
Proof.
  intros Hq (Eids & Hv & Hu & Hshow & Hfs & Hfg & Hlen) Hnone.
  unfold Confirm.POST, run_handler, Confirm.handler, confirm_valid, show_found in *.
  rewrite Eids in *.
  destruct (Confirm.showId body) as [sh |]; [| discriminate].
  destruct (Confirm.customerName body) as [cn |]; [| now leaf].
  destruct (Confirm.customerEmail body) as [ce |]; [| now leaf].
  destruct (Confirm.totalAmount body) as [ta |]; [| now leaf].
  simpl in Hv. split_andb.
  destruct ids as [| i ids]; [discriminate |].
  repeat match goal with
         | H : negb _ = true |- _ => apply negb_true_iff in H; rewrite H
         end.
  assert (Hta : (0 < ta)%Z) by now apply Z.ltb_lt.
  assert (Eta : (ta <=? 0)%Z = false) by now apply Z.leb_gt.
  rewrite Eta. simpl.
  destruct (current_user env) as [u |]; [| discriminate]. simpl in Hu.
  apply negb_true_iff in Hu. rewrite Hu.
  unfold bind, select_show, select_seats, serve, single. simpl.
  rewrite !Hq, Hfs. simpl in Hshow.
  destruct (filter (fun s => (show_key s =? sh)%string) (shows st))
    as [| show [| ? ?]] eqn:Efs; try discriminate Hshow.
  simpl. rewrite !Hq, Hfg.
  simpl. fold (confirm_rows st (i :: ids)).
  rewrite len_eqb, Hlen, Nat.eqb_refl. simpl. rewrite Hnone.
  change (0 <? len (@nil Seat))%Z with false. cbv iota.
  exists sh, cn, ce, ta, u, show. repeat split; auto.
Qed.

(** The booking row of a request, as the insert writes it. *)
Lemma map_keyed_last {A : Type} (key : A -> string) (k : string) (g : A -> A)
      (l : list A) (b : A) :
  ~ In k (map key l) -> key b = k ->
  map (fun x => if (key x =? k)%string then g x else x) (l ++ [b]) = (l ++ [g b])%list.
Proof.
  intros Hfresh Eb. rewrite map_app. simpl.
  rewrite Eb, String.eqb_refl. f_equal.
  rewrite <- (map_id l) at 2. apply map_ext_in. intros x Hx.
  destruct (key x =? k)%string eqn:E; [| reflexivity].
  apply String.eqb_eq in E. exfalso. apply Hfresh. rewrite <- E. now apply in_map.
Qed.

Section GoesThrough.

Variable env : Env.
Hypothesis Hq : quiet env.
Hypothesis Hf : no_faults env.

Lemma count_discount_ok (dc : option string) (w : World) :
  exists w1,
    Confirm.count_discount env dc w = (Ok tt, w1) /\
    db w1 = with_codes (codes_after dc (discount_codes (db w))) (db w) /\
    exists l, issued w1 = (issued w ++ l)%list.
Proof.
  unfold Confirm.count_discount, codes_after.
  destruct w as [st log]. destruct st as [se sh bk dc0].
  destruct (truthy dc).
  2:{ eexists. split; [reflexivity |]. split; [reflexivity |].
      exists []. simpl. now rewrite app_nil_r. }
  rewrite (bind_ok _ _ _ _ _ (select_code_ok env Hq Hf GetDiscount (or_default dc "") _)).
  cbn [db discount_codes].
  destruct (single _) as [[c |] [e |]]; cbn [error data].
  2:{ rewrite (bind_ok _ _ _ _ _ (update_code_ok env Hq Hf BumpDiscount _ _ _)).
      eexists. split; [reflexivity |]. split; [reflexivity |].
      eexists. reflexivity. }
  all: eexists; (split; [reflexivity |]); (split; [reflexivity |]);
    exists []; simpl; now rewrite app_nil_r.
Qed.

Lemma settle_ok (b : Booking) (dc : option string) (sh : string) (ids : list string)
      (show : Show) (qr : QrData) (w : World) :
  exists w1,
    Confirm.settle env b dc sh ids show qr w = (Ok tt, w1) /\
    db w1
    = mkStore
        (write_seats (mkFilter ids None None) Confirm.sold_patch (seats (db w)))
        (map (fun s => if (show_key s =? sh)%string
                       then mkShow (show_key s) (title s) (ensemble_title s)
                                   (show_datetime s) (available_seats show - len ids)
                                   (venue s)
                       else s)
             (shows (db w)))
        (map (fun x => if (booking_id x =? booking_id b)%string
                       then patch_booking (PatchQr qr) x else x)
             (if truthy dc
              then map (fun x => if (booking_id x =? booking_id b)%string
                                 then patch_booking
                                        (PatchDiscountUsed (or_default dc "")) x
                                 else x)
                       (bookings (db w))
              else bookings (db w)))
        (discount_codes (db w)) /\
    exists l, issued w1 = (issued w ++ l)%list.
Proof.
  unfold Confirm.settle.
  destruct w as [st log]. destruct st as [se shs bk dcs].
  destruct (truthy dc).
  - unfold bind at 1. unfold try_ignore.
    rewrite (bind_ok _ _ _ _ _ (update_booking_ok env Hq Hf SetDiscountUsed _ _ _)).
    unfold ret at 1.
    rewrite (bind_ok _ _ _ _ _ (update_booking_ok env Hq Hf SetQr _ _ _)).
    rewrite (bind_ok _ _ _ _ _ (update_seats_ok env Hq Hf SellSeats _ _ _)).
    rewrite (bind_ok _ _ _ _ _ (update_show_ok env Hq Hf DecrementShow _ _ _)).
    eexists. split; [reflexivity |]. split; [reflexivity |].
    cbn [issued db]. rewrite <- !app_assoc. eexists. reflexivity.
  - unfold bind at 1. unfold ret at 1.
    rewrite (bind_ok _ _ _ _ _ (update_booking_ok env Hq Hf SetQr _ _ _)).
    rewrite (bind_ok _ _ _ _ _ (update_seats_ok env Hq Hf SellSeats _ _ _)).
    rewrite (bind_ok _ _ _ _ _ (update_show_ok env Hq Hf DecrementShow _ _ _)).
    eexists. split; [reflexivity |]. split; [reflexivity |].
    cbn [issued db]. rewrite <- !app_assoc. eexists. reflexivity.
Qed.

Lemma dispatch_ok (b : Booking) (ref : string) (a : EmailArgs) (w : World) :
  Confirm.dispatch_and_answer env b ref a w
  = (Ok (Confirm.booked b ref (Confirm.email_result (sendTicketEmail env a))),
     mkWorld
       (with_bookings
          (map (fun x => if (booking_id x =? booking_id b)%string
                         then patch_booking
                                (PatchTicketSent
                                   (fst (Confirm.email_result (sendTicketEmail env a)))) x
                         else x)
               (bookings (db w)))
          (db w))
       (issued w ++ [EmailCall a (sendTicketEmail env a);
                     BookingWrite SetTicketSent (booking_id b)
                       (PatchTicketSent
                          (fst (Confirm.email_result (sendTicketEmail env a)))) true])).
Proof.
  unfold Confirm.dispatch_and_answer, send_email. unfold bind at 1. cbn beta iota.
  rewrite (bind_ok _ _ _ _ _ (update_booking_ok env Hq Hf SetTicketSent _ _ _)).
  unfold ret, emit. cbn [db issued]. rewrite <- app_assoc. reflexivity.
Qed.

End GoesThrough.

Lemma final_row {A : Type} (key : A -> string) (k : string) (g1 g2 g3 : A -> A)
      (t : bool) (l : list A) (b : A) :
  ~ In k (map key l) -> key b = k ->
  (forall x, key (g1 x) = key x) -> (forall x, key (g2 x) = key x) ->
  map (fun x => if (key x =? k)%string then g3 x else x)
      (map (fun x => if (key x =? k)%string then g2 x else x)
           (if t then map (fun x => if (key x =? k)%string then g1 x else x) (l ++ [b])
            else (l ++ [b])%list))
  = (l ++ [g3 (g2 (if t then g1 b else b))])%list.
Proof.
  intros Hfresh Eb H1 H2.
  assert (E1 : (if t then map (fun x => if (key x =? k)%string then g1 x else x) (l ++ [b])
                else (l ++ [b])%list)
               = (l ++ [if t then g1 b else b])%list).
  { destruct t; [| reflexivity]. now apply map_keyed_last. }
  rewrite E1.
  assert (Ek : key (if t then g1 b else b) = k)
    by (destruct t; [rewrite H1 |]; assumption).
  rewrite (map_keyed_last key k g2 l _ Hfresh Ek).
  apply map_keyed_last; [assumption |]. now rewrite H2.
Qed.

Lemma book_goes_through (env : Env) (body : Confirm.RequestBody) (uid sh : string)
      (ids : list string) (cn ce : string) (ta : Z) (show : Show) (rows : list Seat)
      (st : Store) :
  quiet env -> no_faults env ->
  ~ In (new_booking_id env) (map booking_id (bookings st)) ->
  exists (w : World) (b : Booking) (a : EmailArgs),
    answer (Confirm.book env body uid sh ids cn ce ta show rows (mkWorld st []))
    = (json (BBooked (new_booking_id env) (generateBookingReference env)
                     (fst (Confirm.email_result (sendTicketEmail env a)))
                     (snd (Confirm.email_result (sendTicketEmail env a)))), w) /\
    seats (db w) = write_seats (mkFilter ids None None) Confirm.sold_patch (seats st) /\
    shows (db w)
    = map (fun s => if (show_key s =? sh)%string
                    then mkShow (show_key s) (title s) (ensemble_title s)
                                (show_datetime s) (available_seats show - len ids)
                                (venue s)
                    else s)
          (shows st) /\
    discount_codes (db w) = codes_after (Confirm.discountCode body) (discount_codes st) /\
    bookings (db w) = (bookings st ++ [b])%list /\
    b = mkBooking (new_booking_id env) uid sh ids ta (generateBookingReference env)
                  (mkQr (new_booking_id env) (generateBookingReference env) sh
                     (or_default (title show)
                                 (or_default (ensemble_title show) "Forestilling"))
                     (show_datetime show) cn
                     (map (fun s => mkSummary (section s) (row s) (number s)) rows))
                  cn ce
                  (Confirm.or_null (Confirm.customerPhone body))
                  (Confirm.or_null (Confirm.specialRequests body))
                  "confirmed" (now_at_insert env)
                  (fst (Confirm.email_result (sendTicketEmail env a)))
                  (Confirm.or_null (Confirm.discountCode body)) /\
    a = Confirm.email_args cn ce (generateBookingReference env)
          (or_default (title show) (or_default (ensemble_title show) "Forestilling"))
          show rows ta (qr_code_data b) /\
    In (EmailCall a (sendTicketEmail env a)) (issued w).
Proof.
  intros Hq Hf Hfresh.
  unfold Confirm.book.
  destruct (count_discount_ok env Hq Hf (Confirm.discountCode body) (mkWorld st []))
    as (w0 & E0 & Hdb0 & _).
  rewrite (bind_ok _ _ _ _ _ E0).
  unfold Confirm.commit.
  rewrite (bind_ok _ _ _ _ _ (insert_booking_ok env Hq Hf InsertBooking _ _)).
  cbn [error data].
  match goal with
  | |- context [bind (Confirm.settle env ?b ?dc ?s ?i ?sw ?qr) _ ?w] =>
      destruct (settle_ok env Hq Hf b dc s i sw qr w) as (w2 & E2 & Hdb2 & _)
  end.
  rewrite (bind_ok _ _ _ _ _ E2).
  rewrite dispatch_ok by assumption.
  clear E0 E2.
  unfold answer, Confirm.booked.
  cbn [Confirm.new_booking booking_id Confirm.createQRCodeData qr_booking_reference
       qr_show_id qr_show_title qr_show_datetime qr_customer_name qr_seats] in *.
  match goal with
  | |- context [EmailCall ?a0 _] => set (a := a0) in *
  end.
  set (sent := fst (Confirm.email_result (sendTicketEmail env a))) in *.
  eexists. eexists. exists a. split; [reflexivity |].
  cbn [db seats shows bookings discount_codes with_bookings].
  rewrite Hdb2. cbn [db seats shows bookings discount_codes with_bookings].
  rewrite Hdb0. cbn [db seats shows bookings discount_codes with_codes].
  split; [reflexivity |]. split; [reflexivity |]. split; [reflexivity |].
  split.
  { rewrite (final_row booking_id (new_booking_id env)) by auto. reflexivity. }
  split.
  { unfold Confirm.or_null at 3.
    destruct (Confirm.discountCode body) as [d |]; [| reflexivity].
    simpl. destruct (d =? "")%string; reflexivity. }
  split.
  - subst a. reflexivity.
  - apply in_or_app. right. now left.
Qed.

(** *** The seats table through a confirm request *)

Lemma book_seats (env : Env) (body : Confirm.RequestBody) (uid sh : string)
      (ids : list string) (cn ce : string) (ta : Z) (show : Show) (rows : list Seat)
      (w : World) (r : Response) (w' : World) :
  quiet env ->
  answer (Confirm.book env body uid sh ids cn ce ta show rows w) = (r, w') ->
  (seats (db w') = seats (db w) \/
   seats (db w') = write_seats (mkFilter ids None None) Confirm.sold_patch (seats (db w))) /\
  (http_status r = 200 -> fault env SellSeats = NoFault ->
   seats (db w') = write_seats (mkFilter ids None None) Confirm.sold_patch (seats (db w))).
Proof.
  intros Hq Hrun. unfold Confirm.book in Hrun. unfold bind at 1 in Hrun.
  destruct (count_discount_run env (Confirm.discountCode body) w)
    as (o0 & w0 & E0 & Ho0 & _ & Hst0).
  rewrite E0 in Hrun. destruct (Hst0 Hq) as (Hs0 & _ & _).
  destruct Ho0 as [-> | ->].
  2:{ inversion Hrun; subst r w'. split; [now left | discriminate]. }
  unfold Confirm.commit in Hrun. unfold bind at 1 in Hrun.
  unfold insert_booking in Hrun. rewrite serve_quiet in Hrun by assumption.
  destruct (fault env InsertBooking); simpl in Hrun.
  2,3: inversion Hrun; subst r w'; split; [now left | discriminate].
  unfold bind at 1 in Hrun.
  match type of Hrun with
  | context [Confirm.settle env ?b ?dc ?s ?i ?sw ?qr ?w1] =>
      destruct (settle_run env b dc s i sw qr w1)
        as (o3 & w3 & E3 & Ho3 & _ & Hst3); rewrite E3 in Hrun;
      destruct (Hst3 Hq) as (_ & Hs3 & Hsold3)
  end.
  simpl in Hs3, Hsold3. rewrite Hs0 in Hs3, Hsold3.
  destruct Ho3 as [-> | ->].
  2:{ inversion Hrun; subst r w'. split; [exact Hs3 | discriminate]. }
  match type of Hrun with
  | context [Confirm.dispatch_and_answer env ?b ?ref ?a ?w1] =>
      destruct (dispatch_run env b ref a w1)
        as (res & w4 & ok & E4 & _ & _ & _ & Hst4); rewrite E4 in Hrun;
      destruct (Hst4 Hq) as (Hs4 & _)
  end.
  assert (Ew : w' = w4) by (destruct res; inversion Hrun; reflexivity).
  subst w'. rewrite Hs4. split; [exact Hs3 |].
  intros _ Hsell. now apply Hsold3.
Qed.

Lemma confirm_seats (env : Env) (request : option Confirm.RequestBody) (st : Store)
      (r : Response) (w : World) :
  quiet env ->
  Confirm.POST env request st = (r, w) ->
  (seats (db w) = seats st \/
   seats (db w)
   = write_seats (mkFilter (confirm_ids request) None None)
                 Confirm.sold_patch (seats st)) /\
  (http_status r = 200 -> fault env SellSeats = NoFault ->
   exists body ids,
     request = Some body /\ Confirm.seatIds body = Some ids /\
     seats (db w) = write_seats (mkFilter ids None None) Confirm.sold_patch (seats st)).
Proof.
  intros Hq Hrun.
  destruct (confirm_structure env request st r w Hrun)
    as [(_ & Hbad & Hdb) | (body & sh & ids & cn & ce & ta & uid & show & w0 & -> & _ & Eids
                            & _ & _ & _ & _ & _ & _ & Hdb0 & _ & _ & Hbook)].
  - rewrite (Hdb Hq). split; [now left | intros H; now contradiction Hbad].
  - symmetry in Hbook.
    destruct (book_seats env body uid sh ids cn ce ta show _ w0 r w Hq Hbook) as (H1 & H2).
    rewrite (Hdb0 Hq) in H1, H2. unfold confirm_ids. rewrite Eids. split; [exact H1 |].
    intros Hok Hsell. exists body, ids. auto.
Qed.

Lemma reserve_seat_identity (env : Env) (request : option Reserve.RequestBody)
      (st : Store) :
  quiet env ->
  map seat_identity (seats (db (snd (Reserve.POST env request st))))
  = map seat_identity (seats st).
Proof.
  intros Hq.
  - destruct (Reserve.POST env request st) as [r w] eqn:Hrun. simpl.
    unfold Reserve.POST, run_handler, Reserve.handler in Hrun.
    destruct request as [body |]; [| inversion Hrun; reflexivity].
    destruct (Reserve.seatIds body) as [ids |]; [| inversion Hrun; reflexivity].
    destruct (Reserve.showId body) as [sh |]; [| inversion Hrun; reflexivity].
    destruct (match ids with [] => true | _ :: _ => false end || (sh =? "")%string)%bool;
      [inversion Hrun; reflexivity |].
    destruct (negb (service_role_key env)); [inversion Hrun; reflexivity |].
    unfold bind at 1 in Hrun. unfold select_seats in Hrun.
    rewrite serve_quiet in Hrun by assumption.
    destruct (fault env CheckSeats); simpl in Hrun; [| inversion Hrun; reflexivity ..].
    match type of Hrun with
    | context [(len ?a =? len ?b)%Z] => destruct (len a =? len b)%Z
    end; simpl in Hrun; [| inversion Hrun; reflexivity].
    rewrite decide_unfold in Hrun.
    assert (H1 : map seat_identity
                   (seats (db (cleaned env
                                 (expired_ids env
                                    (filter (matches (Reserve.check_filter ids sh)) (seats st)))
                                 (mkWorld st []))))
                 = map seat_identity (seats st)).
    { match goal with
      | |- context [cleaned env ?l ?w0] =>
          destruct (cleaned_seats env l w0 Hq) as [E | E]; rewrite E
      end; [reflexivity | apply write_seats_identity]. }
    match type of Hrun with
    | context [cleaned env ?l ?w0] => set (w1 := cleaned env l w0) in *
    end.
    destruct (0 <? len _)%Z in Hrun; [inversion Hrun; subst; exact H1 |].
    unfold bind at 1 in Hrun. unfold update_seats in Hrun.
    rewrite serve_quiet in Hrun by assumption.
    destruct (fault env ReserveUpdate); simpl in Hrun;
      [| inversion Hrun; subst; exact H1 ..].
    match type of Hrun with
    | context [(len ?a =? len ?b)%Z] => destruct (len a =? len b)%Z
    end; simpl in Hrun.
    + inversion Hrun; subst. simpl. now rewrite write_seats_identity.
    + unfold bind at 1 in Hrun. unfold Reserve.rollback in Hrun.
      destruct (0 <? len _)%Z in Hrun.
      * unfold bind at 1 in Hrun. unfold update_seats in Hrun.
        rewrite serve_quiet in Hrun by assumption.
        destruct (fault env Rollback); simpl in Hrun; inversion Hrun; subst; simpl;
          now rewrite ?write_seats_identity.
      * simpl in Hrun. inversion Hrun; subst. simpl. now rewrite write_seats_identity.
Qed.

Lemma confirm_seat_identity (env : Env) (request : option Confirm.RequestBody)
      (st : Store) :
  quiet env ->
  map seat_identity (seats (db (snd (Confirm.POST env request st))))
  = map seat_identity (seats st).
Proof.
  intros Hq.
  destruct (Confirm.POST env request st) as [r w] eqn:Hrun. simpl.
  destruct (confirm_seats env request st r w Hq Hrun) as ([E | E] & _); rewrite E;
    [reflexivity | apply write_seats_identity].
Qed.

Lemma identity_ids (t1 t2 : list Seat) :
  map seat_identity t1 = map seat_identity t2 -> map id t1 = map id t2.
Proof.
  intros E.
  assert (H : forall t, map id t
                        = map (fun x : string * string * string * string * Z * Z =>
                                 fst (fst (fst (fst (fst x)))))
                              (map seat_identity t)).
  { intros t. rewrite map_map. apply map_ext. reflexivity. }
  now rewrite (H t1), (H t2), E.
Qed.

Lemma reserve_keeps_keyed (env : Env) (request : option Reserve.RequestBody) (st : Store) :
  quiet env -> keyed st -> keyed (db (snd (Reserve.POST env request st))).
Proof.
  intros Hq Hk. unfold keyed.
  now rewrite (identity_ids _ _ (reserve_seat_identity env request st Hq)).
Qed.

Lemma confirm_keeps_keyed (env : Env) (request : option Confirm.RequestBody) (st : Store) :
  quiet env -> keyed st -> keyed (db (snd (Confirm.POST env request st))).
Proof.
  intros Hq Hk. unfold keyed.
  now rewrite (identity_ids _ _ (confirm_seat_identity env request st Hq)).
Qed.

(** X8. Neither handler adds, removes or reorders seats, or changes the
    id, show, section, row, number or price of a seat (no other request
    writing): only [status] and [reserved_until] are ever written. *)
Theorem handlers_keep_seat_identity (env : Env) (st : Store) :
  quiet env ->
  (forall request,
      map seat_identity (seats (db (snd (Reserve.POST env request st))))
      = map seat_identity (seats st)) /\
  (forall request,
      map seat_identity (seats (db (snd (Confirm.POST env request st))))
      = map seat_identity (seats st)).
Proof.
  intros Hq. split; intros request.
  - now apply reserve_seat_identity.
  - now apply confirm_seat_identity.
Qed.

(** *** Confirm requests that go through *)

Lemma bookable_none (rows : list Seat) :
  (forall s, In s rows -> bookable s) -> filter Confirm.is_unavailable rows = [].
Proof.
  intros H. apply filter_none. intros s Hs.
  unfold Confirm.is_unavailable. destruct (H s Hs) as [E | E]; now rewrite E.
Qed.

Lemma the_show_counter (sh : string) (show : Show) (n : Z) (t : list Show) :
  filter (fun s => (show_key s =? sh)%string) t = [show] ->
  shows_after sh (available_seats show) n t
  = map (fun s => if (show_key s =? sh)%string
                  then mkShow (show_key s) (title s) (ensemble_title s)
                              (show_datetime s) (available_seats s - n) (venue s)
                  else s)
        t.
Proof.
  intros E. unfold shows_after. apply map_ext_in. intros s Hs.
  destruct (show_key s =? sh)%string eqn:Ek; [| reflexivity].
  assert (Hin : In s (filter (fun s => (show_key s =? sh)%string) t))
    by (apply filter_In; auto).
  rewrite E in Hin. destruct Hin as [<- | []]. reflexivity.
Qed.

(** The run of a confirm request that passes every check, with the store
    carrying out every call. *)
Lemma confirm_goes_through (env : Env) (st : Store) (body : Confirm.RequestBody)
      (ids : list string) :
  quiet env -> no_faults env ->
  reaches_seat_check env st body ids ->
  (forall s, In s (confirm_rows st ids) -> bookable s) ->
  ~ In (new_booking_id env) (map booking_id (bookings st)) ->
  exists sh cn ce ta uid show (w : World) (b : Booking) (a : EmailArgs),
    Confirm.showId body = Some sh /\
    Confirm.customerName body = Some cn /\
    Confirm.customerEmail body = Some ce /\
    Confirm.totalAmount body = Some ta /\
    current_user env = Some uid /\
    filter (fun s => (show_key s =? sh)%string) (shows st) = [show] /\
    Confirm.POST env (Some body) st
    = (json (BBooked (new_booking_id env) (generateBookingReference env)
                     (fst (Confirm.email_result (sendTicketEmail env a)))
                     (snd (Confirm.email_result (sendTicketEmail env a)))), w) /\
    seats (db w) = write_seats (mkFilter ids None None) Confirm.sold_patch (seats st) /\
    shows (db w) = shows_after sh (available_seats show) (len ids) (shows st) /\
    discount_codes (db w) = codes_after (Confirm.discountCode body) (discount_codes st) /\
    bookings (db w) = (bookings st ++ [b])%list /\
    b = mkBooking (new_booking_id env) uid sh ids ta (generateBookingReference env)
                  (mkQr (new_booking_id env) (generateBookingReference env) sh
                     (or_default (title show)
                                 (or_default (ensemble_title show) "Forestilling"))
                     (show_datetime show) cn
                     (map (fun s => mkSummary (section s) (row s) (number s))
                          (confirm_rows st ids)))
                  cn ce
                  (Confirm.or_null (Confirm.customerPhone body))
                  (Confirm.or_null (Confirm.specialRequests body))
                  "confirmed" (now_at_insert env)
                  (fst (Confirm.email_result (sendTicketEmail env a)))
                  (Confirm.or_null (Confirm.discountCode body)) /\
    a = Confirm.email_args cn ce (generateBookingReference env)
          (or_default (title show) (or_default (ensemble_title show) "Forestilling"))
          show (confirm_rows st ids) ta (qr_code_data b) /\
    In (EmailCall a (sendTicketEmail env a)) (issued w).
Proof.
  intros Hq Hf Hreach Hrows Hfresh.
  destruct (confirm_reaches_book env st body ids Hq Hreach (bookable_none _ Hrows))
    as (sh & cn & ce & ta & uid & show & Esh & Ecn & Ece & Eta & _ & Eu & Eshow & Erun).
  destruct (book_goes_through env body uid sh ids cn ce ta show (confirm_rows st ids) st
                              Hq Hf Hfresh)
    as (w & b & a & Ebook & Hseats & Hshows & Hcodes & Hbk & Eb & Ea & Hmail).
  exists sh, cn, ce, ta, uid, show, w, b, a.
  rewrite Erun, Ebook. repeat (split; [assumption || reflexivity |]). assumption.
Qed.

(** X10. A confirm request that passes the checks, with every requested
    seat reserved or available and the store carrying out every call, is
    answered 200 with the key of the new booking and the booking reference;
    every requested seat is sold with no hold and every other seat is as it
    was; one booking is added: of the signed-in user, for the show, the seats
    and the total of the request, confirmed at the clock reading, with
    [ticket_sent] as the e-mail went and the ticket payload carrying the
    booking id and the seats. *)
Theorem confirm_sells_the_seats
        (env : Env) (st : Store) (body : Confirm.RequestBody) (ids : list string) :
  quiet env -> no_faults env ->
  reaches_seat_check env st body ids ->
  (forall s, In s (confirm_rows st ids) ->
             status s = Some "reserved" \/ status s = Some "available") ->
  ~ In (new_booking_id env) (map booking_id (bookings st)) ->
  exists emailSent emailError b,
    fst (Confirm.POST env (Some body) st)
    = json (BBooked (new_booking_id env) (generateBookingReference env)
                    emailSent emailError) /\
    seats (db (snd (Confirm.POST env (Some body) st)))
    = write_seats (mkFilter ids None None) (mkPatch "sold" None) (seats st) /\
    bookings (db (snd (Confirm.POST env (Some body) st))) = (bookings st ++ [b])%list /\
    booking_id b = new_booking_id env /\
    Some (user_id b) = current_user env /\
    Some (booking_show_id b) = Confirm.showId body /\
    seat_ids b = ids /\
    Some (total_amount_nok b) = Confirm.totalAmount body /\
    booking_reference b = generateBookingReference env /\
    booking_status b = "confirmed" /\
    confirmed_at b = now_at_insert env /\
    ticket_sent b = emailSent /\
    qr_booking_id (qr_code_data b) = new_booking_id env /\
    qr_seats (qr_code_data b)
    = map (fun s => mkSummary (section s) (row s) (number s)) (confirm_rows st ids).
Proof.
  intros Hq Hf Hreach Hrows Hfresh.
  destruct (confirm_goes_through env st body ids Hq Hf Hreach Hrows Hfresh)
    as (sh & cn & ce & ta & uid & show & w & b & a & Esh & Ecn & Ece & Eta & Eu & Eshow
        & Erun & Hseats & Hshows & Hcodes & Hbk & Eb & Ea & Hmail).
  rewrite Erun. cbn [fst snd].
  exists (fst (Confirm.email_result (sendTicketEmail env a))),
         (snd (Confirm.email_result (sendTicketEmail env a))), b.
  split; [reflexivity |]. split; [exact Hseats |]. split; [exact Hbk |].
  rewrite Eb at 1 2 3 4 5 6 7 8 9. cbn [booking_id user_id booking_show_id seat_ids
    total_amount_nok booking_reference booking_status confirmed_at ticket_sent].
  rewrite Eu, Esh, Eta.
  repeat (split; [reflexivity |]).
  rewrite Eb. split; reflexivity.
Qed.

(** X11. Such a confirm request lowers [available_seats] of the show of the
    request by the number of requested seats, to whatever that gives (there
    is no floor at zero), and leaves the other shows as they were. *)
Theorem confirm_decrements_available_seats
        (env : Env) (st : Store) (body : Confirm.RequestBody) (ids : list string)
        (sh : string) :
  quiet env -> no_faults env ->
  reaches_seat_check env st body ids ->
  Confirm.showId body = Some sh ->
  (forall s, In s (confirm_rows st ids) ->
             status s = Some "reserved" \/ status s = Some "available") ->
  ~ In (new_booking_id env) (map booking_id (bookings st)) ->
  shows (db (snd (Confirm.POST env (Some body) st)))
  = map (fun s => if (show_key s =? sh)%string
                  then mkShow (show_key s) (title s) (ensemble_title s)
                              (show_datetime s) (available_seats s - len ids) (venue s)
                  else s)
        (shows st).
Proof.
  intros Hq Hf Hreach Esh0 Hrows Hfresh.
  destruct (confirm_goes_through env st body ids Hq Hf Hreach Hrows Hfresh)
    as (sh' & cn & ce & ta & uid & show & w & b & a & Esh & Ecn & Ece & Eta & Eu & Eshow
        & Erun & Hseats & Hshows & Hcodes & Hbk & Eb & Ea & Hmail).
  rewrite Esh0 in Esh. injection Esh as <-.
  rewrite Erun. cbn [snd]. rewrite Hshows. now apply the_show_counter.
Qed.

(** X12. A discount code is counted, never checked.  Such a confirm
    request with a discount code is answered 200 and the booking records the
    code and the total of the request, whether or not the code exists; when
    exactly one row has the code, its use counter goes up by one (from zero
    when it was null), and when no row has it the discount codes are as they
    were. *)
Theorem confirm_records_discount_code
        (env : Env) (st : Store) (body : Confirm.RequestBody) (ids : list string)
        (dc : string) :
  quiet env -> no_faults env ->
  reaches_seat_check env st body ids ->
  Confirm.discountCode body = Some dc -> dc <> "" ->
  (forall s, In s (confirm_rows st ids) ->
             status s = Some "reserved" \/ status s = Some "available") ->
  ~ In (new_booking_id env) (map booking_id (bookings st)) ->
  let w := snd (Confirm.POST env (Some body) st) in
  http_status (fst (Confirm.POST env (Some body) st)) = 200 /\
  (exists b, bookings (db w) = (bookings st ++ [b])%list /\
             discount_code_used b = Some dc /\
             Some (total_amount_nok b) = Confirm.totalAmount body) /\
  (forall c, filter (fun d => (code d =? dc)%string) (discount_codes st) = [c] ->
             discount_codes (db w)
             = map (fun d => if (code_id d =? code_id c)%string
                             then mkCode (code_id d) (code d)
                                    (Some (match current_uses c with
                                           | Some n => n
                                           | None => 0
                                           end + 1))
                             else d)
                   (discount_codes st)) /\
  ((forall c, In c (discount_codes st) -> code c <> dc) ->
   discount_codes (db w) = discount_codes st).
Proof.
  intros Hq Hf Hreach Edc Hdc Hrows Hfresh.
  destruct (confirm_goes_through env st body ids Hq Hf Hreach Hrows Hfresh)
    as (sh' & cn & ce & ta & uid & show & w & b & a & Esh & Ecn & Ece & Eta & Eu & Eshow
        & Erun & Hseats & Hshows & Hcodes & Hbk & Eb & Ea & Hmail).
  rewrite Erun. cbn [fst snd]. split; [reflexivity |].
  assert (Et : truthy (Some dc) = true).
  { simpl. apply negb_true_iff. now apply String.eqb_neq. }
  split; [| split].
  - exists b. split; [exact Hbk |]. rewrite Eb.
    cbn [discount_code_used total_amount_nok]. rewrite Edc, Eta.
    unfold Confirm.or_null. now rewrite Et.
  - intros c Ec. rewrite Hcodes, Edc. unfold codes_after. rewrite Et.
    unfold or_default. apply String.eqb_neq in Hdc. rewrite Hdc, Ec. reflexivity.
  - intros Hnone. rewrite Hcodes, Edc. unfold codes_after. rewrite Et.
    unfold or_default. apply String.eqb_neq in Hdc. rewrite Hdc.
    rewrite (filter_none (fun d => (code d =? dc)%string) (discount_codes st)).
    + reflexivity.
    + intros c Hc. apply String.eqb_neq. now apply Hnone.
Qed.

(** *** The tables through a reserve request *)

Lemma reserve_table_cases (env : Env) (request : option Reserve.RequestBody) (st : Store)
      (r : Response) (w : World) :
  quiet env ->
  Reserve.POST env request st = (r, w) ->
  (shows (db w) = shows st /\ bookings (db w) = bookings st /\
   discount_codes (db w) = discount_codes st) /\
  exists ids sh until t1,
    (t1 = seats st \/
     t1 = write_seats (Reserve.by_ids (expired_ids env (requested_rows st ids sh)))
                      Reserve.available_patch (seats st)) /\
    (seats (db w) = t1 \/
     seats (db w) = write_seats (Reserve.reserve_filter ids sh)
                                (Reserve.reserve_patch until) t1 \/
     seats (db w)
     = write_seats
         (Reserve.by_ids
            (map id (map (patch (Reserve.reserve_patch until))
                         (filter (matches (Reserve.reserve_filter ids sh)) t1))))
         Reserve.available_patch
         (write_seats (Reserve.reserve_filter ids sh) (Reserve.reserve_patch until) t1)).
Proof.
  intros Hq Hrun.
  assert (Hnothing : forall w : World, mkWorld st [] = w ->
            (shows (db w) = shows st /\ bookings (db w) = bookings st /\
             discount_codes (db w) = discount_codes st) /\
            exists ids sh until t1,
              (t1 = seats st \/
               t1 = write_seats (Reserve.by_ids (expired_ids env (requested_rows st ids sh)))
                                Reserve.available_patch (seats st)) /\
              (seats (db w) = t1 \/
               seats (db w) = write_seats (Reserve.reserve_filter ids sh)
                                          (Reserve.reserve_patch until) t1 \/
               seats (db w)
               = write_seats
                   (Reserve.by_ids
                      (map id (map (patch (Reserve.reserve_patch until))
                                   (filter (matches (Reserve.reserve_filter ids sh)) t1))))
                   Reserve.available_patch
                   (write_seats (Reserve.reserve_filter ids sh)
                                (Reserve.reserve_patch until) t1))).
  { intros w' <-. split; [auto |]. exists [], "", 0%Z, (seats st). auto. }
  unfold Reserve.POST, run_handler, Reserve.handler in Hrun.
  destruct request as [body |]; [| inversion Hrun; now apply Hnothing].
  destruct (Reserve.seatIds body) as [ids |]; [| inversion Hrun; now apply Hnothing].
  destruct (Reserve.showId body) as [sh |]; [| inversion Hrun; now apply Hnothing].
  destruct (match ids with [] => true | _ :: _ => false end || (sh =? "")%string)%bool;
    [inversion Hrun; now apply Hnothing |].
  destruct (negb (service_role_key env)); [inversion Hrun; now apply Hnothing |].
  unfold bind at 1 in Hrun. unfold select_seats in Hrun.
  rewrite serve_quiet in Hrun by assumption.
  destruct (fault env CheckSeats); simpl in Hrun;
    [| inversion Hrun; now apply Hnothing ..].
  match type of Hrun with
  | context [(len ?a =? len ?b)%Z] => destruct (len a =? len b)%Z
  end; simpl in Hrun; [| inversion Hrun; now apply Hnothing].
  clear Hnothing.
  fold (requested_rows st ids sh) in Hrun.
  rewrite decide_unfold in Hrun.
  destruct (cleaned_other_tables env (expired_ids env (requested_rows st ids sh))
                                 (mkWorld st []) Hq) as (Hsh & Hbk & Hdc).
  pose proof (cleaned_seats env (expired_ids env (requested_rows st ids sh))
                            (mkWorld st []) Hq) as Ht1.
  set (w1 := cleaned env (expired_ids env (requested_rows st ids sh)) (mkWorld st [])) in *.
  simpl in Hsh, Hbk, Hdc, Ht1.
  assert (Hother : forall t l,
             shows (db (mkWorld (with_seats t (db w1)) l)) = shows st /\
             bookings (db (mkWorld (with_seats t (db w1)) l)) = bookings st /\
             discount_codes (db (mkWorld (with_seats t (db w1)) l)) = discount_codes st)
    by (intros; simpl; auto).
  destruct (0 <? len _)%Z in Hrun.
  { inversion Hrun; subst r w. split; [auto |].
    exists ids, sh, 0%Z, (seats (db w1)). split; [| now left].
    destruct Ht1 as [-> | ->]; auto. }
  unfold bind at 1 in Hrun. unfold update_seats in Hrun.
  rewrite serve_quiet in Hrun by assumption.
  destruct (fault env ReserveUpdate); simpl in Hrun.
  2,3: inversion Hrun; subst r w; (split; [simpl; auto |]);
       exists ids, sh, 0%Z, (seats (db w1)); (split; [| now left]);
       destruct Ht1 as [-> | ->]; auto.
  match type of Hrun with
  | context [(len ?a =? len ?b)%Z] => destruct (len a =? len b)%Z
  end; simpl in Hrun.
  - inversion Hrun; subst r w. split; [simpl; auto |].
    exists ids, sh, (now_at_hold env + Reserve.hold_window)%Z, (seats (db w1)).
    split; [destruct Ht1 as [-> | ->]; auto |]. right. left. reflexivity.
  - unfold bind at 1 in Hrun. unfold Reserve.rollback in Hrun.
    destruct (0 <? len _)%Z in Hrun.
    + unfold bind at 1 in Hrun. unfold update_seats in Hrun.
      rewrite serve_quiet in Hrun by assumption.
      destruct (fault env Rollback); simpl in Hrun; inversion Hrun; subst r w;
        (split; [simpl; auto |]);
        exists ids, sh, (now_at_hold env + Reserve.hold_window)%Z, (seats (db w1));
        (split; [destruct Ht1 as [-> | ->]; auto |]).
      * right. right. reflexivity.
      * right. left. reflexivity.
      * right. left. reflexivity.
    + simpl in Hrun. inversion Hrun; subst r w. split; [simpl; auto |].
      exists ids, sh, (now_at_hold env + Reserve.hold_window)%Z, (seats (db w1)).
      split; [destruct Ht1 as [-> | ->]; auto |]. right. left. reflexivity.
Qed.

(** A row that is not expired and not available is passed over by each of
    the three writes of the reserve handler. *)
Lemma reserve_passes_over (env : Env) (request : option Reserve.RequestBody) (st : Store)
      (s : Seat) :
  quiet env -> keyed st ->
  In s (seats st) ->
  Reserve.is_expired (now_at_check env) s = false ->
  status s <> Some "available" ->
  In s (seats (db (snd (Reserve.POST env request st)))).
Proof.
  intros Hq Hk Hs Hne Hna.
  destruct (Reserve.POST env request st) as [r w] eqn:Hrun. simpl.
  destruct (reserve_table_cases env request st r w Hq Hrun)
    as (_ & ids & sh & until & t1 & Ht1 & Hw).
  assert (Hs1 : In s t1).
  { destruct Ht1 as [-> | ->]; [assumption |].
    apply write_seats_keeps; [assumption |].
    rewrite matches_by_ids. destruct (mem (id s) _) eqn:Em; [| reflexivity].
    exfalso. apply mem_In in Em. unfold expired_ids in Em.
    apply in_map_iff in Em as (s' & Eid & Hs').
    apply filter_In in Hs' as [Hs' He]. apply filter_In in Hs' as [Hs' _].
    assert (s' = s) by (apply (keyed_same_row (seats st)); auto).
    subst s'. congruence. }
  assert (Hk1 : NoDup (map id t1)).
  { destruct Ht1 as [-> | ->]; [assumption | now rewrite write_seats_ids]. }
  assert (Hs2 : In s (write_seats (Reserve.reserve_filter ids sh)
                                  (Reserve.reserve_patch until) t1)).
  { apply write_seats_keeps; [assumption |].
    destruct (matches (Reserve.reserve_filter ids sh) s) eqn:Em; [| reflexivity].
    apply matches_reserve_status in Em. congruence. }
  destruct Hw as [-> | [-> | ->]]; [assumption | assumption |].
  apply write_seats_keeps; [assumption |].
  rewrite matches_by_ids. destruct (mem (id s) _) eqn:Em; [| reflexivity].
  exfalso. apply mem_In in Em. rewrite map_map in Em. simpl in Em.
  apply in_map_iff in Em as (s' & Eid & Hs').
  apply filter_In in Hs' as [Hs' Hm].
  assert (s' = s) by (apply (keyed_same_row t1); auto).
  subst s'. apply matches_reserve_status in Hm. congruence.
Qed.

(** *** Seats that can no longer be booked *)

Lemma sold_not_expired (now : Z) (s : Seat) :
  sold_or_blocked s ->
  Reserve.is_expired now s = false /\ status s <> Some "available".
Proof.
  intros [E | E]; unfold Reserve.is_expired, Reserve.classify; rewrite E; simpl;
    split; congruence.
Qed.

Lemma confirm_needs_bookable_rows (env : Env) (body : Confirm.RequestBody) (st : Store)
      (ids : list string) (r : Response) (w : World) :
  quiet env ->
  Confirm.POST env (Some body) st = (r, w) ->
  Confirm.seatIds body = Some ids ->
  ~ (length (confirm_rows st ids) = length ids /\
     filter Confirm.is_unavailable (confirm_rows st ids) = []) ->
  http_status r <> 200 /\ w = mkWorld st [].
Proof.
  intros Hq Hrun Eids Hno.
  apply confirm_structure in Hrun
    as [(E & Hr & Hdb) | (body' & sh & ids' & cn & ce & ta & uid & show & w0 & Eb & _ & Eids'
                          & _ & _ & _ & _ & _ & _ & Hdb & Hlen & Hnone & _)].
  - split; [assumption |].
    specialize (Hdb Hq). destruct w as [d i]. simpl in *. now subst.
  - exfalso. injection Eb as <-. rewrite Eids in Eids'. injection Eids' as <-.
    rewrite (Hdb Hq) in *. apply Hno. auto.
Qed.

Lemma requested_sold_row (st : Store) (ids : list string) (s : Seat) :
  In s (seats st) -> In (id s) ids -> sold_or_blocked s ->
  filter Confirm.is_unavailable (confirm_rows st ids) <> [].
Proof.
  intros Hs Hi Hsb E.
  assert (Hin : In s (filter Confirm.is_unavailable (confirm_rows st ids))).
  { apply filter_In. split; [| now apply sold_or_blocked_unavailable].
    apply filter_In. split; [assumption |].
    unfold matches. simpl. apply mem_In in Hi. now rewrite Hi. }
  rewrite E in Hin. contradiction.
Qed.

Lemma confirm_passes_over (env : Env) (request : option Confirm.RequestBody) (st : Store)
      (s : Seat) :
  quiet env -> In s (seats st) -> sold_or_blocked s ->
  In s (seats (db (snd (Confirm.POST env request st)))).
Proof.
  intros Hq Hs Hsb.
  destruct (Confirm.POST env request st) as [r w] eqn:Hrun. simpl.
  destruct (in_dec string_dec (id s) (confirm_ids request)) as [Hi | Hi].
  - destruct request as [body |]; [| contradiction].
    unfold confirm_ids in Hi.
    destruct (Confirm.seatIds body) as [ids |] eqn:Eids; [| contradiction].
    assert (Hno : ~ (length (confirm_rows st ids) = length ids /\
                     filter Confirm.is_unavailable (confirm_rows st ids) = [])).
    { intros [_ Hnone]. now apply (requested_sold_row st ids s Hs Hi Hsb). }
    destruct (confirm_needs_bookable_rows env body st ids r w Hq Hrun Eids Hno) as [_ ->].
    exact Hs.
  - destruct (confirm_seats env request st r w Hq Hrun) as ([E | E] & _); rewrite E;
      [assumption |].
    apply write_seats_keeps; [assumption |].
    destruct (matches (mkFilter (confirm_ids request) None None) s) eqn:Em; [| reflexivity].
    apply matches_id in Em. contradiction.
Qed.

(** X9. A seat that is sold or blocked is never changed by a reserve or a
    confirm request, whatever the request and whatever the store answers (no
    other request writing, ids being keys). *)
Theorem sold_seat_is_final (env : Env) (st : Store) (s : Seat) :
  quiet env -> keyed st ->
  In s (seats st) ->
  status s = Some "sold" \/ status s = Some "blocked" ->
  (forall request, In s (seats (db (snd (Reserve.POST env request st))))) /\
  (forall request, In s (seats (db (snd (Confirm.POST env request st))))).
Proof.
  intros Hq Hk Hs Hsb. split; intros request.
  - destruct (sold_not_expired (now_at_check env) s Hsb) as [He Hna].
    now apply reserve_passes_over.
  - now apply confirm_passes_over.
Qed.

(** *** One request after another *)

Lemma reserve_conflict_run (env : Env) (st : Store) (body : Reserve.RequestBody)
      (ids : list string) (sh : string) (s : Seat) :
  quiet env -> reaches_status_check env st body ids sh ->
  In s (requested_rows st ids sh) ->
  Reserve.is_unavailable (now_at_check env) s = true ->
  exists msg unavailable,
    fst (Reserve.POST env (Some body) st) = json_status (BUnavailable msg unavailable) 409 /\
    In (id s) unavailable /\
    forall e, In e (issued (snd (Reserve.POST env (Some body) st))) ->
              sets_reserved e = false.
Proof.
  intros Hq Hreach Hs Hun.
  assert (Hin : In s (unavailable_rows env (requested_rows st ids sh)))
    by (apply filter_In; auto).
  rewrite (reserve_reaches_decide env st body ids sh Hq Hreach).
  unfold run_handler, answer. rewrite decide_unfold.
  assert (Hne : (0 <? len (unavailable_rows env (requested_rows st ids sh)))%Z = true).
  { apply len_pos_iff. intros E. rewrite E in Hin. contradiction. }
  rewrite Hne. unfold respond. simpl.
  do 2 eexists. split; [reflexivity |]. split; [now apply in_map |].
  intros e He.
  destruct (cleaned_issued env (expired_ids env (requested_rows st ids sh))
                           (mkWorld st [])) as [E | [c E]];
    rewrite E in He; simpl in He; [contradiction |].
  destruct He as [<- | []]. reflexivity.
Qed.

(** The rows of the seats a confirm request sold. *)
Lemma sold_rows (ids : list string) (t : list Seat) (s : Seat) :
  In s (write_seats (mkFilter ids None None) Confirm.sold_patch t) ->
  In (id s) ids -> status s = Some "sold".
Proof.
  intros Hs Hi. now destruct (write_by_ids_status ids Confirm.sold_patch t s Hs Hi).
Qed.

Lemma confirm_sold_table (env : Env) (request : option Confirm.RequestBody) (st : Store)
      (r : Response) (w : World) :
  quiet env -> fault env SellSeats = NoFault ->
  Confirm.POST env request st = (r, w) -> http_status r = 200 ->
  seats (db w)
  = write_seats (mkFilter (confirm_ids request) None None) Confirm.sold_patch (seats st).
Proof.
  intros Hq Hsell Hrun Hok.
  destruct (confirm_seats env request st r w Hq Hrun) as (_ & H).
  destruct (H Hok Hsell) as (body & ids & -> & Eids & E).
  unfold confirm_ids. now rewrite Eids.
Qed.

(** X13. After a confirm request was answered 200 (the store carrying out
    the sale), a reserve request that names one of its seats is answered 409,
    at any later time, with that seat among [unavailableSeatIds], and sets no
    seat to reserved. *)
Theorem reserve_after_confirm_conflicts
        (env1 env2 : Env) (st : Store) (request1 : option Confirm.RequestBody)
        (body2 : Reserve.RequestBody) (ids2 : list string) (sh2 : string)
        (r1 : Response) (w1 : World) (i : string) :
  quiet env1 -> keyed st -> fault env1 SellSeats = NoFault ->
  Confirm.POST env1 request1 st = (r1, w1) ->
  http_status r1 = 200 ->
  quiet env2 ->
  reaches_status_check env2 (db w1) body2 ids2 sh2 ->
  In i (confirm_ids request1) -> In i ids2 ->
  exists msg unavailable,
    fst (Reserve.POST env2 (Some body2) (db w1))
    = json_status (BUnavailable msg unavailable) 409 /\
    In i unavailable /\
    forall e, In e (issued (snd (Reserve.POST env2 (Some body2) (db w1)))) ->
              sets_reserved e = false.
Proof.
  intros Hq1 Hk Hsell Hrun1 Hok Hq2 Hreach2 Hi1 Hi2.
  pose proof (confirm_sold_table env1 request1 st r1 w1 Hq1 Hsell Hrun1 Hok) as Ht.
  assert (Hk1 : NoDup (map id (seats (db w1))))
    by (rewrite Ht, write_seats_ids; exact Hk).
  pose proof Hreach2 as (_ & _ & _ & _ & _ & Hlen2).
  destruct (full_answer_covers (Reserve.check_filter ids2 sh2) (seats (db w1)) Hk1 Hlen2
                               i Hi2) as (s2 & Hs2 & Eid2 & Hm2).
  assert (Hsold : status s2 = Some "sold").
  { apply (sold_rows (confirm_ids request1) (seats st)); [now rewrite <- Ht |].
    now rewrite Eid2. }
  destruct (reserve_conflict_run env2 (db w1) body2 ids2 sh2 s2 Hq2 Hreach2)
    as (msg & unavailable & E & Hin & Hlog).
  - apply filter_In. auto.
  - unfold Reserve.is_unavailable, Reserve.classify. now rewrite Hsold.
  - exists msg, unavailable. rewrite Eid2 in Hin. auto.
Qed.

(** X14. No double booking.  After a confirm request was answered 200 (the
    store carrying out the sale), a confirm request that names one of its
    seats is rejected and writes nothing; when it gets to the status check
    the answer is 400 with the count of seats already sold or blocked. *)
Theorem confirm_twice_rejected
        (env1 env2 : Env) (st : Store) (request1 : option Confirm.RequestBody)
        (body2 : Confirm.RequestBody) (ids2 : list string)
        (r1 : Response) (w1 : World) (i : string) :
  quiet env1 -> keyed st -> fault env1 SellSeats = NoFault ->
  Confirm.POST env1 request1 st = (r1, w1) ->
  http_status r1 = 200 ->
  quiet env2 ->
  Confirm.seatIds body2 = Some ids2 ->
  In i (confirm_ids request1) -> In i ids2 ->
  http_status (fst (Confirm.POST env2 (Some body2) (db w1))) <> 200 /\
  snd (Confirm.POST env2 (Some body2) (db w1)) = mkWorld (db w1) [] /\
  (reaches_seat_check env2 (db w1) body2 ids2 ->
   fst (Confirm.POST env2 (Some body2) (db w1))
   = json_status (BError (rejection_message (confirm_rows (db w1) ids2))) 400).
Proof.
  intros Hq1 Hk Hsell Hrun1 Hok Hq2 Eids2 Hi1 Hi2.
  pose proof (confirm_sold_table env1 request1 st r1 w1 Hq1 Hsell Hrun1 Hok) as Ht.
  assert (Hk1 : NoDup (map id (seats (db w1))))
    by (rewrite Ht, write_seats_ids; exact Hk).
  assert (Hne : length (confirm_rows (db w1) ids2) = length ids2 ->
                filter Confirm.is_unavailable (confirm_rows (db w1) ids2) <> []).
  { intros Hlen.
    destruct (full_answer_covers (mkFilter ids2 None None) (seats (db w1)) Hk1 Hlen i Hi2)
      as (s2 & Hs2 & Eid2 & _).
    apply (requested_sold_row (db w1) ids2 s2 Hs2); [now rewrite Eid2 |].
    left. apply (sold_rows (confirm_ids request1) (seats st)); [now rewrite <- Ht |].
    now rewrite Eid2. }
  destruct (Confirm.POST env2 (Some body2) (db w1)) as [r2 w2] eqn:Hrun2.
  cbn [fst snd].
  assert (Hno : ~ (length (confirm_rows (db w1) ids2) = length ids2 /\
                   filter Confirm.is_unavailable (confirm_rows (db w1) ids2) = [])).
  { intros [Hlen Hnone]. now apply (Hne Hlen). }
  destruct (confirm_needs_bookable_rows env2 body2 (db w1) ids2 r2 w2 Hq2 Hrun2 Eids2 Hno)
    as [Hbad ->].
  split; [assumption |]. split; [reflexivity |].
  intros Hreach.
  assert (Hlen : length (confirm_rows (db w1) ids2) = length ids2) by apply Hreach.
  rewrite (confirm_rejects_at_seat_check env2 (db w1) body2 ids2 Hq2 Hreach (Hne Hlen))
    in Hrun2.
  now inversion Hrun2.
Qed.



(** X16. A confirm request of a caller who is not signed in reads and
    writes nothing, whatever the store would answer: the answer is 401 when
    the request is well formed, and 400 or 500 otherwise. *)
Theorem confirm_requires_sign_in
        (env : Env) (request : option Confirm.RequestBody) (st : Store) :
  truthy (current_user env) = false ->
  snd (Confirm.POST env request st) = mkWorld st [] /\
  (http_status (fst (Confirm.POST env request st)) = 400 \/
   http_status (fst (Confirm.POST env request st)) = 401 \/
   http_status (fst (Confirm.POST env request st)) = 500) /\
  (forall body, request = Some body -> confirm_valid body = true ->
                fst (Confirm.POST env request st) = Confirm.not_signed_in).
Proof.
  intros Hu.
  unfold Confirm.POST, run_handler, Confirm.handler, confirm_valid.
  destruct request as [body |];
    [| simpl; split; [reflexivity |]; split; [auto | intros; discriminate]].
  assert (Hinv : forall r : Response,
             (truthy (Confirm.showId body)
              && match Confirm.seatIds body with Some (_ :: _) => true | _ => false end
              && truthy (Confirm.customerName body)
              && truthy (Confirm.customerEmail body)
              && match Confirm.totalAmount body with
                 | Some t => (0 <? t)%Z
                 | None => false
                 end)%bool = false ->
             forall b, Some body = Some b ->
                       (truthy (Confirm.showId b)
                        && match Confirm.seatIds b with Some (_ :: _) => true | _ => false end
                        && truthy (Confirm.customerName b)
                        && truthy (Confirm.customerEmail b)
                        && match Confirm.totalAmount b with
                           | Some t => (0 <? t)%Z
                           | None => false
                           end)%bool = true ->
                       r = Confirm.not_signed_in).
  { intros r E b Eb H. injection Eb as <-. congruence. }
  destruct (Confirm.showId body) as [sh |];
    [| simpl; split; [reflexivity |]; split; [auto | now apply Hinv]].
  destruct (Confirm.seatIds body) as [ids |];
    [| simpl; split; [reflexivity |]; split; [auto |];
       apply Hinv; now rewrite andb_false_r].
  destruct (Confirm.customerName body) as [cn |];
    [| simpl; split; [reflexivity |]; split; [auto |];
       apply Hinv; simpl; now rewrite !andb_false_r].
  destruct (Confirm.customerEmail body) as [ce |];
    [| simpl; split; [reflexivity |]; split; [auto |];
       apply Hinv; simpl; now rewrite !andb_false_r].
  destruct (Confirm.totalAmount body) as [ta |];
    [| simpl; split; [reflexivity |]; split; [auto |];
       apply Hinv; simpl; now rewrite !andb_false_r].
  destruct ((sh =? "")%string
            || match ids with [] => true | _ :: _ => false end
            || (cn =? "")%string || (ce =? "")%string || (ta <=? 0)%Z)%bool eqn:Ev.
  { simpl. split; [reflexivity |]. split; [auto |]. apply Hinv.
    simpl. destruct (sh =? "")%string; [reflexivity |].
    destruct ids; [reflexivity |].
    destruct (cn =? "")%string; [reflexivity |].
    destruct (ce =? "")%string; [reflexivity |].
    simpl in *. apply Z.leb_le in Ev. apply Z.ltb_ge. lia. }
  destruct (current_user env) as [uid |]; simpl in Hu.
  - apply negb_false_iff in Hu. rewrite Hu. simpl. auto.
  - simpl. auto.
Qed.

(* ===================================================================== *)
(** ** The booking page: properties                                      *)
(* ===================================================================== *)

(** *** Row labels *)

Lemma norm_not_nil (d : Decimal.signed_int) :
  Decimal.norm d <> Decimal.Pos Decimal.Nil /\ Decimal.norm d <> Decimal.Neg Decimal.Nil.
Proof.
  destruct d as [u | u]; simpl.
  - unfold Decimal.unorm. destruct (Decimal.nzhead u); split; discriminate.
  - destruct (Decimal.nzhead u); split; discriminate.
Qed.

Lemma string_of_Z_inj (a b : Z) : string_of_Z a = string_of_Z b -> a = b.
Proof.
  unfold string_of_Z. intros E.
  assert (Hn : forall z, Z.to_int z = Decimal.norm (Z.to_int z)).
  { intros z. rewrite <- (DecimalZ.to_of (Z.to_int z)). now rewrite DecimalZ.of_to. }
  assert (Hisi : forall z, NilZero.int_of_string (NilZero.string_of_int (Z.to_int z))
                           = Some (Z.to_int z)).
  { intros z. apply NilZero.isi; rewrite (Hn z); apply norm_not_nil. }
  apply DecimalZ.to_int_inj.
  pose proof (Hisi a) as Ha. rewrite E, (Hisi b) in Ha. now injection Ha.
Qed.

Lemma string_of_Z_nonempty (z : Z) : string_of_Z z <> "".
Proof.
  unfold string_of_Z. intros E.
  assert (Hn : Z.to_int z = Decimal.norm (Z.to_int z)).
  { rewrite <- (DecimalZ.to_of (Z.to_int z)). now rewrite DecimalZ.of_to. }
  pose proof (NilZero.isi (Z.to_int z)) as H.
  rewrite E in H.
  destruct (norm_not_nil (Z.to_int z)) as [H1 H2]. rewrite <- Hn in H1, H2.
  specialize (H H1 H2). cbv in H. congruence.
Qed.

Lemma rowLabel_letter (r : nat) :
  (r < 26)%nat -> Bestill.rowLabel r = String (ascii_of_nat (65 + r)) EmptyString.
Proof.
  intros H. do 26 (destruct r as [| r]; [reflexivity |]). lia.
Qed.

Lemma rowLabel_beyond (r : nat) :
  (26 <= r)%nat -> Bestill.rowLabel r = "R" ++ string_of_Z (Z.of_nat r + 1).
Proof.
  intros H. do 26 (destruct r as [| r]; [lia |]).
  unfold Bestill.rowLabel. simpl String.get. now destruct r.
Qed.

Lemma rowLabel_inj (r1 r2 : nat) :
  Bestill.rowLabel r1 = Bestill.rowLabel r2 -> r1 = r2.
Proof.
  intros E.
  destruct (Nat.lt_ge_cases r1 26) as [H1 | H1], (Nat.lt_ge_cases r2 26) as [H2 | H2].
  - rewrite (rowLabel_letter r1 H1), (rowLabel_letter r2 H2) in E.
    assert (E' : ascii_of_nat (65 + r1) = ascii_of_nat (65 + r2)) by congruence.
    apply (f_equal nat_of_ascii) in E'.
    rewrite !nat_ascii_embedding in E' by lia. lia.
  - rewrite (rowLabel_letter r1 H1), (rowLabel_beyond r2 H2) in E.
    simpl in E. injection E as _ E. symmetry in E.
    now apply string_of_Z_nonempty in E.
  - rewrite (rowLabel_beyond r1 H1), (rowLabel_letter r2 H2) in E.
    simpl in E. injection E as _ E.
    now apply string_of_Z_nonempty in E.
  - rewrite (rowLabel_beyond r1 H1), (rowLabel_beyond r2 H2) in E.
    simpl in E. injection E as E. apply string_of_Z_inj in E. lia.
Qed.

(** *** The rows of an insert *)

Lemma stored_length (c : Bestill.Client) (l : list Bestill.NewSeat) (n : nat) :
  length (Bestill.stored c n l) = length l.
Proof.
  revert n. induction l as [| d l IH]; intros n; simpl; [reflexivity |].
  now rewrite IH.
Qed.

Lemma stored_ids (c : Bestill.Client) (l : list Bestill.NewSeat) (n : nat) :
  map id (Bestill.stored c n l) = map (Bestill.new_seat_id c) (seq n (length l)).
Proof.
  revert n. induction l as [| d l IH]; intros n; simpl; [reflexivity |].
  now rewrite IH.
Qed.

Lemma stored_In (c : Bestill.Client) (l : list Bestill.NewSeat) (n : nat) (s : Seat) :
  In s (Bestill.stored c n l) ->
  exists d, In d l /\
            show_id s = Bestill.new_show_id d /\ section s = Bestill.new_section d /\
            row s = Bestill.new_row d /\ number s = Bestill.new_number d /\
            price_nok s = Bestill.new_price_nok d /\
            status s = Some (Bestill.new_status d) /\ reserved_until s = None.
Proof.
  revert n. induction l as [| d l IH]; intros n Hs; simpl in Hs; [contradiction |].
  destruct Hs as [<- | Hs].
  - exists d. simpl. repeat split; auto.
  - destruct (IH _ Hs) as (d' & Hd' & H). exists d'. split; [now right | exact H].
Qed.

Lemma stored_places (c : Bestill.Client) (l : list Bestill.NewSeat) (n : nat) :
  map (fun s => (row s, number s)) (Bestill.stored c n l)
  = map (fun d => (Bestill.new_row d, Bestill.new_number d)) l.
Proof.
  revert n. induction l as [| d l IH]; intros n; simpl; [reflexivity |].
  now rewrite IH.
Qed.

(** *** The seats of a hall of [R] rows of [N] seats *)

Lemma NoDup_map_injective {A B : Type} (f : A -> B) (l : list A) :
  (forall a b, f a = f b -> a = b) -> NoDup l -> NoDup (map f l).
Proof.
  intros Hinj H. induction H as [| a l Hnotin H IH]; simpl; constructor; [| exact IH].
  intros Hin. apply in_map_iff in Hin as (b & E & Hb).
  apply Hinj in E. subst b. contradiction.
Qed.

Lemma from_one_to_In (n x : Z) :
  In x (Bestill.from_one_to n) <-> (1 <= x <= n)%Z.
Proof.
  unfold Bestill.from_one_to. rewrite in_map_iff. split.
  - intros (k & <- & Hk). apply in_seq in Hk. lia.
  - intros H. exists (Z.to_nat x). split; [lia |]. apply in_seq. lia.
Qed.

Lemma from_one_to_NoDup (n : Z) : NoDup (Bestill.from_one_to n).
Proof.
  unfold Bestill.from_one_to. apply NoDup_map_injective.
  - intros a b E. lia.
  - apply seq_NoDup.
Qed.

Lemma from_one_to_length (n : Z) : length (Bestill.from_one_to n) = Z.to_nat n.
Proof.
  unfold Bestill.from_one_to. now rewrite length_map, length_seq.
Qed.

Lemma grid_length {A B C : Type} (f : A -> B -> C) (la : list A) (lb : list B) :
  length (flat_map (fun a => map (f a) lb) la) = (length la * length lb)%nat.
Proof.
  induction la as [| a la IH]; simpl; [reflexivity |].
  now rewrite length_app, length_map, IH.
Qed.

Lemma grid_NoDup {A B C : Type} (f : A -> B -> C) (la : list A) (lb : list B) :
  (forall a b a' b', f a b = f a' b' -> a = a' /\ b = b') ->
  NoDup la -> NoDup lb ->
  NoDup (flat_map (fun a => map (f a) lb) la).
Proof.
  intros Hinj Ha Hb. induction Ha as [| a la Hnotin Ha IH]; simpl; [constructor |].
  apply NoDup_app.
  - apply NoDup_map_injective; [| assumption].
    intros b b' E. now destruct (Hinj _ _ _ _ E).
  - exact IH.
  - intros x Hx Hx'. apply in_map_iff in Hx as (b & <- & _).
    apply in_flat_map in Hx' as (a' & Ha' & Hx').
    apply in_map_iff in Hx' as (b' & E & _).
    destruct (Hinj _ _ _ _ E) as [-> _]. contradiction.
Qed.

Lemma hall_seats (showId : string) (price R N : Z) (cfg : Bestill.SeatMapConfig) :
  Bestill.sections cfg = None ->
  Bestill.rows cfg = Some R -> Bestill.seatsPerRow cfg = Some N ->
  (0 < R)%Z -> (0 < N)%Z ->
  let l := Bestill.seatsToCreate showId price cfg in
  length l = (Z.to_nat R * Z.to_nat N)%nat /\
  (forall d, In d l ->
             Bestill.new_show_id d = showId /\ Bestill.new_section d = "Hovedsal" /\
             Bestill.new_price_nok d = price /\ Bestill.new_status d = "available" /\
             (1 <= Bestill.new_number d <= N)%Z /\
             exists r, (r < Z.to_nat R)%nat /\ Bestill.new_row d = Bestill.rowLabel r) /\
  NoDup (map (fun d => (Bestill.new_row d, Bestill.new_number d)) l).
Proof.
  intros Es Er En HR HN. unfold Bestill.seatsToCreate. rewrite Es, Er, En.
  assert (E0 : ((R =? 0)%Z || (N =? 0)%Z)%bool = false).
  { apply orb_false_iff. split; apply Z.eqb_neq; lia. }
  rewrite E0. cbv zeta. split; [| split].
  - now rewrite grid_length, length_seq, from_one_to_length.
  - intros d Hd. apply in_flat_map in Hd as (r & Hr & Hd).
    apply in_map_iff in Hd as (s & <- & Hs). simpl.
    apply in_seq in Hr. apply from_one_to_In in Hs.
    repeat split; try lia. exists r. split; [lia | reflexivity].
  - rewrite flat_map_concat_map, concat_map, map_map.
    rewrite <- flat_map_concat_map.
    erewrite flat_map_ext by (intros r; rewrite map_map; simpl; reflexivity).
    apply (grid_NoDup (fun r s => (Bestill.rowLabel r, s))).
    + intros a b a' b' E. injection E as E1 E2. split; [now apply rowLabel_inj | assumption].
    + apply seq_NoDup.
    + apply from_one_to_NoDup.
Qed.

(** *** One page load *)

Lemma load_undisturbed {A : Type} (c : Bestill.Client) (site : Bestill.Call)
      (read : Bestill.Tables -> option A) (t : Bestill.Tables) :
  Bestill.undisturbed c -> Bestill.load c site read t = (Bestill.Value (read t), t).
Proof.
  intros [Hq Hf]. unfold Bestill.load. now rewrite Hq, Hf.
Qed.

Lemma filter_show_app (showId : string) (old new : list Seat) :
  (forall s, In s old -> show_id s <> showId) ->
  (forall s, In s new -> show_id s = showId) ->
  filter (fun s => (show_id s =? showId)%string) (old ++ new) = new.
Proof.
  intros Hold Hnew. rewrite filter_app.
  rewrite (filter_none (fun s => (show_id s =? showId)%string) old)
    by (intros s Hs; apply String.eqb_neq; now apply Hold).
  simpl. induction new as [| s new IH]; simpl; [reflexivity |].
  rewrite (proj2 (String.eqb_eq _ _) (Hnew s (or_introl eq_refl))).
  f_equal. apply IH. intros x Hx. apply Hnew. now right.
Qed.

(** The load of a page whose show has no seat yet, step by step. *)
Lemma getShowData_run (c : Bestill.Client) (showId : string) (t : Bestill.Tables) :
  Bestill.undisturbed c ->
  Bestill.getShowData c showId t
  = match Bestill.the_show showId t with
    | None => (Bestill.Value None, t)
    | Some sh =>
        let seats := filter (fun s => (show_id s =? showId)%string) (Bestill.seat_rows t) in
        let l := match Bestill.seat_map_config sh with
                 | Some cfg => Bestill.seatsToCreate showId (Bestill.base_price_nok sh) cfg
                 | None => []
                 end in
        match seats, l with
        | [], _ :: _ =>
            (Bestill.Value
               (Some (sh, filter (fun s => (show_id s =? showId)%string)
                                 (Bestill.seat_rows t ++ Bestill.stored c 0 l))),
             Bestill.mkTables (Bestill.show_rows t)
                              (Bestill.seat_rows t ++ Bestill.stored c 0 l))
        | _, _ => (Bestill.Value (Some (sh, seats)), t)
        end
    end.
Proof.
  intros Hu. pose proof Hu as [Hq Hf].
  unfold Bestill.getShowData, Bestill.then_.
  rewrite (load_undisturbed c Bestill.LoadShow _ t Hu).
  destruct (Bestill.the_show showId t) as [sh |]; [| reflexivity].
  rewrite (load_undisturbed c Bestill.LoadSeats _ t Hu).
  unfold Bestill.seats_of. cbv zeta.
  destruct (filter (fun s => (show_id s =? showId)%string) (Bestill.seat_rows t))
    as [| s0 seats] eqn:Eseats; simpl Bestill.none_yet; cbv iota.
  - destruct (Bestill.seat_map_config sh) as [cfg |]; [| reflexivity].
    destruct (Bestill.seatsToCreate showId (Bestill.base_price_nok sh) cfg)
      as [| d l] eqn:El.
    + reflexivity.
    + replace (0 <? len (d :: l))%Z with true
        by (symmetry; apply Z.ltb_lt; unfold len; simpl length; lia).
      unfold Bestill.insert_seats.
      change (Bestill.none_yet (Some (@nil Seat))) with true.
      cbv beta iota zeta. rewrite Hq, Hf.
      rewrite (load_undisturbed c Bestill.ReloadSeats _ _ Hu).
      reflexivity.
  - destruct (match Bestill.seat_map_config sh with
              | Some cfg => Bestill.seatsToCreate showId (Bestill.base_price_nok sh) cfg
              | None => []
              end); reflexivity.
Qed.

(** X17. The first load of the booking page of a show that has no seat,
    whose venue has a seat map of [R] rows of [N] seats (both positive, no
    [sections] key), creates the hall: [R * N] seats are added to the table
    and handed to the page, with the keys of the store, all of the show, in
    section "Hovedsal", available, with no hold, at the base price of the
    show, numbered 1 to [N] in rows labelled by [rowLabel], no two of them in
    the same place; the seats that were there stay as they are. *)
Theorem getShowData_creates_the_hall
        (c : Bestill.Client) (showId : string) (t : Bestill.Tables)
        (sh : Bestill.ShowRow) (cfg : Bestill.SeatMapConfig) (R N : Z) :
  Bestill.undisturbed c ->
  Bestill.the_show showId t = Some sh ->
  (forall s, In s (Bestill.seat_rows t) -> show_id s <> showId) ->
  Bestill.seat_map_config sh = Some cfg ->
  Bestill.sections cfg = None ->
  Bestill.rows cfg = Some R -> Bestill.seatsPerRow cfg = Some N ->
  (0 < R)%Z -> (0 < N)%Z ->
  exists created,
    Bestill.getShowData c showId t
    = (Bestill.Value (Some (sh, created)),
       Bestill.mkTables (Bestill.show_rows t) (Bestill.seat_rows t ++ created)) /\
    len created = (R * N)%Z /\
    map id created = map (Bestill.new_seat_id c) (seq 0 (Z.to_nat (R * N))) /\
    (forall s, In s created ->
               show_id s = showId /\ section s = "Hovedsal" /\
               price_nok s = Bestill.base_price_nok sh /\
               status s = Some "available" /\ reserved_until s = None /\
               (1 <= number s <= N)%Z /\
               exists r, (Z.of_nat r < R)%Z /\ row s = Bestill.rowLabel r) /\
    NoDup (map (fun s => (row s, number s)) created).
Proof.
  intros Hu Eshow Hnone Ecfg Es Er En HR HN.
  destruct (hall_seats showId (Bestill.base_price_nok sh) R N cfg Es Er En HR HN)
    as (Hlen & Hfields & Hplaces).
  set (l := Bestill.seatsToCreate showId (Bestill.base_price_nok sh) cfg) in *.
  assert (Hnew : forall s, In s (Bestill.stored c 0 l) -> show_id s = showId).
  { intros s Hs. apply stored_In in Hs as (d & Hd & E & _).
    rewrite E. now destruct (Hfields d Hd). }
  exists (Bestill.stored c 0 l). split; [| split; [| split; [| split]]].
  - rewrite (getShowData_run c showId t Hu), Eshow, Ecfg. cbv zeta. fold l.
    rewrite (filter_none (fun s => (show_id s =? showId)%string) (Bestill.seat_rows t))
      by (intros s Hs; apply String.eqb_neq; now apply Hnone).
    destruct l as [| d l'] eqn:El; [simpl in Hlen; lia |].
    rewrite (filter_show_app showId _ _ Hnone Hnew). reflexivity.
  - unfold len. rewrite stored_length, Hlen. lia.
  - rewrite stored_ids, Hlen. f_equal. f_equal. lia.
  - intros s Hs. apply stored_In in Hs as (d & Hd & E1 & E2 & E3 & E4 & E5 & E6 & E7).
    destruct (Hfields d Hd) as (F1 & F2 & F3 & F4 & F5 & r & Hr & F6).
    rewrite E1, E2, E3, E4, E5, E6, E7, F1, F2, F3, F4, F6.
    repeat split; try lia. exists r. split; [lia | reflexivity].
  - rewrite stored_places. exact Hplaces.
Qed.

(** X18. Loading the page again changes nothing (every call carried out,
    no other request writing): a second [getShowData] on the tables the first
    one left gives the same show and the same seats, and leaves the tables as
    they are; in particular the seats of a show are created once. *)
Theorem getShowData_is_idempotent
        (c c' : Bestill.Client) (showId : string) (t t' : Bestill.Tables)
        (data : option (Bestill.ShowRow * list Seat)) :
  Bestill.undisturbed c -> Bestill.undisturbed c' ->
  Bestill.getShowData c showId t = (Bestill.Value data, t') ->
  Bestill.getShowData c' showId t' = (Bestill.Value data, t').
Proof.
  intros Hu Hu' Hrun.
  rewrite (getShowData_run c showId t Hu) in Hrun.
  rewrite (getShowData_run c' showId t' Hu').
  destruct (Bestill.the_show showId t) as [sh |] eqn:Eshow.
  2:{ injection Hrun as Ed Et; subst data t'. now rewrite Eshow. }
  cbv zeta in Hrun.
  destruct (filter (fun s => (show_id s =? showId)%string) (Bestill.seat_rows t))
    as [| s0 seats] eqn:Eseats.
  - destruct (match Bestill.seat_map_config sh with
              | Some cfg => Bestill.seatsToCreate showId (Bestill.base_price_nok sh) cfg
              | None => []
              end) as [| d l] eqn:El.
    + injection Hrun as Ed Et; subst data t'. rewrite Eshow. cbv zeta. now rewrite Eseats, El.
    + remember (Bestill.stored c 0 (d :: l)) as created eqn:Ecreated.
      injection Hrun as Ed Et; subst data t'.
      assert (Eshow' : Bestill.the_show showId
                         (Bestill.mkTables (Bestill.show_rows t)
                            (Bestill.seat_rows t ++ created))
                       = Some sh) by exact Eshow.
      rewrite Eshow'. cbv zeta. cbn [Bestill.seat_rows].
      rewrite filter_app, Eseats. simpl app.
      destruct (filter (fun s => (show_id s =? showId)%string) created)
        as [| s1 rest] eqn:Enew; [| reflexivity].
      exfalso.
      (* the rows just stored are rows of the show *)
      assert (Hin : Bestill.new_show_id d = showId).
      { destruct (Bestill.seat_map_config sh) as [cfg |]; [| discriminate].
        unfold Bestill.seatsToCreate in El.
        assert (Hd : In d (d :: l)) by now left. rewrite <- El in Hd.
        destruct (Bestill.sections cfg).
        - apply in_flat_map in Hd as (? & _ & Hd).
          apply in_flat_map in Hd as (? & _ & Hd).
          now apply in_map_iff in Hd as (? & <- & _).
        - destruct (Bestill.rows cfg), (Bestill.seatsPerRow cfg); try contradiction.
          destruct (_ || _)%bool; [contradiction |].
          apply in_flat_map in Hd as (? & _ & Hd).
          now apply in_map_iff in Hd as (? & <- & _). }
      rewrite Ecreated in Enew. simpl in Enew.
      rewrite Hin, String.eqb_refl in Enew. discriminate.
  - injection Hrun as Ed Et; subst data t'. rewrite Eshow. cbv zeta. now rewrite Eseats.
Qed.

(** *** What the page creates, whatever the seat map *)

Lemma seatsToCreate_fields (showId : string) (price : Z) (cfg : Bestill.SeatMapConfig)
      (d : Bestill.NewSeat) :
  In d (Bestill.seatsToCreate showId price cfg) ->
  Bestill.new_show_id d = showId /\ Bestill.new_price_nok d = price /\
  Bestill.new_status d = "available".
Proof.
  unfold Bestill.seatsToCreate. intros Hd.
  destruct (Bestill.sections cfg).
  - apply in_flat_map in Hd as (? & _ & Hd).
    apply in_flat_map in Hd as (? & _ & Hd).
    apply in_map_iff in Hd as (? & <- & _). auto.
  - destruct (Bestill.rows cfg), (Bestill.seatsPerRow cfg); try contradiction.
    destruct (_ || _)%bool; [contradiction |].
    apply in_flat_map in Hd as (? & _ & Hd).
    apply in_map_iff in Hd as (? & <- & _). auto.
Qed.

Lemma getShowData_cases (c : Bestill.Client) (showId : string) (t : Bestill.Tables) :
  Bestill.undisturbed c ->
  exists data created,
    Bestill.getShowData c showId t
    = (Bestill.Value data,
       Bestill.mkTables (Bestill.show_rows t) (Bestill.seat_rows t ++ created)) /\
    (forall s, In s created ->
               show_id s = showId /\ status s = Some "available" /\
               reserved_until s = None /\
               exists sh, Bestill.the_show showId t = Some sh /\
                          price_nok s = Bestill.base_price_nok sh) /\
    (created <> [] ->
     forall s, In s (Bestill.seat_rows t) -> show_id s <> showId) /\
    match data with
    | None => Bestill.the_show showId t = None /\ created = []
    | Some (sh, seats) =>
        Bestill.the_show showId t = Some sh /\
        seats = filter (fun s => (show_id s =? showId)%string)
                       (Bestill.seat_rows t ++ created)
    end.
Proof.
  intros Hu. rewrite (getShowData_run c showId t Hu).
  assert (Hsame : forall data : option (Bestill.ShowRow * list Seat),
             (Bestill.Value data, t)
             = (Bestill.Value data,
                Bestill.mkTables (Bestill.show_rows t) (Bestill.seat_rows t ++ []))).
  { intros data. rewrite app_nil_r. now destruct t. }
  destruct (Bestill.the_show showId t) as [sh |] eqn:Eshow.
  2:{ exists None, []. split; [apply Hsame |]. split; [intros s [] |].
      split; [intros H; now contradiction H | auto]. }
  cbv zeta.
  destruct (filter (fun s => (show_id s =? showId)%string) (Bestill.seat_rows t))
    as [| s0 seats] eqn:Eseats.
  - destruct (match Bestill.seat_map_config sh with
              | Some cfg => Bestill.seatsToCreate showId (Bestill.base_price_nok sh) cfg
              | None => []
              end) as [| d l] eqn:El.
    + exists (Some (sh, [])), []. split; [apply Hsame |]. split; [intros s [] |].
      split; [intros H; now contradiction H |]. split; [reflexivity |].
      now rewrite app_nil_r, Eseats.
    + remember (Bestill.stored c 0 (d :: l)) as created eqn:Ecreated.
      exists (Some (sh, filter (fun s => (show_id s =? showId)%string)
                               (Bestill.seat_rows t ++ created))), created.
      split; [reflexivity |]. split; [| split; [| split; reflexivity]].
      * intros s Hs. rewrite Ecreated in Hs.
        apply stored_In in Hs as (d' & Hd' & E1 & _ & _ & _ & E5 & E6 & E7).
        destruct (Bestill.seat_map_config sh) as [cfg |]; [| discriminate].
        rewrite <- El in Hd'.
        destruct (seatsToCreate_fields _ _ _ _ Hd') as (F1 & F2 & F3).
        rewrite E1, E5, E6, E7, F1, F2, F3. repeat split. now exists sh.
      * intros _ s Hs E.
        assert (Hin : In s (filter (fun s => (show_id s =? showId)%string)
                                   (Bestill.seat_rows t))).
        { apply filter_In. split; [assumption | now apply String.eqb_eq]. }
        rewrite Eseats in Hin. contradiction.
  - exists (Some (sh, s0 :: seats)), [].
    split; [destruct (match Bestill.seat_map_config sh with
                      | Some cfg =>
                          Bestill.seatsToCreate showId (Bestill.base_price_nok sh) cfg
                      | None => []
                      end); apply Hsame |].
    split; [intros s [] |].
    split; [intros H; now contradiction H |]. split; [reflexivity |].
    now rewrite app_nil_r, Eseats.
Qed.

(** X19. What the booking page comes to (every call carried out, no other
    request writing): [notFound()] exactly when the show is not in the store;
    a redirect to the list of shows, with [message=cancelled] or
    [message=soldout], for a cancelled or sold-out show; else the seat
    selector, with exactly the seats the store then holds for the show.  The
    page never changes the shows or a seat that exists; what it adds are
    available seats of the show, with no hold, and only when the show had
    none (also when the show is cancelled or sold out). *)
Theorem BookingPage_views
        (c : Bestill.Client) (showId : string) (t : Bestill.Tables) :
  Bestill.undisturbed c ->
  exists view created,
    Bestill.BookingPage c showId t
    = (Bestill.Value view,
       Bestill.mkTables (Bestill.show_rows t) (Bestill.seat_rows t ++ created)) /\
    (forall s, In s created ->
               show_id s = showId /\ status s = Some "available" /\
               reserved_until s = None) /\
    (created <> [] ->
     forall s, In s (Bestill.seat_rows t) -> show_id s <> showId) /\
    match view with
    | Bestill.NotFound => Bestill.the_show showId t = None /\ created = []
    | Bestill.Redirect url =>
        exists sh,
          Bestill.the_show showId t = Some sh /\
          ((Bestill.show_status sh = "cancelled" /\
            url = "/forestillinger?message=cancelled") \/
           (Bestill.show_status sh = "sold_out" /\
            url = "/forestillinger?message=soldout"))
    | Bestill.Selector sh seats =>
        Bestill.the_show showId t = Some sh /\
        Bestill.show_status sh <> "cancelled" /\
        Bestill.show_status sh <> "sold_out" /\
        seats = filter (fun s => (show_id s =? showId)%string)
                       (Bestill.seat_rows t ++ created)
    end.
Proof.
  intros Hu.
  destruct (getShowData_cases c showId t Hu)
    as (data & created & Erun & Hcreated & Hfirst & Hdata).
  unfold Bestill.BookingPage, Bestill.then_. rewrite Erun.
  assert (Hc : forall s, In s created ->
                 show_id s = showId /\ status s = Some "available" /\
                 reserved_until s = None).
  { intros s Hs. destruct (Hcreated s Hs) as (? & ? & ? & _). auto. }
  destruct data as [[sh seats] |].
  - destruct Hdata as [Eshow Eseats].
    destruct (Bestill.show_status sh =? "cancelled")%string eqn:E1.
    { eexists; exists created. split; [reflexivity |]. split; [exact Hc |].
      split; [exact Hfirst |]. exists sh. split; [assumption |].
      left. split; [now apply String.eqb_eq | reflexivity]. }
    destruct (Bestill.show_status sh =? "sold_out")%string eqn:E2.
    { eexists; exists created. split; [reflexivity |]. split; [exact Hc |].
      split; [exact Hfirst |]. exists sh. split; [assumption |].
      right. split; [now apply String.eqb_eq | reflexivity]. }
    eexists; exists created. split; [reflexivity |]. split; [exact Hc |].
    split; [exact Hfirst |]. split; [assumption |].
    split; [now apply String.eqb_neq |]. split; [now apply String.eqb_neq | assumption].
  - eexists; exists created. split; [reflexivity |]. split; [exact Hc |].
    split; [exact Hfirst | exact Hdata].
Qed.

(** *** From the page to the reserve handler *)

Lemma selection_rows (t : list Seat) (ids : list string) (sh : string) :
  NoDup (map id t) -> NoDup ids ->
  (forall i, In i ids -> exists s, In s t /\ id s = i /\ show_id s = sh) ->
  length (filter (matches (Reserve.check_filter ids sh)) t) = length ids.
Proof.
  intros Hk Hnd Hrows.
  assert (Hincl : incl ids (map id (filter (matches (Reserve.check_filter ids sh)) t))).
  { intros i Hi. destruct (Hrows i Hi) as (s & Hs & <- & Es).
    apply in_map. apply filter_In. split; [assumption |].
    unfold matches. simpl. apply mem_In in Hi. rewrite Hi.
    apply String.eqb_eq in Es. now rewrite Es. }
  assert (Hincl' : incl (map id (filter (matches (Reserve.check_filter ids sh)) t)) ids).
  { intros i Hi. apply in_map_iff in Hi as (s & <- & Hs).
    apply filter_In in Hs as [_ Hm]. now apply matches_id in Hm. }
  pose proof (NoDup_incl_length Hnd Hincl) as H1.
  pose proof (NoDup_incl_length (NoDup_map_filter id _ t Hk) Hincl') as H2.
  rewrite length_map in H1, H2. lia.
Qed.

(** X20. From the page to the reserve handler.  Any non-empty selection,
    without repetition, of the seats the page hands to the selector of a
    show whose hall it has just created is granted by the reserve handler
    (the store carrying out its calls, ids being keys): the answer is 200
    with the hold of ten minutes and the selected ids. *)
Theorem fresh_hall_can_be_reserved
        (c : Bestill.Client) (env : Env) (showId : string) (t t' : Bestill.Tables)
        (sh : Bestill.ShowRow) (seats : list Seat) (ids : list string) :
  Bestill.undisturbed c ->
  (forall s, In s (Bestill.seat_rows t) -> show_id s <> showId) ->
  Bestill.BookingPage c showId t = (Bestill.Value (Bestill.Selector sh seats), t') ->
  keyed (Bestill.as_store t') ->
  quiet env -> service_role_key env = true ->
  fault env CheckSeats = NoFault -> fault env Cleanup = NoFault ->
  fault env ReserveUpdate = NoFault ->
  (0 <= now_at_check env)%Z ->
  showId <> "" -> ids <> [] -> NoDup ids -> incl ids (map id seats) ->
  exists seatIds,
    fst (Reserve.POST env (Some (Reserve.mkBody (Some ids) (Some showId)))
                      (Bestill.as_store t'))
    = json (BReserved (now_at_hold env + 10 * 60 * 1000) seatIds) /\
    (forall i, In i seatIds <-> In i ids).
Proof.
  intros Hu Hnone Hpage Hk Hq Hkey Hf1 Hf2 Hf3 Hnow Hsh Hne Hnd Hincl.
  destruct (getShowData_cases c showId t Hu)
    as (data & created & Erun & Hcreated & _ & Hdata).
  unfold Bestill.BookingPage, Bestill.then_ in Hpage. rewrite Erun in Hpage.
  destruct data as [[sh' seats'] |]; [| discriminate Hpage].
  destruct Hdata as [_ Eseats].
  destruct (Bestill.show_status sh' =? "cancelled")%string; [discriminate Hpage |].
  destruct (Bestill.show_status sh' =? "sold_out")%string; [discriminate Hpage |].
  injection Hpage as -> -> <-.
  assert (Hnew : forall s, In s created -> show_id s = showId)
    by (intros s Hs; now destruct (Hcreated s Hs)).
  rewrite (filter_show_app showId _ _ Hnone Hnew) in Eseats. subst seats.
  set (st := Bestill.as_store
               (Bestill.mkTables (Bestill.show_rows t) (Bestill.seat_rows t ++ created)))
    in *.
  set (body := Reserve.mkBody (Some ids) (Some showId)).
  assert (Hrow : forall i, In i ids ->
                   exists s, In s (seats st) /\ id s = i /\ show_id s = showId /\
                             status s = Some "available").
  { intros i Hi. apply Hincl in Hi. apply in_map_iff in Hi as (s & <- & Hs).
    exists s. destruct (Hcreated s Hs) as (E1 & E2 & _).
    split; [simpl; apply in_or_app; now right | auto]. }
  assert (Hreach : reaches_status_check env st body ids showId).
  { split; [reflexivity |]. split; [reflexivity |]. split.
    - unfold reserve_valid. simpl. destruct ids; [now contradiction Hne |].
      simpl. apply negb_true_iff. now apply String.eqb_neq.
    - split; [assumption |]. split; [assumption |].
      apply selection_rows; [exact Hk | exact Hnd |].
      intros i Hi. destruct (Hrow i Hi) as (s & Hs & E1 & E2 & _). eauto. }
  assert (Hrows : forall s, In s (requested_rows st ids showId) ->
                            reservable (now_at_check env) s).
  { intros s Hs. apply filter_In in Hs as [Hs Hm]. apply matches_id in Hm. simpl in Hm.
    destruct (Hrow _ Hm) as (s' & Hs' & Eid & _ & Est).
    assert (s' = s) by (apply (keyed_same_row (seats st)); auto).
    subst s'. now left. }
  destruct (reserve_grants env st body ids showId Hq Hk Hnow Hreach Hf2 Hf3 Hrows)
    as (w & Erun' & _).
  rewrite Erun'. eexists. split; [reflexivity |].
  intros i. split.
  - intros Hi. apply in_map_iff in Hi as (s & <- & Hs).
    apply filter_In in Hs as [_ Hm]. now apply matches_id in Hm.
  - intros Hi. destruct (Hrow i Hi) as (s & Hs & <- & Es & _).
    apply in_map. apply filter_In. split; [assumption |].
    unfold matches. simpl. apply mem_In in Hi. rewrite Hi.
    apply String.eqb_eq in Es. now rewrite Es.
Qed.

(* ===================================================================== *)
(** ** The seat selector: properties                                     *)
(* ===================================================================== *)

(** *** The selection *)

Lemma filter_well_selected (p : Seat -> bool) (sel : list Seat) :
  well_selected sel -> well_selected (filter p sel).
Proof.
  intros [Hnd Hav]. split.
  - now apply NoDup_map_filter.
  - intros x Hx. apply filter_In in Hx as [Hx _]. now apply Hav.
Qed.

Lemma isSelected_false (seat : Seat) (prev : list Seat) :
  SeatSelector.isSelected seat prev = false -> ~ In (id seat) (map id prev).
Proof.
  unfold SeatSelector.isSelected. intros E Hin.
  apply in_map_iff in Hin as (x & Ex & Hx).
  assert (H : existsb (fun s => (id s =? id seat)%string) prev = true).
  { apply existsb_exists. exists x. split; [assumption | now apply String.eqb_eq]. }
  congruence.
Qed.

Lemma toggleSeat_well_selected (seat : Seat) (s : SeatSelector.State) :
  well_selected (SeatSelector.selectedSeats s) ->
  well_selected (SeatSelector.selectedSeats (SeatSelector.toggleSeat seat s)).
Proof.
  intros Hw. unfold SeatSelector.toggleSeat.
  destruct (toLowerCase (or_default (status seat) "") =? "available")%string eqn:Est;
    simpl; [| assumption].
  destruct (SeatSelector.isSelected seat (SeatSelector.selectedSeats s)) eqn:Esel.
  - now apply filter_well_selected.
  - destruct Hw as [Hnd Hav]. split.
    + rewrite map_app. simpl. apply NoDup_app; [assumption | | ].
      * constructor; [intros [] | constructor].
      * intros i Hi [<- | []]. now apply (isSelected_false seat _ Esel).
    + intros x Hx. apply in_app_or in Hx as [Hx | [<- | []]]; [now apply Hav |].
      now apply String.eqb_eq.
Qed.

Lemma step_well_selected (sb : SeatSelector.State * SeatSelector.Browser)
      (e : SeatSelector.Event) :
  well_selected (SeatSelector.selectedSeats (fst sb)) ->
  well_selected (SeatSelector.selectedSeats (fst (SeatSelector.step sb e))).
Proof.
  intros Hw. destruct sb as [s b]. simpl in Hw.
  destruct e as [seat | payload | fetched | show | show seatIds total reply fetched]; simpl.
  - now apply toggleSeat_well_selected.
  - destruct payload as [new | new | old]; simpl; try assumption.
    destruct (match status new with
              | Some st => negb (st =? "available")%string
              | None => true
              end); [now apply filter_well_selected | assumption].
  - destruct fetched; assumption.
  - unfold SeatSelector.handleProceed_request.
    destruct (len (SeatSelector.selectedSeats s) =? 0)%Z; assumption.
  - destruct reply as [response | message]; [| assumption].
    destruct (negb (SeatSelector.ok response)); [| assumption].
    destruct fetched as [fresh | | message]; simpl; try assumption;
      (destruct (SeatSelector.result_unavailableSeatIds response);
       [now apply filter_well_selected | split; [constructor | intros x []]]).
Qed.

Lemma run_well_selected (events : list SeatSelector.Event)
      (sb : SeatSelector.State * SeatSelector.Browser) :
  well_selected (SeatSelector.selectedSeats (fst sb)) ->
  well_selected (SeatSelector.selectedSeats (fst (SeatSelector.run events sb))).
Proof.
  revert sb. induction events as [| e events IH]; intros sb Hw; simpl; [assumption |].
  apply IH. now apply step_well_selected.
Qed.

(** X21. Whatever happens to the seat selector — clicks on seats, changes
    reported by the realtime channel, refreshes, presses of the button and
    answers to them, in any order — no seat is selected twice and every
    selected seat read "available" when it was clicked; so the request
    [handleProceed] sends, if it sends one, names the show of the page and a
    non-empty list of seat ids without repetition, and it sends none exactly
    when nothing is selected. *)
Theorem selection_stays_well_formed
        (initialSeats : list Seat) (b : SeatSelector.Browser)
        (events : list SeatSelector.Event) (show : Show) :
  let s := fst (SeatSelector.run events (SeatSelector.initial initialSeats, b)) in
  NoDup (map id (SeatSelector.selectedSeats s)) /\
  (forall x, In x (SeatSelector.selectedSeats s) ->
             toLowerCase (or_default (status x) "") = "available") /\
  match snd (SeatSelector.handleProceed_request show s) with
  | Some request =>
      exists seatIds,
        Reserve.seatIds request = Some seatIds /\
        seatIds = map id (SeatSelector.selectedSeats s) /\
        seatIds <> [] /\ NoDup seatIds /\
        Reserve.showId request = Some (show_key show)
  | None => SeatSelector.selectedSeats s = []
  end.
Proof.
  cbv zeta.
  assert (Hw : well_selected
                 (SeatSelector.selectedSeats
                    (fst (SeatSelector.run events (SeatSelector.initial initialSeats, b))))).
  { apply run_well_selected. split; [constructor | intros x []]. }
  set (s := fst (SeatSelector.run events (SeatSelector.initial initialSeats, b))) in *.
  destruct Hw as [Hnd Hav]. split; [assumption |]. split; [assumption |].
  unfold SeatSelector.handleProceed_request.
  destruct (len (SeatSelector.selectedSeats s) =? 0)%Z eqn:E; simpl.
  - apply Z.eqb_eq in E. unfold len in E.
    destruct (SeatSelector.selectedSeats s); [reflexivity | simpl in E; lia].
  - exists (map id (SeatSelector.selectedSeats s)).
    repeat split; auto.
    apply Z.eqb_neq in E. intros E0. apply E.
    apply map_eq_nil in E0. now rewrite E0.
Qed.

(** *** Asking again after a conflict *)

Lemma plain_eligible (now : Z) (s : Seat) :
  plain_status s ->
  Reserve.is_unavailable now s = false -> Reserve.is_expired now s = false ->
  status s = Some "available".
Proof.
  unfold Reserve.is_unavailable, Reserve.is_expired, Reserve.classify.
  intros [E | [E | [E | E]]]; rewrite E; simpl; [reflexivity | | discriminate ..].
  destruct (negb _ && _)%bool; discriminate.
Qed.

(** The run of a reserve request that meets an unavailable seat. *)
Lemma reserve_conflict_world (env : Env) (st : Store) (body : Reserve.RequestBody)
      (ids : list string) (sh : string) :
  quiet env -> reaches_status_check env st body ids sh ->
  unavailable_rows env (requested_rows st ids sh) <> [] ->
  Reserve.POST env (Some body) st
  = (json_status
       (BUnavailable
          ("Følgende seter er ikke tilgjengelige: "
           ++ String.concat ", "
                (map Reserve.seat_label (unavailable_rows env (requested_rows st ids sh))))
          (map id (unavailable_rows env (requested_rows st ids sh))))
       409,
     cleaned env (expired_ids env (requested_rows st ids sh)) (mkWorld st [])).
Proof.
  intros Hq Hreach Hne.
  rewrite (reserve_reaches_decide env st body ids sh Hq Hreach).
  unfold run_handler, answer. rewrite decide_unfold.
  apply len_pos_iff in Hne. rewrite Hne. reflexivity.
Qed.

Lemma NoDup_filter_ids (p : string -> bool) (l : list string) :
  NoDup l -> NoDup (filter p l).
Proof.
  intros H. induction H as [| a l Hnotin H IH]; simpl; [constructor |].
  destruct (p a); [| assumption].
  constructor; [| assumption]. intros Hin. apply filter_In in Hin as [Hin _]. contradiction.
Qed.

Lemma reserve_retry_grants (env1 env2 : Env) (st : Store)
      (body1 body2 : Reserve.RequestBody) (ids1 ids2 : list string) (sh : string) :
  quiet env1 -> quiet env2 -> keyed st ->
  reaches_status_check env1 st body1 ids1 sh ->
  fault env1 Cleanup = NoFault ->
  (0 <= now_at_check env1)%Z ->
  (forall s, In s (requested_rows st ids1 sh) -> plain_status s) ->
  unavailable_rows env1 (requested_rows st ids1 sh) <> [] ->
  NoDup ids1 ->
  ids2 = filter (fun i => negb (mem i (map id (unavailable_rows env1
                                                 (requested_rows st ids1 sh)))))
                ids1 ->
  ids2 <> [] ->
  Reserve.seatIds body2 = Some ids2 -> Reserve.showId body2 = Some sh ->
  service_role_key env2 = true ->
  fault env2 CheckSeats = NoFault -> fault env2 Cleanup = NoFault ->
  fault env2 ReserveUpdate = NoFault ->
  (0 <= now_at_check env2)%Z ->
  let w1 := snd (Reserve.POST env1 (Some body1) st) in
  exists seatIds w2,
    Reserve.POST env2 (Some body2) (db w1)
    = (json (BReserved (now_at_hold env2 + Reserve.hold_window) seatIds), w2) /\
    (forall i, In i seatIds <-> In i ids2) /\
    (forall i, In i ids2 ->
               exists s, In s (seats (db w2)) /\ id s = i /\
                         status s = Some "reserved" /\
                         reserved_until s = Some (now_at_hold env2 + Reserve.hold_window)%Z).
Proof.
  intros Hq1 Hq2 Hk Hreach1 Hfc1 Hnow1 Hplain Hne Hnd Eids2 Hne2 Eb2 Esh2
         Hkey2 Hf0 Hf1 Hf2 Hnow2.
  cbv zeta.
  rewrite (reserve_conflict_world env1 st body1 ids1 sh Hq1 Hreach1 Hne). cbn [snd].
  set (rows1 := requested_rows st ids1 sh) in *.
  set (U := map id (unavailable_rows env1 rows1)) in *.
  set (E := expired_ids env1 rows1) in *.
  pose proof (cleaned_seats_carried_out env1 E (mkWorld st []) Hq1 Hfc1) as Ht1.
  set (w1 := cleaned env1 E (mkWorld st [])) in *. simpl in Ht1.
  pose proof Hreach1 as (_ & _ & Hv1 & _ & _ & Hlen1).
  assert (Hk1 : keyed (db w1)) by (unfold keyed; rewrite Ht1, write_seats_ids; exact Hk).
  (* the row of a seat that is asked for again *)
  assert (Hrow : forall i, In i ids2 ->
                   exists s, In s (seats (db w1)) /\ id s = i /\ show_id s = sh /\
                             status s = Some "available").
  { intros i Hi. rewrite Eids2 in Hi. apply filter_In in Hi as [Hi1 HiU].
    apply negb_true_iff in HiU.
    destruct (full_answer_covers (Reserve.check_filter ids1 sh) (seats st) Hk Hlen1 i Hi1)
      as (s & Hs & Eid & Hm).
    assert (Hsh : show_id s = sh).
    { unfold matches in Hm. simpl in Hm. apply andb_prop in Hm as [Hm _].
      apply andb_prop in Hm as [_ Hm]. now apply String.eqb_eq. }
    assert (Hrows1 : In s rows1) by (apply filter_In; auto).
    destruct (matches (Reserve.by_ids E) s) eqn:Em.
    - exists (patch Reserve.available_patch s).
      split; [| simpl; auto].
      rewrite Ht1. unfold write_seats. apply in_map_iff. exists s. now rewrite Em.
    - exists s. split; [rewrite Ht1; now apply write_seats_keeps |].
      split; [assumption |]. split; [assumption |].
      apply (plain_eligible (now_at_check env1)); [now apply Hplain | |].
      + destruct (Reserve.is_unavailable (now_at_check env1) s) eqn:Eu; [| reflexivity].
        exfalso.
        assert (Hin : In (id s) U).
        { unfold U. apply in_map. apply filter_In. auto. }
        apply mem_In in Hin. rewrite Eid in Hin. congruence.
      + destruct (Reserve.is_expired (now_at_check env1) s) eqn:Ee; [| reflexivity].
        exfalso. rewrite matches_by_ids in Em.
        assert (Hin : In (id s) E).
        { unfold E, expired_ids. apply in_map. apply filter_In. auto. }
        apply mem_In in Hin. congruence. }
  assert (Hnd2 : NoDup ids2) by (rewrite Eids2; now apply NoDup_filter_ids).
  assert (Hreach2 : reaches_status_check env2 (db w1) body2 ids2 sh).
  { split; [assumption |]. split; [assumption |]. split.
    - unfold reserve_valid. rewrite Eb2, Esh2.
      destruct ids2; [now contradiction Hne2 |]. simpl.
      unfold reserve_valid in Hv1. destruct Hreach1 as (_ & Esh1 & _).
      rewrite Esh1 in Hv1. apply andb_prop in Hv1 as [_ Hv1]. exact Hv1.
    - split; [assumption |]. split; [assumption |].
      apply selection_rows; [exact Hk1 | exact Hnd2 |].
      intros i Hi. destruct (Hrow i Hi) as (s & Hs & E1 & E2 & _). eauto. }
  assert (Hrows2 : forall s, In s (requested_rows (db w1) ids2 sh) ->
                             reservable (now_at_check env2) s).
  { intros s Hs. apply filter_In in Hs as [Hs Hm]. apply matches_id in Hm. simpl in Hm.
    destruct (Hrow _ Hm) as (s' & Hs' & Eid & _ & Est).
    assert (s' = s) by (apply (keyed_same_row (seats (db w1))); auto).
    subst s'. now left. }
  destruct (reserve_grants env2 (db w1) body2 ids2 sh Hq2 Hk1 Hnow2 Hreach2 Hf1 Hf2 Hrows2)
    as (w2 & Erun2 & Hseats2 & _).
  exists (map id (requested_rows (db w1) ids2 sh)), w2.
  assert (Hmatch : forall i, In i ids2 ->
                     exists s, In s (seats (db w1)) /\ id s = i /\
                               matches (Reserve.check_filter ids2 sh) s = true).
  { intros i Hi. destruct (Hrow i Hi) as (s & Hs & <- & Es & _).
    exists s. split; [assumption |]. split; [reflexivity |].
    unfold matches. simpl. apply mem_In in Hi. rewrite Hi.
    apply String.eqb_eq in Es. now rewrite Es. }
  split; [exact Erun2 |]. split.
  - intros i. split.
    + intros Hi. apply in_map_iff in Hi as (s & <- & Hs).
      apply filter_In in Hs as [_ Hm]. now apply matches_id in Hm.
    + intros Hi. destruct (Hmatch i Hi) as (s & Hs & <- & Hm).
      apply in_map. apply filter_In. auto.
  - intros i Hi. destruct (Hmatch i Hi) as (s & Hs & <- & Hm).
    exists (patch (Reserve.reserve_patch (now_at_hold env2 + Reserve.hold_window)) s).
    split; [| simpl; auto].
    rewrite Hseats2. unfold write_seats. apply in_map_iff. exists s. now rewrite Hm.
Qed.

(** *** [handleProceed] against the reserve handler *)

Lemma ok_iff_200 (env : Env) (request : option Reserve.RequestBody) (st : Store)
      (r : Response) (w : World) :
  Reserve.POST env request st = (r, w) ->
  SeatSelector.ok r = (http_status r =? 200)%Z.
Proof.
  intros Hrun. unfold SeatSelector.ok.
  destruct (reserve_answer_cases env request st r w Hrun)
    as [[E _] | [[E _] | [[E _] | [E _]]]]; rewrite E; reflexivity.
Qed.

Lemma map_id_filter (U : list string) (sel : list Seat) :
  map id (filter (fun x => negb (mem (id x) U)) sel)
  = filter (fun i => negb (mem i U)) (map id sel).
Proof.
  induction sel as [| x sel IH]; simpl; [reflexivity |].
  destruct (negb (mem (id x) U)); simpl; now rewrite IH.
Qed.

(** X22. [handleProceed] against the reserve handler, whatever the store
    does.  With seats selected, the only request to the store is the one of
    the reserve handler for the selected ids.  On 200 the session storage
    holds the show, the selected ids, the total of the selected seats and
    the [reservedUntil] of the answer (the clock reading plus ten minutes),
    the checkout route is pushed and the selection is kept.  On any other
    answer nothing is stored or pushed, the button is released and an error
    is shown: the one of the answer; the selection loses exactly the seats
    named in [unavailableSeatIds] when the answer has them (a 409), and is
    emptied otherwise. *)
Theorem handleProceed_outcomes
        (env : Env) (refresh : Store -> SeatSelector.Fetched) (show : Show)
        (st : Store) (s : SeatSelector.State) (b : SeatSelector.Browser) :
  SeatSelector.selectedSeats s <> [] ->
  let request := Reserve.mkBody (Some (map id (SeatSelector.selectedSeats s)))
                                (Some (show_key show)) in
  let r := fst (Reserve.POST env (Some request) st) in
  let out := SeatSelector.handleProceed env refresh show st (s, b) in
  snd out = snd (Reserve.POST env (Some request) st) /\
  (http_status r = 200 ->
   fst out
   = (SeatSelector.mkState (SeatSelector.seats s) (SeatSelector.selectedSeats s) true None,
      SeatSelector.mkBrowser
        (Some (SeatSelector.mkStoredBooking
                 (show_key show) (map id (SeatSelector.selectedSeats s))
                 (SeatSelector.totalPrice s) (Some (now_at_hold env + 10 * 60 * 1000)%Z)))
        (Some ("/kasse/billett?show=" ++ show_key show)))) /\
  (http_status r <> 200 ->
   snd (fst out) = b /\
   SeatSelector.isLoading (fst (fst out)) = false /\
   SeatSelector.error (fst (fst out)) <> None /\
   ((forall m, refresh (db (snd out)) <> SeatSelector.Threw m) ->
    SeatSelector.error (fst (fst out))
    = Some (or_default (SeatSelector.result_error r) "Kunne ikke reservere setene") /\
    match body r with
    | BUnavailable _ unavailable =>
        unavailable <> [] /\ http_status r = 409 /\
        SeatSelector.selectedSeats (fst (fst out))
        = filter (fun x => negb (mem (id x) unavailable)) (SeatSelector.selectedSeats s)
    | _ => SeatSelector.selectedSeats (fst (fst out)) = []
    end)).
Proof.
  intros Hne. cbv zeta.
  unfold SeatSelector.handleProceed, SeatSelector.handleProceed_request. cbn [fst snd].
  assert (E0 : (len (SeatSelector.selectedSeats s) =? 0)%Z = false).
  { apply Z.eqb_neq. unfold len.
    destruct (SeatSelector.selectedSeats s); [now contradiction Hne | simpl; lia]. }
  rewrite E0.
  destruct (Reserve.POST env
              (Some (Reserve.mkBody (Some (map id (SeatSelector.selectedSeats s)))
                                    (Some (show_key show)))) st) as [r w] eqn:Hrun.
  cbn [fst snd]. split; [reflexivity |].
  pose proof (ok_iff_200 env _ st r w Hrun) as Hok.
  unfold SeatSelector.handleProceed_answer.
  destruct (reserve_answer_cases env _ st r w Hrun)
    as [[E (l & Eb & _)] | Hbad].
  - (* granted *)
    rewrite Hok, E. cbn [negb Z.eqb Pos.eqb].
    split; [| intros H; now contradiction H].
    intros _. unfold SeatSelector.result_reservedUntil. rewrite Eb. reflexivity.
  - assert (Hnot : http_status r <> 200%Z)
      by (destruct Hbad as [[E _] | [[E _] | [E _]]]; rewrite E; discriminate).
    split; [intros H; now contradiction Hnot |]. intros _.
    apply Z.eqb_neq in Hnot. rewrite Hok, Hnot. cbn [negb].
    destruct (refresh (db w)) as [fresh | | m] eqn:Eref; cbn [fst snd].
    3:{ split; [reflexivity |]. split; [reflexivity |]. split; [discriminate |].
        intros Hthrow. now contradiction (Hthrow m). }
    all: (split; [reflexivity |]); (split; [reflexivity |]); (split; [discriminate |]);
      intros _; (split; [reflexivity |]);
      unfold SeatSelector.result_unavailableSeatIds;
      destruct Hbad as [[E (msg & Eb)] | [[E [(msg & U & Eb & HU) | (msg & Eb)]]
                                         | [E [(msg & Eb) | (msg & d & Eb)]]]];
      rewrite Eb; simpl; auto.
Qed.

(** X23. Asking again after a conflict succeeds.  When some selected seat
    is held, sold or blocked (the statuses in the store being the four the
    handlers write, every store call carried out, no other request writing),
    [handleProceed] drops exactly such seats from the selection; if seats are
    left, a second [handleProceed], at any later time, is granted: the
    seats left are reserved in the store for ten minutes from then, and the
    browser holds their ids, their total and that [reservedUntil], on the way
    to the checkout. *)
Theorem proceed_again_after_conflict
        (env1 env2 : Env) (show : Show) (st : Store)
        (s : SeatSelector.State) (b : SeatSelector.Browser) :
  quiet env1 -> quiet env2 -> keyed st ->
  service_role_key env1 = true ->
  fault env1 CheckSeats = NoFault -> fault env1 Cleanup = NoFault ->
  (0 <= now_at_check env1)%Z ->
  service_role_key env2 = true ->
  fault env2 CheckSeats = NoFault -> fault env2 Cleanup = NoFault ->
  fault env2 ReserveUpdate = NoFault ->
  (0 <= now_at_check env2)%Z ->
  show_key show <> "" ->
  NoDup (map id (SeatSelector.selectedSeats s)) ->
  (forall x, In x (SeatSelector.selectedSeats s) ->
             exists seat, In seat (seats st) /\ id seat = id x /\
                          show_id seat = show_key show /\ plain_status seat) ->
  (exists x seat, In x (SeatSelector.selectedSeats s) /\ In seat (seats st) /\
                  id seat = id x /\ held (now_at_check env1) seat) ->
  let out1 := SeatSelector.handleProceed env1 (SeatSelector.served show) show st (s, b) in
  let left := SeatSelector.selectedSeats (fst (fst out1)) in
  left <> [] ->
  let out2 := SeatSelector.handleProceed env2 (SeatSelector.served show) show
                (db (snd out1)) (fst out1) in
  snd (fst out1) = b /\
  (forall x, In x left -> In x (SeatSelector.selectedSeats s)) /\
  snd (fst out2)
  = SeatSelector.mkBrowser
      (Some (SeatSelector.mkStoredBooking (show_key show) (map id left)
               (SeatSelector.totalPrice (fst (fst out1)))
               (Some (now_at_hold env2 + 10 * 60 * 1000)%Z)))
      (Some ("/kasse/billett?show=" ++ show_key show)) /\
  forall x, In x left ->
            exists seat, In seat (seats (db (snd out2))) /\ id seat = id x /\
                         status seat = Some "reserved" /\
                         reserved_until seat = Some (now_at_hold env2 + 10 * 60 * 1000)%Z.
Proof.
  intros Hq1 Hq2 Hk Hkey1 Hc1 Hcl1 Hnow1 Hkey2 Hc2 Hcl2 Hu2 Hnow2 Hsh Hnd Hrows Hheld.
  set (sel := SeatSelector.selectedSeats s).
  set (sh := show_key show).
  set (ids1 := map id sel).
  set (body1 := Reserve.mkBody (Some ids1) (Some sh)).
  assert (Hne : sel <> []).
  { destruct Hheld as (x & _ & Hx & _). intros E. unfold sel in E. rewrite E in Hx.
    contradiction. }
  assert (Hrow : forall i, In i ids1 ->
                   exists seat, In seat (seats st) /\ id seat = i /\ show_id seat = sh).
  { intros i Hi. apply in_map_iff in Hi as (x & <- & Hx).
    destruct (Hrows x Hx) as (seat & ? & ? & ? & _). eauto. }
  assert (Hreach1 : reaches_status_check env1 st body1 ids1 sh).
  { split; [reflexivity |]. split; [reflexivity |]. split.
    - unfold reserve_valid. simpl. unfold ids1.
      destruct sel; [now contradiction Hne |]. simpl.
      apply negb_true_iff. now apply String.eqb_neq.
    - split; [assumption |]. split; [assumption |].
      now apply selection_rows. }
  assert (Hplain : forall seat, In seat (requested_rows st ids1 sh) -> plain_status seat).
  { intros seat Hs. apply filter_In in Hs as [Hs Hm]. apply matches_id in Hm. simpl in Hm.
    apply in_map_iff in Hm as (x & Eid & Hx).
    destruct (Hrows x Hx) as (seat' & Hs' & Eid' & _ & Hp).
    assert (seat' = seat) by (apply (keyed_same_row (seats st)); auto; congruence).
    now subst seat'. }
  assert (Hun : unavailable_rows env1 (requested_rows st ids1 sh) <> []).
  { destruct Hheld as (x & seat & Hx & Hs & Eid & Hh).
    destruct (Hrows x Hx) as (seat' & Hs' & Eid' & Esh' & _).
    assert (seat' = seat) by (apply (keyed_same_row (seats st)); auto; congruence).
    subst seat'.
    assert (Hin : In seat (unavailable_rows env1 (requested_rows st ids1 sh))).
    { apply filter_In. split; [| now apply classify_held].
      apply filter_In. split; [assumption |].
      unfold matches. simpl.
      assert (Hi : In (id seat) ids1) by (rewrite Eid; now apply in_map).
      apply mem_In in Hi. rewrite Hi. apply String.eqb_eq in Esh'.
      unfold sh. now rewrite Esh'. }
    intros E. rewrite E in Hin. contradiction. }
  set (U := map id (unavailable_rows env1 (requested_rows st ids1 sh))) in *.
  (* the first answer *)
  assert (E0 : (len sel =? 0)%Z = false).
  { apply Z.eqb_neq. unfold len. destruct sel; [now contradiction Hne | simpl; lia]. }
  pose proof (reserve_conflict_world env1 st body1 ids1 sh Hq1 Hreach1 Hun) as Erun1.
  assert (Eout1 : SeatSelector.handleProceed env1 (SeatSelector.served show) show st (s, b)
                  = ((SeatSelector.mkState
                        (seats_of_show sh
                           (db (cleaned env1 (expired_ids env1 (requested_rows st ids1 sh))
                                        (mkWorld st []))))
                        (filter (fun x => negb (mem (id x) U)) sel) false
                        (Some (or_default
                                 (Some ("Følgende seter er ikke tilgjengelige: "
                                        ++ String.concat ", "
                                             (map Reserve.seat_label
                                                  (unavailable_rows env1
                                                     (requested_rows st ids1 sh)))))
                                 "Kunne ikke reservere setene")),
                      b),
                     cleaned env1 (expired_ids env1 (requested_rows st ids1 sh))
                             (mkWorld st []))).
  { unfold SeatSelector.handleProceed, SeatSelector.handleProceed_request. cbn [fst snd].
    fold sel. rewrite E0. fold ids1 sh body1. rewrite Erun1. reflexivity. }
  cbv zeta. rewrite Eout1. cbn [fst snd SeatSelector.selectedSeats].
  set (w1 := cleaned env1 (expired_ids env1 (requested_rows st ids1 sh)) (mkWorld st [])) in *.
  set (left := filter (fun x => negb (mem (id x) U)) sel).
  intros Hleft.
  split; [reflexivity |].
  split; [intros x Hx; unfold left in Hx; now apply filter_In in Hx as [Hx _] |].
  (* the second answer *)
  set (ids2 := map id left).
  set (body2 := Reserve.mkBody (Some ids2) (Some sh)).
  assert (Eids2 : ids2 = filter (fun i => negb (mem i U)) ids1)
    by apply map_id_filter.
  assert (Hne2 : ids2 <> []).
  { intros E. apply map_eq_nil in E. contradiction. }
  destruct (reserve_retry_grants env1 env2 st body1 body2 ids1 ids2 sh
              Hq1 Hq2 Hk Hreach1 Hcl1 Hnow1 Hplain Hun Hnd Eids2 Hne2 eq_refl eq_refl
              Hkey2 Hc2 Hcl2 Hu2 Hnow2)
    as (seatIds & w2 & Erun2 & _ & Hres).
  rewrite Erun1 in Erun2. cbn [snd] in Erun2. fold w1 in Erun2.
  assert (E02 : (len left =? 0)%Z = false).
  { apply Z.eqb_neq. unfold len. destruct left; [now contradiction Hleft | simpl; lia]. }
  unfold SeatSelector.handleProceed, SeatSelector.handleProceed_request.
  cbn [fst snd SeatSelector.selectedSeats]. fold left. rewrite E02.
  fold ids2 sh body2. rewrite Erun2. cbn [fst snd]. split; [reflexivity |].
  intros x Hx. apply Hres. unfold ids2. now apply in_map.
Qed.

(* ===================================================================== *)
(** ** The ticket scanner: properties                                    *)
(* ===================================================================== *)

Lemma run_snoc (js : QRScanner.Strings) (events : list QRScanner.Event)
      (e : QRScanner.Event) :
  QRScanner.run js (events ++ [e]) = QRScanner.step js (QRScanner.run js events) e.
Proof. unfold QRScanner.run. now rewrite fold_left_app. Qed.

Lemma split_at {A : Type} (l : list A) (k : nat) (t : A) :
  nth_error l k = Some t ->
  exists l1 l2, l = (l1 ++ t :: l2)%list /\ firstn k l = l1 /\ skipn (S k) l = l2.
Proof.
  revert k. induction l as [| a l IH]; intros [| k] E; try discriminate E.
  - injection E as ->. exists [], l. auto.
  - destruct (IH k E) as (l1 & l2 & El & E1 & E2).
    exists (a :: l1), l2. simpl. rewrite E1. split; [now rewrite El at 1 |]. auto.
Qed.

(** A step only adds to the requests sent. *)
Lemma step_sends (js : QRScanner.Strings) (s : QRScanner.State) (e : QRScanner.Event) :
  exists l, QRScanner.sent (QRScanner.step js s e) = (QRScanner.sent s ++ l)%list.
Proof.
  assert (Hnone : exists l, QRScanner.sent s = (QRScanner.sent s ++ l)%list)
    by (exists []; now rewrite app_nil_r).
  destruct e as [a seen data | v | c | | | | m | | k reply | k reply];
    cbn [QRScanner.step]; try exact Hnone.
  - unfold QRScanner.handleScan.
    destruct (QRScanner.processingRef s || _)%bool; [exact Hnone |].
    eexists. reflexivity.
  - unfold QRScanner.handleManualSubmit.
    destruct (_ =? _)%string; [exact Hnone |]. eexists. reflexivity.
  - unfold QRScanner.handleCheckIn.
    destruct (QRScanner.result s) as [shown |]; [| exact Hnone].
    destruct (QRScanner.booking shown); [| exact Hnone]. eexists. reflexivity.
  - unfold QRScanner.timer_fired. destruct (QRScanner.timers s); exact Hnone.
  - destruct (nth_error (QRScanner.pending s) k) as [[a | b | a | b | b] |];
      try exact Hnone.
    + unfold QRScanner.handleScan_verified.
      destruct reply as [v |]; [| exact Hnone].
      destruct (QRScanner.to_check_in v a); [| exact Hnone]. eexists. reflexivity.
    + unfold QRScanner.handleManualSubmit_verified.
      destruct reply as [v |]; [| exact Hnone].
      destruct (QRScanner.to_check_in v a); [| exact Hnone]. eexists. reflexivity.
  - destruct (nth_error (QRScanner.pending s) k) as [[a | b | a | b | b] |];
      exact Hnone.
Qed.

Lemma step_sent (js : QRScanner.Strings) (s : QRScanner.State) (e : QRScanner.Event) :
  QRScanner.sent (QRScanner.step js s e)
  = (QRScanner.sent s ++ QRScanner.sent_by js s e)%list.
Proof.
  unfold QRScanner.sent_by. destruct (step_sends js s e) as [l E]. rewrite E.
  rewrite skipn_app, skipn_all, Nat.sub_diag. reflexivity.
Qed.

Lemma vouched_later (js : QRScanner.Strings) (events l : list QRScanner.Event)
      (bookingId : string) :
  QRScanner.vouched js events bookingId -> QRScanner.vouched js (events ++ l) bookingId.
Proof.
  intros (pre & k & shown & b & post & a & -> & Hv & Hb & Eid).
  exists pre, k, shown, b, (post ++ l)%list, a.
  split; [now rewrite <- app_assoc | auto].
Qed.

(** The condition of the automatic check-in, spelled out. *)
Lemma to_check_in_Some (v : QRScanner.ScanResult) (a : bool) (b : QRScanner.BookingInfo) :
  QRScanner.to_check_in v a = Some b ->
  QRScanner.booking v = Some b /\ QRScanner.status v = "success" /\ a = true /\
  QRScanner.alreadyCheckedIn b = false.
Proof.
  unfold QRScanner.to_check_in. destruct (QRScanner.booking v) as [b' |]; [| discriminate].
  destruct ((QRScanner.status v =? "success")%string && a
            && negb (QRScanner.alreadyCheckedIn b'))%bool eqn:E; [| discriminate].
  intros H. injection H as ->.
  apply andb_prop in E as [E Hc]. apply andb_prop in E as [Hs Ha].
  apply String.eqb_eq in Hs. apply negb_true_iff in Hc. auto.
Qed.



(** What waits after a callback has gone on. *)
Lemma in_through {A : Type} (l : list A) (k : nat) (x : A) :
  In x (firstn k l ++ skipn (S k) l) -> In x l.
Proof.
  intros H. apply in_app_or in H as [H | H].
  - rewrite <- (firstn_skipn k l). apply in_or_app. now left.
  - rewrite <- (firstn_skipn (S k) l). apply in_or_app. now right.
Qed.

Lemma in_waits_again {A : Type} (l : list A) (k : nat) (t x : A) :
  In x (firstn k l ++ t :: skipn (S k) l) -> x = t \/ In x l.
Proof.
  intros H. apply in_app_or in H as [H | [H | H]].
  - right. rewrite <- (firstn_skipn k l). apply in_or_app. now left.
  - now left.
  - right. rewrite <- (firstn_skipn (S k) l). apply in_or_app. now right.
Qed.

Lemma step_all_vouched (js : QRScanner.Strings) (events : list QRScanner.Event)
      (e : QRScanner.Event) :
  all_vouched js events (QRScanner.run js events) ->
  all_vouched js (events ++ [e]) (QRScanner.run js (events ++ [e])).
Proof.
  rewrite run_snoc. set (s := QRScanner.run js events).
  intros (Hsent & Hshown & Hheld).
  assert (Hsent' : forall bid, In (QRScanner.CheckIn bid) (QRScanner.sent s) ->
                     QRScanner.vouched js (events ++ [e]) bid)
    by (intros bid H; apply vouched_later; now apply Hsent).
  assert (Hshown' : forall shown b,
             QRScanner.result s = Some shown -> QRScanner.booking shown = Some b ->
             QRScanner.vouched js (events ++ [e]) (QRScanner.id b))
    by (intros shown b H1 H2; apply vouched_later; now apply (Hshown shown b)).
  assert (Hheld' : forall t b,
             In t (QRScanner.pending s) -> QRScanner.held_by t = Some b ->
             QRScanner.vouched js (events ++ [e]) (QRScanner.id b))
    by (intros t b H1 H2; apply vouched_later; now apply (Hheld t b)).
  assert (Hsame : all_vouched js (events ++ [e]) s) by (repeat split; assumption).
  clear Hsent Hshown Hheld.
  (* a result without a booking, or with one that is vouched for *)
  assert (Hset : forall r l,
             (forall b, QRScanner.booking r = Some b ->
                        QRScanner.vouched js (events ++ [e]) (QRScanner.id b)) ->
             (forall t, In t l -> In t (QRScanner.pending s)) ->
             forall s',
               QRScanner.sent s' = QRScanner.sent s ->
               QRScanner.result s' = Some r ->
               QRScanner.pending s' = l ->
               all_vouched js (events ++ [e]) s').
  { intros r l Hr Hl s' E1 E2 E3. unfold all_vouched. rewrite E1, E2, E3.
    split; [exact Hsent' |]. split.
    - intros shown b E Eb. injection E as <-. now apply Hr.
    - intros t b Ht. apply Hheld'. now apply Hl. }
  destruct e as [a seen data | v | c | | | | m | | k reply | k reply];
    cbn [QRScanner.step]; try exact Hsame.
  - (* a code is read *)
    unfold QRScanner.handleScan.
    destruct (QRScanner.processingRef s || _)%bool; [exact Hsame |].
    repeat split; cbn.
    + intros bid H. apply in_app_or in H as [H | [H | []]]; [now apply Hsent' | discriminate H].
    + exact Hshown'.
    + intros t b H. apply in_app_or in H as [H | [<- | []]]; [now apply Hheld' | discriminate].
  - (* a reference is submitted *)
    unfold QRScanner.handleManualSubmit.
    destruct (_ =? _)%string; [exact Hsame |].
    repeat split; cbn.
    + intros bid H. apply in_app_or in H as [H | [H | []]]; [now apply Hsent' | discriminate H].
    + exact Hshown'.
    + intros t b H. apply in_app_or in H as [H | [<- | []]]; [now apply Hheld' | discriminate].
  - (* the button *)
    unfold QRScanner.handleCheckIn.
    destruct (QRScanner.result s) as [shown |] eqn:Er; [| exact Hsame].
    destruct (QRScanner.booking shown) as [b |] eqn:Eb; [| exact Hsame].
    pose proof (Hshown' shown b eq_refl Eb) as Hb.
    repeat split; cbn.
    + intros bid H. apply in_app_or in H as [H | [H | []]]; [now apply Hsent' |].
      now injection H as <-.
    + rewrite Er. exact Hshown'.
    + intros t b' H. apply in_app_or in H as [H | [<- | []]]; [now apply Hheld' |].
      cbn. intros E. now injection E as <-.
  - (* cleared *)
    repeat split; cbn; [exact Hsent' | discriminate | exact Hheld'].
  - (* the camera fails *)
    repeat split; cbn; [exact Hsent' | | exact Hheld'].
    intros shown b E. injection E as <-. discriminate.
  - (* a timer *)
    unfold QRScanner.timer_fired. destruct (QRScanner.timers s); exact Hsame.
  - (* the answer of a verification *)
    destruct (nth_error (QRScanner.pending s) k) as [t |] eqn:Ek; [| exact Hsame].
    assert (Hhere : forall a v b,
               QRScanner.verifying s k a -> reply = QRScanner.Got v ->
               QRScanner.booking v = Some b ->
               QRScanner.vouched js (events ++ [QRScanner.VerifyAnswered k reply])
                                 (QRScanner.id b)).
    { intros a v b Hv -> Eb. exists events, k, v, b, [], a. auto. }
    assert (Hverified : forall a,
               QRScanner.verifying s k a ->
               forall task fin,
                 (forall s', QRScanner.sent (fin s') = QRScanner.sent s' /\
                             QRScanner.result (fin s') = QRScanner.result s' /\
                             QRScanner.pending (fin s') = QRScanner.pending s') ->
                 (forall b, QRScanner.held_by (task b) = Some b) ->
                 all_vouched js (events ++ [QRScanner.VerifyAnswered k reply])
                   match reply with
                   | QRScanner.Rejected =>
                       fin (QRScanner.setResult (Some QRScanner.verification_failed)
                                                (QRScanner.through k s))
                   | QRScanner.Got verifyResult =>
                       match QRScanner.to_check_in verifyResult a with
                       | Some b =>
                           QRScanner.waits_again k (task b)
                             (QRScanner.fetch (QRScanner.CheckIn (QRScanner.id b)) s)
                       | None =>
                           fin (QRScanner.setResult (Some verifyResult)
                                                    (QRScanner.through k s))
                       end
                   end).
    { intros a Hv task fin Hfin Htask.
      destruct reply as [v |].
      - destruct (QRScanner.to_check_in v a) as [b |] eqn:Ec.
        + apply to_check_in_Some in Ec as (Eb & _).
          pose proof (Hhere a v b Hv eq_refl Eb) as Hb.
          repeat split; cbn.
          * intros bid H. apply in_app_or in H as [H | [H | []]]; [now apply Hsent' |].
            now injection H as <-.
          * exact Hshown'.
          * intros t' b' H. apply in_waits_again in H as [-> | H]; [| now apply Hheld'].
            rewrite Htask. intros E. now injection E as <-.
        + destruct (Hfin (QRScanner.setResult (Some v) (QRScanner.through k s)))
            as (E1 & E2 & E3).
          apply (Hset v (QRScanner.pending (QRScanner.through k s))).
          * intros b Eb. now apply (Hhere a v b).
          * intros t'. cbn. apply in_through.
          * now rewrite E1.
          * now rewrite E2.
          * now rewrite E3.
      - destruct (Hfin (QRScanner.setResult (Some QRScanner.verification_failed)
                                            (QRScanner.through k s)))
          as (E1 & E2 & E3).
        apply (Hset QRScanner.verification_failed
                    (QRScanner.pending (QRScanner.through k s))).
        + intros b Eb. discriminate Eb.
        + intros t'. cbn. apply in_through.
        + now rewrite E1.
        + now rewrite E2.
        + now rewrite E3. }
    destruct t as [a | b | a | b | b]; try exact Hsame.
    + apply (Hverified a (or_introl Ek) QRScanner.ScanCheckingIn QRScanner.handleScan_finally);
        [intros s'; repeat split | reflexivity].
    + apply (Hverified a (or_intror Ek) QRScanner.ManualCheckingIn
                       (QRScanner.setIsProcessing false));
        [intros s'; repeat split | reflexivity].
  - (* the answer of a check-in *)
    destruct (nth_error (QRScanner.pending s) k) as [t |] eqn:Ek; [| exact Hsame].
    assert (Hin : In t (QRScanner.pending s)) by (eapply nth_error_In; exact Ek).
    destruct t as [a | b | a | b | b]; try exact Hsame;
      pose proof (Hheld' _ b Hin eq_refl) as Hb.
    + unfold QRScanner.handleScan_checked_in.
      eapply (Hset _ (QRScanner.pending (QRScanner.through k s)));
        [| intros t'; cbn; apply in_through | reflexivity | reflexivity | reflexivity].
      intros b'. destruct reply as [r |]; [destruct (QRScanner.success r) |]; cbn;
        intros E; try discriminate E; now injection E as <-.
    + unfold QRScanner.handleManualSubmit_checked_in.
      eapply (Hset _ (QRScanner.pending (QRScanner.through k s)));
        [| intros t'; cbn; apply in_through | reflexivity | reflexivity | reflexivity].
      intros b'. destruct reply as [r |]; [destruct (QRScanner.success r) |]; cbn;
        intros E; try discriminate E; now injection E as <-.
    + unfold QRScanner.handleCheckIn_checked_in.
      eapply (Hset _ (QRScanner.pending (QRScanner.through k s)));
        [| intros t'; cbn; apply in_through | reflexivity | reflexivity | reflexivity].
      intros b'. destruct reply as [r |]; [destruct (QRScanner.success r) |]; cbn;
        intros E; try discriminate E; now injection E as <-.
Qed.

Lemma step_one_scan (js : QRScanner.Strings) (s : QRScanner.State) (e : QRScanner.Event) :
  one_scan s -> one_scan (QRScanner.step js s e).
Proof.
  intros [Hcount Hidle].
  assert (Hsame : one_scan s) by (split; assumption).
  destruct e as [a seen data | v | c | | | | m | | k reply | k reply];
    cbn [QRScanner.step]; try exact Hsame.
  - unfold QRScanner.handleScan.
    destruct (QRScanner.processingRef s) eqn:Ep; [exact Hsame |].
    destruct (match seen with Some c => (data =? c)%string | None => false end);
      [exact Hsame |].
    split; cbn.
    + rewrite filter_app, length_app, Hcount. reflexivity.
    + intros E. destruct (QRScanner.pending s); discriminate E.
  - unfold QRScanner.handleManualSubmit.
    destruct (_ =? _)%string; [exact Hsame |].
    split; cbn.
    + rewrite filter_app, length_app, Hcount. cbn. apply Nat.add_0_r.
    + intros E. destruct (QRScanner.pending s); discriminate E.
  - unfold QRScanner.handleCheckIn.
    destruct (QRScanner.result s) as [shown |]; [| exact Hsame].
    destruct (QRScanner.booking shown) as [b |]; [| exact Hsame].
    split; cbn.
    + rewrite filter_app, length_app, Hcount. cbn. apply Nat.add_0_r.
    + intros E. destruct (QRScanner.pending s); discriminate E.
  - unfold QRScanner.timer_fired. destruct (QRScanner.timers s); [exact Hsame |].
    split; cbn; assumption.
  - destruct (nth_error (QRScanner.pending s) k) as [t |] eqn:Ek; [| exact Hsame].
    destruct (split_at _ _ _ Ek) as (l1 & l2 & El & E1 & E2).
    rewrite El, filter_app, length_app in Hcount. cbn [filter] in Hcount.
    destruct t as [a | b | a | b | b]; try exact Hsame; cbn [QRScanner.of_handleScan] in Hcount.
    + (* handleScan goes on *)
      cbn [length] in Hcount.
      destruct (QRScanner.processingRef s) eqn:Ep; [| lia].
      unfold QRScanner.handleScan_verified, QRScanner.through, QRScanner.waits_again.
      rewrite E1, E2.
      destruct reply as [v |]; [destruct (QRScanner.to_check_in v a) |]; split;
        cbn -[skipn firstn]; rewrite ?E1, ?E2, ?filter_app, ?length_app; cbn;
        try rewrite Ep; try lia; try reflexivity.
      intros E. destruct l1; discriminate E.
    + (* handleManualSubmit goes on *)
      unfold QRScanner.handleManualSubmit_verified, QRScanner.through,
        QRScanner.waits_again.
      rewrite E1, E2.
      destruct reply as [v |]; [destruct (QRScanner.to_check_in v a) |]; split;
        cbn -[skipn firstn]; rewrite ?E1, ?E2, ?filter_app, ?length_app; cbn;
        try exact Hcount; try reflexivity.
      intros E. destruct l1; discriminate E.
  - destruct (nth_error (QRScanner.pending s) k) as [t |] eqn:Ek; [| exact Hsame].
    destruct (split_at _ _ _ Ek) as (l1 & l2 & El & E1 & E2).
    rewrite El, filter_app, length_app in Hcount. cbn [filter] in Hcount.
    destruct t as [a | b | a | b | b]; try exact Hsame; cbn [QRScanner.of_handleScan] in Hcount.
    + cbn [length] in Hcount.
      destruct (QRScanner.processingRef s) eqn:Ep; [| lia].
      unfold QRScanner.handleScan_checked_in, QRScanner.through. rewrite E1, E2.
      split; cbn; rewrite ?filter_app, ?length_app; [lia | reflexivity].
    + unfold QRScanner.handleManualSubmit_checked_in, QRScanner.through. rewrite E1, E2.
      split; cbn; rewrite ?filter_app, ?length_app; [exact Hcount | reflexivity].
    + unfold QRScanner.handleCheckIn_checked_in, QRScanner.through. rewrite E1, E2.
      split; cbn; rewrite ?filter_app, ?length_app; [exact Hcount | reflexivity].
Qed.

Lemma run_all_vouched (js : QRScanner.Strings) (events : list QRScanner.Event) :
  all_vouched js events (QRScanner.run js events).
Proof.
  induction events as [| e events IH] using rev_ind.
  - split; [intros bid [] |]. split; [intros shown b E; discriminate E |].
    intros t b [].
  - now apply step_all_vouched.
Qed.

Lemma run_one_scan (js : QRScanner.Strings) (events : list QRScanner.Event) :
  one_scan (QRScanner.run js events).
Proof.
  induction events as [| e events IH] using rev_ind.
  - split; reflexivity.
  - rewrite run_snoc. now apply step_one_scan.
Qed.

(** X24. The scanner, with its callbacks overlapping.  Whatever is read,
    typed, switched, submitted, pressed or cleared, whatever the endpoints
    answer and in whatever order the answers arrive, at every moment: every
    check-in the component has asked for was for a booking that an answer to
    one of its own verifications had carried by then, and the booking on
    display is such a booking; at most one run of [handleScan] waits for an
    answer, [processingRef] says whether one does, and a code read while one
    waits is dropped, without a request; and when no callback waits, nothing
    is marked as processing. *)
Theorem scanner_checks_in_only_vouched_bookings
        (js : QRScanner.Strings) (events : list QRScanner.Event) :
  let s := QRScanner.run js events in
  (forall bookingId,
      In (QRScanner.CheckIn bookingId) (QRScanner.sent s) ->
      exists pre e post,
        events = (pre ++ e :: post)%list /\
        In (QRScanner.CheckIn bookingId) (QRScanner.sent_by js (QRScanner.run js pre) e) /\
        QRScanner.vouched js (pre ++ [e]) bookingId) /\
  (forall shown b,
      QRScanner.result s = Some shown -> QRScanner.booking shown = Some b ->
      QRScanner.vouched js events (QRScanner.id b)) /\
  length (filter QRScanner.of_handleScan (QRScanner.pending s))
  = (if QRScanner.processingRef s then 1 else 0)%nat /\
  (forall t autoCheckIn seen data,
      In t (QRScanner.pending s) -> QRScanner.of_handleScan t = true ->
      QRScanner.step js s (QRScanner.Scanned autoCheckIn seen data) = s) /\
  (QRScanner.pending s = [] ->
   QRScanner.isProcessing s = false /\ QRScanner.processingRef s = false).
Proof.
  cbv zeta.
  destruct (run_all_vouched js events) as (_ & Hshown & _).
  destruct (run_one_scan js events) as [Hcount Hidle].
  split; [| split; [exact Hshown |]; split; [exact Hcount |]; split].
  - clear. induction events as [| e events IH] using rev_ind; [intros bid [] |].
    intros bid H. pose proof H as Hin.
    rewrite run_snoc, step_sent in H. apply in_app_or in H as [H | H].
    + destruct (IH bid H) as (pre & e' & post & -> & Hs & Hv).
      exists pre, e', (post ++ [e])%list. rewrite <- app_assoc. auto.
    + exists events, e, []. split; [reflexivity |]. split; [exact H |].
      now apply (run_all_vouched js (events ++ [e])).
  - intros t a seen data Hin Ht. cbn [QRScanner.step]. unfold QRScanner.handleScan.
    destruct (QRScanner.processingRef (QRScanner.run js events)); [reflexivity |].
    exfalso.
    assert (Hf : In t (filter QRScanner.of_handleScan
                               (QRScanner.pending (QRScanner.run js events))))
      by (apply filter_In; auto).
    destruct (filter QRScanner.of_handleScan (QRScanner.pending (QRScanner.run js events)));
      [contradiction | discriminate Hcount].
  - intros E. split; [now apply Hidle |].
    rewrite E in Hcount. cbn in Hcount.
    destruct (QRScanner.processingRef (QRScanner.run js events)); [discriminate | reflexivity].
Qed.

(** *** Concrete runs *)

Lemma calm_no_faults : no_faults Example.calm.
Proof. intros site. reflexivity. Defined.

Lemma later_is_quiet : quiet More.later.
Proof. intros site st. reflexivity. Defined.


Lemma reserve_reclaims_lapsed_holds_witness :
  fst (Reserve.POST Example.calm (Some (Example.reserve_request ["a1"; "a2"]))
                    Example.hall)
  = json (BReserved 601000 ["a1"; "a2"]) /\
  In (mkSeat "a2" "show-1" "Hovedsal" "A" 2 300 (Some "reserved") (Some 601000))
     (seats (db (snd (Reserve.POST Example.calm
                        (Some (Example.reserve_request ["a1"; "a2"])) Example.hall)))).
Proof.
  assert (Hnow : 0 <= now_at_check Example.calm) by (unfold Example.calm; simpl; lia).
  assert (Hreach : reaches_status_check Example.calm Example.hall
                     (Example.reserve_request ["a1"; "a2"]) ["a1"; "a2"] "show-1")
    by (repeat split; reflexivity).
  assert (Hrows : forall s, In s (requested_rows Example.hall ["a1"; "a2"] "show-1") ->
                            reservable (now_at_check Example.calm) s).
  { intros s [<- | [<- | []]].
    - left. reflexivity.
    - right. split; [reflexivity |]. right. exists 500.
      split; [reflexivity | unfold Example.calm; simpl; lia]. }
  pose proof (reserve_reclaims_lapsed_holds Example.calm Example.hall
                (Example.reserve_request ["a1"; "a2"]) ["a1"; "a2"] "show-1"
                calm_is_quiet hall_is_keyed Hnow Hreach eq_refl eq_refl Hrows) as H.
  split; [exact (proj1 H) |].
  apply (proj1 (proj2 H) Example.a2). simpl. tauto.
Defined.

Lemma reserve_excludes_second_caller_witness :
  exists msg unavailable,
    fst (Reserve.POST Example.calm (Some (Example.reserve_request ["a6"]))
           (db (snd (Reserve.POST Example.calm
                       (Some (Example.reserve_request ["a1"; "a6"])) Example.hall))))
    = json_status (BUnavailable msg unavailable) 409 /\
    In "a6" unavailable /\
    forall e,
      In e (issued (snd (Reserve.POST Example.calm (Some (Example.reserve_request ["a6"]))
                           (db (snd (Reserve.POST Example.calm
                                       (Some (Example.reserve_request ["a1"; "a6"]))
                                       Example.hall)))))) ->
      sets_reserved e = false.
Proof.
  refine (reserve_excludes_second_caller Example.calm Example.calm Example.hall
            (Example.reserve_request ["a1"; "a6"]) (Example.reserve_request ["a6"])
            ["a1"; "a6"] ["a6"] "show-1" "show-1" _ _ "a6"
            calm_is_quiet hall_is_keyed _ (surjective_pairing _) _
            calm_is_quiet _ _ _ _).
  - repeat split; reflexivity.
  - reflexivity.
  - repeat split; reflexivity.
  - simpl. tauto.
  - simpl. tauto.
  - unfold Example.calm, More.later; simpl; lia.
Defined.


Lemma reserve_rejects_foreign_seat_witness :
  fst (Reserve.POST Example.calm (Some (Example.reserve_request ["a1"; "b1"]))
                    Example.hall)
  = Reserve.seats_not_found /\
  snd (Reserve.POST Example.calm (Some (Example.reserve_request ["a1"; "b1"]))
                    Example.hall)
  = mkWorld Example.hall [].
Proof.
  refine (let H := reserve_rejects_foreign_seat Example.calm Example.hall
                     (Example.reserve_request ["a1"; "b1"]) ["a1"; "b1"] "show-1" "b1"
                     calm_is_quiet hall_is_keyed eq_refl eq_refl _ _ in
          conj (proj2 (proj2 H) eq_refl eq_refl eq_refl) (proj1 (proj2 H))).
  - simpl. tauto.
  - intros s Hs Eid. simpl in Hs.
    repeat (destruct Hs as [<- | Hs]; [try discriminate Eid |]); [| contradiction].
    simpl. discriminate.
Defined.

Lemma reserve_failure_holds_nothing_witness :
  map id (seats (db (snd (Reserve.POST Example.calm
                            (Some (Example.reserve_request ["a1"; "a2"; "a4"]))
                            Example.hall))))
  = ["a1"; "a2"; "a3"; "a4"; "a5"; "a6"; "b1"] /\
  bookings (db (snd (Reserve.POST Example.calm
                       (Some (Example.reserve_request ["a1"; "a2"; "a4"]))
                       Example.hall)))
  = [].
Proof.
  refine (let H := reserve_failure_holds_nothing Example.calm
                     (Some (Example.reserve_request ["a1"; "a2"; "a4"])) Example.hall _ _
                     calm_is_quiet eq_refl (surjective_pairing _) _ in
          conj (proj1 (proj2 H)) (proj1 (proj2 (proj2 (proj2 H))))).
  vm_compute. discriminate.
Defined.

Lemma handlers_keep_seat_identity_witness :
  map seat_identity
      (seats (db (snd (Confirm.POST Example.calm
                         (Some (Example.confirm_request "show-1" ["a1"; "a6"] 600))
                         Example.hall))))
  = map seat_identity (seats Example.hall).
Proof.
  exact (proj2 (handlers_keep_seat_identity Example.calm Example.hall calm_is_quiet)
               (Some (Example.confirm_request "show-1" ["a1"; "a6"] 600))).
Defined.

Lemma sold_seat_is_final_witness :
  In Example.a4
     (seats (db (snd (Reserve.POST Example.calm
                        (Some (Example.reserve_request ["a2"; "a4"])) Example.hall)))).
Proof.
  refine (proj1 (sold_seat_is_final Example.calm Example.hall Example.a4
                   calm_is_quiet hall_is_keyed _ (or_introl eq_refl))
                (Some (Example.reserve_request ["a2"; "a4"]))).
  simpl. tauto.
Defined.

Lemma confirm_sells_the_seats_witness :
  exists emailSent emailError b,
    fst (Confirm.POST Example.calm
           (Some (Example.confirm_request "show-1" ["a1"; "a6"] 600)) Example.hall)
    = json (BBooked "booking-1" "TM-260110-AB12" emailSent emailError) /\
    seats (db (snd (Confirm.POST Example.calm
                      (Some (Example.confirm_request "show-1" ["a1"; "a6"] 600))
                      Example.hall)))
    = write_seats (mkFilter ["a1"; "a6"] None None) (mkPatch "sold" None)
                  (seats Example.hall) /\
    bookings (db (snd (Confirm.POST Example.calm
                         (Some (Example.confirm_request "show-1" ["a1"; "a6"] 600))
                         Example.hall)))
    = [b].
Proof.
  destruct (confirm_sells_the_seats Example.calm Example.hall
              (Example.confirm_request "show-1" ["a1"; "a6"] 600) ["a1"; "a6"]
              calm_is_quiet calm_no_faults)
    as (sent & err & b & Hr & Hs & Hb & _).
  - repeat split; reflexivity.
  - intros s [<- | [<- | []]]; right; reflexivity.
  - simpl. tauto.
  - exists sent, err, b. auto.
Defined.

Lemma confirm_decrements_available_seats_witness :
  map available_seats
      (shows (db (snd (Confirm.POST Example.calm
                         (Some (Example.confirm_request "show-2" ["a1"; "a6"] 600))
                         Example.hall))))
  = [5; -1].
Proof.
  rewrite (confirm_decrements_available_seats Example.calm Example.hall
             (Example.confirm_request "show-2" ["a1"; "a6"] 600) ["a1"; "a6"] "show-2"
             calm_is_quiet calm_no_faults).
  - reflexivity.
  - repeat split; reflexivity.
  - reflexivity.
  - intros s [<- | [<- | []]]; right; reflexivity.
  - simpl. tauto.
Defined.

Lemma confirm_records_discount_code_witness :
  discount_codes
    (db (snd (Confirm.POST Example.calm
                (Some (More.discounted_request ["a1"; "a6"] 540 "VENN10")) Example.hall)))
  = [mkCode "code-1" "VENN10" (Some 3)].
Proof.
  refine (proj1 (proj2 (proj2
            (confirm_records_discount_code Example.calm Example.hall
               (More.discounted_request ["a1"; "a6"] 540 "VENN10") ["a1"; "a6"] "VENN10"
               calm_is_quiet calm_no_faults _ eq_refl _ _ _)))
            (mkCode "code-1" "VENN10" (Some 2)) eq_refl).
  - repeat split; reflexivity.
  - discriminate.
  - intros s [<- | [<- | []]]; right; reflexivity.
  - simpl. tauto.
Defined.

Lemma reserve_after_confirm_conflicts_witness :
  exists msg unavailable,
    fst (Reserve.POST More.later (Some (Example.reserve_request ["a2"; "a6"]))
           (db (snd (Confirm.POST Example.calm
                       (Some (Example.confirm_request "show-1" ["a1"; "a6"] 600))
                       Example.hall))))
    = json_status (BUnavailable msg unavailable) 409 /\
    In "a6" unavailable.
Proof.
  destruct (reserve_after_confirm_conflicts Example.calm More.later Example.hall
              (Some (Example.confirm_request "show-1" ["a1"; "a6"] 600))
              (Example.reserve_request ["a2"; "a6"]) ["a2"; "a6"] "show-1" _ _ "a6"
              calm_is_quiet hall_is_keyed eq_refl (surjective_pairing _))
    as (msg & unavailable & Hr & Hin & _).
  - reflexivity.
  - exact later_is_quiet.
  - repeat split; reflexivity.
  - simpl. tauto.
  - simpl. tauto.
  - exists msg, unavailable. auto.
Defined.

Lemma confirm_twice_rejected_witness :
  fst (Confirm.POST More.later
         (Some (Example.confirm_request "show-1" ["a6"] 300))
         (db (snd (Confirm.POST Example.calm
                     (Some (Example.confirm_request "show-1" ["a1"; "a6"] 600))
                     Example.hall))))
  = json_status (BError "1 av setene er allerede solgt") 400.
Proof.
  rewrite (proj2 (proj2
             (confirm_twice_rejected Example.calm More.later Example.hall
                (Some (Example.confirm_request "show-1" ["a1"; "a6"] 600))
                (Example.confirm_request "show-1" ["a6"] 300) ["a6"] _ _ "a6"
                calm_is_quiet hall_is_keyed eq_refl (surjective_pairing _) eq_refl
                later_is_quiet eq_refl (or_intror (or_introl eq_refl))
                (or_introl eq_refl)))).
  - reflexivity.
  - repeat split; reflexivity.
Defined.


Lemma confirm_requires_sign_in_witness :
  fst (Confirm.POST More.signed_out
         (Some (Example.confirm_request "show-1" ["a1"; "a6"] 600)) Example.hall)
  = Confirm.not_signed_in /\
  snd (Confirm.POST More.signed_out
         (Some (Example.confirm_request "show-1" ["a1"; "a6"] 600)) Example.hall)
  = mkWorld Example.hall [].
Proof.
  refine (let H := confirm_requires_sign_in More.signed_out
                     (Some (Example.confirm_request "show-1" ["a1"; "a6"] 600))
                     Example.hall eq_refl in
          conj (proj2 (proj2 H) _ eq_refl eq_refl) (proj1 H)).
Defined.

(** *** Concrete runs of the page and of the selector *)

Lemma client_undisturbed : Bestill.undisturbed Foyer.client.
Proof. split; [intros site t | intros site]; reflexivity. Defined.

Lemma getShowData_creates_the_hall_witness :
  exists created,
    Bestill.getShowData Foyer.client "show-1" Foyer.empty_hall
    = (Bestill.Value (Some (Foyer.on_sale, created)),
       Bestill.mkTables (Bestill.show_rows Foyer.empty_hall)
                        (Bestill.seat_rows Foyer.empty_hall ++ created)) /\
    len created = 6 /\
    NoDup (map (fun s => (row s, number s)) created).
Proof.
  destruct (getShowData_creates_the_hall Foyer.client "show-1" Foyer.empty_hall
              Foyer.on_sale (Bestill.mkSeatMapConfig None (Some 2) (Some 3)) 2 3
              client_undisturbed eq_refl)
    as (created & Erun & Hlen & _ & _ & Hplaces).
  - intros s [<- | []]. discriminate.
  - reflexivity.
  - reflexivity.
  - reflexivity.
  - reflexivity.
  - lia.
  - lia.
  - exists created. auto.
Defined.

Lemma getShowData_is_idempotent_witness :
  Bestill.getShowData Foyer.client "show-1" Foyer.full_hall
  = (Bestill.Value (Some (Foyer.on_sale, Foyer.created)), Foyer.full_hall).
Proof.
  exact (getShowData_is_idempotent Foyer.client Foyer.client "show-1"
           Foyer.empty_hall Foyer.full_hall (Some (Foyer.on_sale, Foyer.created))
           client_undisturbed client_undisturbed eq_refl).
Defined.

Lemma BookingPage_views_witness :
  exists view created,
    Bestill.BookingPage Foyer.client "show-9" Foyer.empty_hall
    = (Bestill.Value view,
       Bestill.mkTables (Bestill.show_rows Foyer.empty_hall)
                        (Bestill.seat_rows Foyer.empty_hall ++ created)) /\
    view = Bestill.NotFound.
Proof.
  destruct (BookingPage_views Foyer.client "show-9" Foyer.empty_hall client_undisturbed)
    as (view & created & Erun & _).
  exists view, created. split; [exact Erun |].
  vm_compute in Erun. now injection Erun as <- _.
Defined.

Lemma fresh_hall_can_be_reserved_witness :
  exists seatIds,
    fst (Reserve.POST Example.calm
           (Some (Reserve.mkBody (Some ["n-4"; "n-0"]) (Some "show-1")))
           (Bestill.as_store Foyer.full_hall))
    = json (BReserved 601000 seatIds) /\
    (forall i, In i seatIds <-> In i ["n-4"; "n-0"]).
Proof.
  refine (fresh_hall_can_be_reserved Foyer.client Example.calm "show-1"
            Foyer.empty_hall Foyer.full_hall Foyer.on_sale Foyer.created ["n-4"; "n-0"]
            client_undisturbed _ eq_refl _ calm_is_quiet eq_refl eq_refl eq_refl eq_refl
            _ _ _ _ _).
  - intros s [<- | []]. discriminate.
  - unfold keyed. vm_compute.
    repeat (constructor; [simpl; intuition discriminate |]). constructor.
  - unfold Example.calm; simpl; lia.
  - discriminate.
  - discriminate.
  - repeat (constructor; [simpl; intuition discriminate |]). constructor.
  - intros i [<- | [<- | []]]; simpl; tauto.
Defined.

Lemma handleProceed_outcomes_witness :
  fst (SeatSelector.handleProceed Example.calm (SeatSelector.served Example.show1)
         Example.show1 Example.hall
         (SeatSelector.mkState (seats_of_show "show-1" Example.hall)
                               [Example.a1; Example.a6] false None,
          Foyer.nothing_yet))
  = (SeatSelector.mkState (seats_of_show "show-1" Example.hall)
                          [Example.a1; Example.a6] true None,
     SeatSelector.mkBrowser
       (Some (SeatSelector.mkStoredBooking "show-1" ["a1"; "a6"] 600 (Some 601000)))
       (Some "/kasse/billett?show=show-1")).
Proof.
  refine (proj1 (proj2
            (handleProceed_outcomes Example.calm (SeatSelector.served Example.show1)
               Example.show1 Example.hall
               (SeatSelector.mkState (seats_of_show "show-1" Example.hall)
                                     [Example.a1; Example.a6] false None)
               Foyer.nothing_yet _)) _).
  - discriminate.
  - reflexivity.
Defined.

Lemma proceed_again_after_conflict_witness :
  SeatSelector.selectedSeats
    (fst (fst (SeatSelector.handleProceed Example.calm (SeatSelector.served Example.show1)
                 Example.show1 Example.hall (Foyer.picked, Foyer.nothing_yet))))
  = [Example.a1; Example.a6] /\
  snd (fst (SeatSelector.handleProceed More.later (SeatSelector.served Example.show1)
              Example.show1
              (db (snd (SeatSelector.handleProceed Example.calm
                          (SeatSelector.served Example.show1) Example.show1 Example.hall
                          (Foyer.picked, Foyer.nothing_yet))))
              (fst (SeatSelector.handleProceed Example.calm
                      (SeatSelector.served Example.show1) Example.show1 Example.hall
                      (Foyer.picked, Foyer.nothing_yet)))))
  = SeatSelector.mkBrowser
      (Some (SeatSelector.mkStoredBooking "show-1" ["a1"; "a6"] 600 (Some 1300000)))
      (Some "/kasse/billett?show=show-1").
Proof.
  split; [reflexivity |].
  assert (Hrows : forall x, In x (SeatSelector.selectedSeats Foyer.picked) ->
                    exists seat, In seat (seats Example.hall) /\ id seat = id x /\
                                 show_id seat = show_key Example.show1 /\
                                 plain_status seat).
  { intros x [<- | [<- | [<- | []]]].
    - exists Example.a1. simpl. unfold plain_status. simpl. tauto.
    - exists Example.a5. simpl. unfold plain_status. simpl. tauto.
    - exists Example.a6. simpl. unfold plain_status. simpl. tauto. }
  assert (Hheld : exists x seat, In x (SeatSelector.selectedSeats Foyer.picked) /\
                                 In seat (seats Example.hall) /\ id seat = id x /\
                                 held (now_at_check Example.calm) seat).
  { exists Foyer.stale_a5, Example.a5. simpl. split; [tauto |]. split; [tauto |].
    split; [reflexivity |]. right. right. split; [reflexivity |].
    exists 900000. split; [reflexivity | unfold Example.calm; simpl; lia]. }
  assert (Hnd : NoDup (map id (SeatSelector.selectedSeats Foyer.picked))).
  { simpl. repeat (constructor; [simpl; intuition discriminate |]). constructor. }
  assert (Hnow1 : 0 <= now_at_check Example.calm) by (unfold Example.calm; simpl; lia).
  assert (Hnow2 : 0 <= now_at_check More.later) by (unfold More.later; simpl; lia).
  assert (Hsh : show_key Example.show1 <> "") by discriminate.
  pose proof (proceed_again_after_conflict Example.calm More.later Example.show1
                Example.hall Foyer.picked Foyer.nothing_yet
                calm_is_quiet later_is_quiet hall_is_keyed eq_refl eq_refl eq_refl Hnow1
                eq_refl eq_refl eq_refl eq_refl Hnow2 Hsh Hnd Hrows Hheld) as H.
  cbv zeta in H.
  assert (Hleft : SeatSelector.selectedSeats
                    (fst (fst (SeatSelector.handleProceed Example.calm
                                 (SeatSelector.served Example.show1) Example.show1
                                 Example.hall (Foyer.picked, Foyer.nothing_yet))))
                  <> []) by (vm_compute; discriminate).
  destruct (H Hleft) as (_ & _ & Hb & _).
  rewrite Hb. reflexivity.
Defined.

Lemma scanner_checks_in_only_vouched_bookings_witness :
  QRScanner.sent (QRScanner.run Foyer.as_typed Foyer.evening)
  = [QRScanner.VerifyTicket (QRScanner.ByQrData "qr-1");
     QRScanner.VerifyTicket (QRScanner.ByReference "TM-260110-AB12");
     QRScanner.CheckIn "booking-1"; QRScanner.CheckIn "booking-1"] /\
  (exists pre e post,
      Foyer.evening = (pre ++ e :: post)%list /\
      In (QRScanner.CheckIn "booking-1")
         (QRScanner.sent_by Foyer.as_typed (QRScanner.run Foyer.as_typed pre) e) /\
      QRScanner.vouched Foyer.as_typed (pre ++ [e]) "booking-1") /\
  QRScanner.isProcessing (QRScanner.run Foyer.as_typed Foyer.evening) = false /\
  QRScanner.processingRef (QRScanner.run Foyer.as_typed Foyer.evening) = false.
Proof.
  pose proof (scanner_checks_in_only_vouched_bookings Foyer.as_typed Foyer.evening) as H.
  cbv zeta in H. destruct H as (Hsent & _ & _ & _ & Hidle).
  split; [reflexivity |]. split.
  - apply Hsent. simpl. tauto.
  - apply Hidle. reflexivity.
Defined.

